(** * Ledger service: a shallow embedding of the gRPC service layer
      (internal/service), the repository layer (internal/repository) and the
      tenant-scoped database access (internal/db), with the properties of the
      ledger transaction engine stated over it. *)

From Stdlib Require Import ZArith QArith Qpower List String Ascii Bool Lia.
From Stdlib Require Import OrderedTypeEx.
From Stdlib Require Import Permutation Sorted DecimalString DecimalNat.
Import ListNotations.

Local Open Scope string_scope.
Local Open Scope list_scope.
Local Open Scope Z_scope.

(** ** Byte strings

    Go strings are byte sequences; the parsers below work on [list ascii]. *)

Definition chars (s : string) : list ascii := list_ascii_of_string s.
Definition str (cs : list ascii) : string := string_of_list_ascii cs.

Definition ascii_eqb (a b : ascii) : bool := Ascii.eqb a b.

(** [strconv.Itoa] / the [%d] verb on a non-negative index. *)
Definition itoa (n : nat) : string := NilZero.string_of_uint (Nat.to_uint n).

(** ** github.com/shopspring/decimal

    A [Decimal] is [value * 10 ^ exp] with an arbitrary-precision [value]
    (a [big.Int]) and an [int32] exponent.  Only the operations the ledger
    uses are embedded: [NewFromString], [Add], [Sub], [Cmp], [Equal],
    [Sign] and [String]. *)

Module decimal.

Record Decimal : Type := mkDecimal { value : Z; exp : Z }.

Definition MinInt32 : Z := - 2 ^ 31.
Definition MaxInt32 : Z := 2 ^ 31 - 1.

(** [d.rescale(exp)]: same number at another exponent; truncates when the
    exponent grows, exact when it shrinks. *)
Definition rescale (d : Decimal) (e : Z) : Decimal :=
  if exp d =? e then d
  else if exp d <? e
       then mkDecimal (Z.quot (value d) (10 ^ (e - exp d))) e
       else mkDecimal (value d * 10 ^ (exp d - e)) e.

Definition RescalePair (d1 d2 : Decimal) : Decimal * Decimal :=
  if exp d1 <? exp d2 then (d1, rescale d2 (exp d1))
  else if exp d2 <? exp d1 then (rescale d1 (exp d2), d2)
  else (d1, d2).

Definition Add (d d2 : Decimal) : Decimal :=
  let '(rd, rd2) := RescalePair d d2 in
  mkDecimal (value rd + value rd2) (exp rd).

Definition Sub (d d2 : Decimal) : Decimal :=
  let '(rd, rd2) := RescalePair d d2 in
  mkDecimal (value rd - value rd2) (exp rd).

Definition Cmp (d d2 : Decimal) : comparison :=
  let '(rd, rd2) := RescalePair d d2 in
  Z.compare (value rd) (value rd2).

Definition Equal (d d2 : Decimal) : bool :=
  match Cmp d d2 with Eq => true | _ => false end.

Definition Sign (d : Decimal) : Z := Z.sgn (value d).

Definition IsNegative (d : Decimal) : bool := Sign d <? 0.

(** The rational number a decimal denotes. *)
Definition toQ (d : Decimal) : Q := inject_Z (value d) * (10 # 1) ^ exp d.

(** *** Parsing: [decimal.NewFromString] *)

Definition digit_of (c : ascii) : option Z :=
  let n := Z.of_nat (nat_of_ascii c) in
  if (48 <=? n) && (n <=? 57) then Some (n - 48) else None.

Fixpoint parse_digits (acc : Z) (cs : list ascii) : option Z :=
  match cs with
  | [] => Some acc
  | c :: r =>
      match digit_of c with
      | Some k => parse_digits (10 * acc + k) r
      | None => None
      end
  end.

(** The syntax accepted by [strconv.ParseInt(s, 10, _)] and by
    [big.Int.SetString(s, 10)]: an optional sign and at least one digit. *)
Definition parse_int (cs : list ascii) : option Z :=
  match cs with
  | [] => None
  | c :: r =>
      if ascii_eqb c "+" then
        match r with [] => None | _ => parse_digits 0 r end
      else if ascii_eqb c "-" then
        match r with [] => None | _ => option_map Z.opp (parse_digits 0 r) end
      else parse_digits 0 cs
  end.

(** [strings.IndexAny(value, "Ee")]: the text before the first exponent
    marker, and the text after it when there is one. *)
Fixpoint split_exponent (cs : list ascii) : list ascii * option (list ascii) :=
  match cs with
  | [] => ([], None)
  | c :: r =>
      if ascii_eqb c "e" || ascii_eqb c "E" then ([], Some r)
      else let '(m, e) := split_exponent r in (c :: m, e)
  end.

Fixpoint count_dots (cs : list ascii) : nat :=
  match cs with
  | [] => 0%nat
  | c :: r => ((if ascii_eqb c "." then 1 else 0) + count_dots r)%nat
  end.

(** Text before the decimal point, and the fractional digits after it. *)
Fixpoint split_point (cs : list ascii) : list ascii * option (list ascii) :=
  match cs with
  | [] => ([], None)
  | c :: r =>
      if ascii_eqb c "." then ([], Some r)
      else let '(m, f) := split_point r in (c :: m, f)
  end.

Definition in_int32 (z : Z) : bool := (MinInt32 <=? z) && (z <=? MaxInt32).

Definition NewFromString (s : string) : option Decimal :=
  let '(mant, etxt) := split_exponent (chars s) in
  match (match etxt with
         | None => Some 0
         | Some t =>
             match parse_int t with
             | Some e => if in_int32 e then Some e else None
             | None => None
             end
         end) with
  | None => None
  | Some exp0 =>
      if (1 <? count_dots mant)%nat then None
      else
        let '(ip, frac) := split_point mant in
        let intString := ip ++ match frac with Some f => f | None => [] end in
        let e := exp0 - match frac with
                        | Some f => Z.of_nat (List.length f)
                        | None => 0
                        end in
        match parse_int intString with
        | None => None
        | Some v => if in_int32 e then Some (mkDecimal v e) else None
        end
  end.

(** *** Printing: [Decimal.String] *)

Definition digits_of_N (n : N) : list ascii :=
  chars (NilZero.string_of_uint (N.to_uint n)).

(** [big.Int.String]. *)
Definition bigint_String (z : Z) : list ascii :=
  if z <? 0 then "-"%char :: digits_of_N (Z.to_N (- z))
  else digits_of_N (Z.to_N z).

Fixpoint trim_zeros_rev (cs : list ascii) : list ascii :=
  match cs with
  | c :: r => if ascii_eqb c "0" then trim_zeros_rev r else cs
  | [] => []
  end.

Definition trim_trailing_zeros (cs : list ascii) : list ascii :=
  rev (trim_zeros_rev (rev cs)).

Definition String (d : Decimal) : string :=
  if 0 <=? exp d then str (bigint_String (value (rescale d 0)))
  else
    let digits := digits_of_N (Z.to_N (Z.abs (value d))) in
    let k := Z.to_nat (- exp d) in
    let n := List.length digits in
    let '(intPart, fractionalPart) :=
      if (k <? n)%nat then (firstn (n - k) digits, skipn (n - k) digits)
      else (["0"%char], repeat "0"%char (k - n) ++ digits) in
    let fractionalPart := trim_trailing_zeros fractionalPart in
    let number :=
      match fractionalPart with
      | [] => intPart
      | _ => intPart ++ "."%char :: fractionalPart
      end in
    str (if value d <? 0 then "-"%char :: number else number).

End decimal.

Import decimal.

(** ** github.com/google/uuid

    A UUID is a 128-bit value, kept as the number its sixteen bytes spell in
    big-endian order. *)

Module uuid.

Definition UUID : Type := N.

Definition Nil : UUID := 0%N.

Definition xvalue (c : ascii) : option N :=
  let n := N_of_ascii c in
  if (48 <=? n)%N && (n <=? 57)%N then Some (n - 48)%N
  else if (97 <=? n)%N && (n <=? 102)%N then Some (n - 87)%N
  else if (65 <=? n)%N && (n <=? 70)%N then Some (n - 55)%N
  else None.

(** [xtob]: two hexadecimal digits to a byte. *)
Definition xtob (x1 x2 : ascii) : option N :=
  match xvalue x1, xvalue x2 with
  | Some h, Some l => Some (16 * h + l)%N
  | _, _ => None
  end.

(** Reads [n] bytes written as consecutive pairs of hexadecimal digits. *)
Fixpoint hex_bytes (n : nat) (acc : N) (cs : list ascii) : option (N * list ascii) :=
  match n with
  | O => Some (acc, cs)
  | S n' =>
      match cs with
      | x1 :: x2 :: r =>
          match xtob x1 x2 with
          | Some b => hex_bytes n' (256 * acc + b)%N r
          | None => None
          end
      | _ => None
      end
  end.

Definition expect_dash (cs : list ascii) : option (list ascii) :=
  match cs with
  | c :: r => if ascii_eqb c "-" then Some r else None
  | [] => None
  end.

(** The form [xxxxxxxx-xxxx-xxxx-xxxx-xxxxxxxxxxxx] at the head of [cs]. *)
Definition parse_canonical (cs : list ascii) : option UUID :=
  match hex_bytes 4 0%N cs with
  | None => None
  | Some (a, r) =>
  match expect_dash r with
  | None => None
  | Some r =>
  match hex_bytes 2 a r with
  | None => None
  | Some (a, r) =>
  match expect_dash r with
  | None => None
  | Some r =>
  match hex_bytes 2 a r with
  | None => None
  | Some (a, r) =>
  match expect_dash r with
  | None => None
  | Some r =>
  match hex_bytes 2 a r with
  | None => None
  | Some (a, r) =>
  match expect_dash r with
  | None => None
  | Some r =>
  match hex_bytes 6 a r with
  | None => None
  | Some (a, _) => Some a
  end end end end end end end end end.

Definition lower (c : ascii) : ascii :=
  let n := N_of_ascii c in
  if (65 <=? n)%N && (n <=? 90)%N then ascii_of_N (n + 32) else c.

Definition EqualFold (a b : list ascii) : bool :=
  String.eqb (str (map lower a)) (str (map lower b)).

(** [uuid.Parse]: the canonical form, the same behind [urn:uuid:], the same
    between two enclosing characters, or 32 hexadecimal digits. *)
Definition Parse (s : string) : option UUID :=
  let cs := chars s in
  match List.length cs with
  | 36%nat => parse_canonical cs
  | 45%nat =>
      if EqualFold (firstn 9 cs) (chars "urn:uuid:")
      then parse_canonical (skipn 9 cs) else None
  | 38%nat => parse_canonical (skipn 1 cs)
  | 32%nat => option_map fst (hex_bytes 16 0%N cs)
  | _ => None
  end.

Definition hex_digit (n : N) : ascii :=
  if (n <? 10)%N then ascii_of_N (48 + n) else ascii_of_N (87 + n).

(** The [k] low bytes of [u], most significant first, in lower-case hex. *)
Fixpoint hex_of (k : nat) (u : N) (tail : list ascii) : list ascii :=
  match k with
  | O => tail
  | S k' =>
      let b := (u mod 256)%N in
      hex_of k' (u / 256)%N (hex_digit (b / 16) :: hex_digit (b mod 16) :: tail)
  end.

(** [UUID.String]: the canonical lower-case form. *)
Definition String (u : UUID) : string :=
  let dash := "-"%char in
  str (hex_of 4 (u / 2 ^ 96)
         (dash :: hex_of 2 (u / 2 ^ 80)
            (dash :: hex_of 2 (u / 2 ^ 64)
               (dash :: hex_of 2 (u / 2 ^ 48)
                  (dash :: hex_of 6 u []))))).

End uuid.

Definition UUID : Type := uuid.UUID.

(** ** Time and JSON

    A [time.Time] is an instant on a discrete time line.  A decoded JSON
    document (Go's [map[string]interface{}]) is kept as its canonical text, so
    that [json.Marshal] is the identity on it. *)

Definition Time : Type := Z.

Definition JSONObject : Type := string.

(** ** Go's fixed-width integers *)

Definition wrap (bits : Z) (z : Z) : Z :=
  (z + 2 ^ (bits - 1)) mod 2 ^ bits - 2 ^ (bits - 1).

Definition int64 (z : Z) : Z := wrap 64 z.
Definition int32 (z : Z) : Z := wrap 32 z.

(** ** Errors

    Go [error] values as the ledger produces and inspects them: the sentinel
    [pgx.ErrNoRows], a cancelled or expired context, an error raised by the
    database server, and [fmt.Errorf] without or with a wrapped cause. *)

Inductive error : Type :=
| ErrNoRows
| ErrContext
| PgError (msg : string)
| Errorf (msg : string)
| Wrapf (msg : string) (cause : error).

(** [err.Error()]; [Wrapf msg cause] is [fmt.Errorf("<msg>: %w", cause)]. *)
Fixpoint Error (e : error) : string :=
  match e with
  | ErrNoRows => "no rows in result set"
  | ErrContext => "context deadline exceeded"
  | PgError msg => String.append "ERROR: " msg
  | Errorf msg => msg
  | Wrapf msg c => String.append msg (String.append ": " (Error c))
  end.

(** [errors.Is(err, pgx.ErrNoRows)]. *)
Fixpoint Is_ErrNoRows (e : error) : bool :=
  match e with
  | ErrNoRows => true
  | Wrapf _ c => Is_ErrNoRows c
  | _ => false
  end.

(** ** google.golang.org/grpc: status codes *)

Module codes.

Inductive Code : Type :=
| OK | InvalidArgument | NotFound | FailedPrecondition | Unavailable | Internal.

End codes.

Record Status : Type := mkStatus { Code : codes.Code; Message : string }.

(** [status.Errorf(c, "<msg>: %v", err)]. *)
Definition status_Errorf (c : codes.Code) (msg : string) (err : error) : Status :=
  mkStatus c (String.append msg (String.append ": " (Error err))).

(** ** internal/repository: entities *)

Module Tenant.
Record t : Type := mk
  { ID : UUID; Name : string; CreatedAt : Time; UpdatedAt : Time }.
End Tenant.

Module AccountType.
Record t : Type := mk
  { ID : Z; Code : string; Name : string; NormalBalance : string;
    CreatedAt : Time; UpdatedAt : Time }.
End AccountType.

Module Currency.
Record t : Type := mk
  { ID : Z; Code : string; Name : string; Symbol : string; Precision : Z;
    CreatedAt : Time; UpdatedAt : Time }.
End Currency.

Module Account.
Record t : Type := mk
  { ID : UUID;
    TenantID : UUID;
    AccountNumber : string;
    Name : string;
    Description : option string;
    AccountTypeID : Z;
    CurrencyCode : string;
    ParentAccountID : option UUID;
    IsActive : bool;
    CreatedAt : Time;
    UpdatedAt : Time }.
End Account.

Module AccountBalance.
Record t : Type := mk
  { AccountID : UUID;
    DebitBalance : Decimal;
    CreditBalance : Decimal;
    UpdatedAt : Time }.
End AccountBalance.

Module CreateAccountParams.
Record t : Type := mk
  { AccountNumber : string;
    Name : string;
    Description : option string;
    AccountTypeID : Z;
    CurrencyCode : string;
    ParentAccountID : option UUID }.
End CreateAccountParams.

Module JournalEntryLine.
Record t : Type := mk
  { ID : UUID;
    JournalEntryID : UUID;
    AccountID : UUID;
    Debit : Decimal;
    Credit : Decimal;
    Description : string;
    CreatedAt : Time }.
End JournalEntryLine.

Module JournalEntry.
Record t : Type := mk
  { ID : UUID;
    TenantID : UUID;
    ReferenceNumber : string;
    Description : string;
    EntryDate : Time;
    Metadata : option JSONObject;
    Lines : list JournalEntryLine.t;
    CreatedAt : Time;
    UpdatedAt : Time }.
End JournalEntry.

Module CreateJournalEntryLineParams.
Record t : Type := mk
  { AccountID : UUID; Debit : Decimal; Credit : Decimal; Description : string }.
End CreateJournalEntryLineParams.

Module CreateJournalEntryParams.
Record t : Type := mk
  { ReferenceNumber : string;
    Description : string;
    EntryDate : Time;
    Metadata : option JSONObject;
    Lines : list CreateJournalEntryLineParams.t }.
End CreateJournalEntryParams.

(** ** The persistent store

    The tables of the ledger database.  A row of [accounts],
    [account_balances] and [journal_entry_lines] has the columns of the
    entity the repository scans it into; a row of [journal_entries] has the
    columns of a [JournalEntry] without its lines. *)

Module JournalEntryRow.
Record t : Type := mk
  { id : UUID;
    tenant_id : UUID;
    reference_number : string;
    description : string;
    entry_date : Time;
    metadata : option JSONObject;
    created_at : Time;
    updated_at : Time }.
End JournalEntryRow.

Record Tables : Type := mkTables
  { tenants : list Tenant.t;
    account_types : list AccountType.t;
    currencies : list Currency.t;
    accounts : list Account.t;
    account_balances : list AccountBalance.t;
    journal_entries : list JournalEntryRow.t;
    journal_entry_lines : list JournalEntryLine.t }.

(** The world a request runs in: the committed tables, the supply of fresh
    row identifiers, and a logical clock that advances with every round trip
    to the database. *)
Record World : Type := mkWorld
  { db : Tables; next_uuid : N; clock : Time }.

Definition empty_tables : Tables := mkTables [] [] [] [] [] [] [].

(** ** Computations: Go functions returning [(value, error)] over the world *)

Definition Comp (X A : Type) : Type := World -> (A + X) * World.

(** Repository and database functions fail with a Go [error]. *)
Definition M (A : Type) : Type := Comp error A.

Definition ret {X A : Type} (a : A) : Comp X A := fun w => (inl a, w).

Definition fail {X A : Type} (e : X) : Comp X A := fun w => (inr e, w).

Definition bind {X A B : Type} (c : Comp X A) (k : A -> Comp X B) : Comp X B :=
  fun w =>
    match c w with
    | (inl a, w') => k a w'
    | (inr e, w') => (inr e, w')
    end.

(** [if err != nil { return nil, fmt.Errorf("<msg>: %w", err) }]. *)
Definition wrapf {A : Type} (msg : string) (c : M A) : M A :=
  fun w =>
    match c w with
    | (inl a, w') => (inl a, w')
    | (inr e, w') => (inr (Wrapf msg e), w')
    end.

Declare Scope go_scope.
Delimit Scope go_scope with go.
Notation "x <- c ;; k" := (bind c (fun x => k))
  (at level 61, c at next level, right associativity) : go_scope.
Notation "' p <- c ;; k" := (bind c (fun p => k))
  (at level 61, p pattern, c at next level, right associativity) : go_scope.
Local Open Scope go_scope.

(** A [context.Context]: no deadline, or a deadline on the logical clock. *)
Definition Context : Type := option Time.

Definition ctx_done (ctx : Context) (w : World) : bool :=
  match ctx with
  | Some deadline => deadline <=? clock w
  | None => false
  end.

(** One round trip to the database under [ctx]: refused once the context is
    done, otherwise it takes one tick of the clock. *)
Definition roundtrip (ctx : Context) : M unit :=
  fun w =>
    if ctx_done ctx w then (inr ErrContext, w)
    else (inl tt, mkWorld (db w) (next_uuid w) (clock w + 1)).

(** The query executor.  The order in which a scan yields the rows of a
    table is the engine's choice; [ORDER BY] sorts what the scan yields and
    keeps the scan order among rows with equal keys. *)
Record SqlEngine : Type := mkEngine
  { scan : forall A : Type, list A -> list A;
    scan_perm : forall (A : Type) (l : list A), Permutation (scan A l) l }.

Fixpoint insert_sorted {A : Type} (le : A -> A -> bool) (x : A) (l : list A) : list A :=
  match l with
  | [] => [x]
  | y :: r => if le x y then x :: l else y :: insert_sorted le x r
  end.

Definition order_by {A : Type} (le : A -> A -> bool) (l : list A) : list A :=
  fold_right (insert_sorted le) [] l.

(** [LIMIT $n OFFSET $m]; the server rejects negative values. *)
Definition limit_offset {A : Type} (limit offset : Z) (rows : list A) : list A + error :=
  if limit <? 0 then inr (PgError "LIMIT must not be negative")
  else if offset <? 0 then inr (PgError "OFFSET must not be negative")
  else inl (firstn (Z.to_nat limit) (skipn (Z.to_nat offset) rows)).

(** [QueryRow(...).Scan(...)]: the first row, or [pgx.ErrNoRows]. *)
Definition first_row {A : Type} (rows : list A) : A + error :=
  match rows with
  | r :: _ => inl r
  | [] => inr ErrNoRows
  end.


(** ** The tenant-scoped access gate of the store

    Modelled from the spec: the row-level security policies of the database
    schema (db-schema, not part of these sources).  A session bound to tenant
    [T] sees a row of [accounts] or [journal_entries] when its [tenant_id] is
    [T], a row of [journal_entry_lines] when its entry is seen, and a row of
    [account_balances] when its account is seen; tenants and reference data
    are not filtered.  The textual round trip of the tenant id through
    [SET LOCAL app.current_tenant_id] and the policy's cast back to a UUID is
    taken as the identity. *)

Definition policy_accounts (T : UUID) (a : Account.t) : bool :=
  (Account.TenantID a =? T)%N.

Definition policy_journal_entries (T : UUID) (e : JournalEntryRow.t) : bool :=
  (JournalEntryRow.tenant_id e =? T)%N.

Definition policy_journal_entry_lines (T : UUID) (tb : Tables) (l : JournalEntryLine.t) : bool :=
  existsb (fun e => (JournalEntryRow.id e =? JournalEntryLine.JournalEntryID l)%N
                    && policy_journal_entries T e)
          (journal_entries tb).

Definition policy_account_balances (T : UUID) (tb : Tables) (b : AccountBalance.t) : bool :=
  existsb (fun a => (Account.ID a =? AccountBalance.AccountID b)%N
                    && policy_accounts T a)
          (accounts tb).

(** ** Stored procedures *)

Definition raise {A : Type} (msg : string) : A + error := inr (PgError msg).

(** Modelled from the spec: [create_tenant(name)] (db-schema) allocates a new
    unique id and persists the row; names need not be unique. *)
Definition create_tenant (now : Time) (ids : N) (tb : Tables) (name : string)
  : (UUID * Tables * N) + error :=
  let row := Tenant.mk ids name now now in
  inl (ids,
       mkTables (tenants tb ++ [row]) (account_types tb) (currencies tb)
                (accounts tb) (account_balances tb)
                (journal_entries tb) (journal_entry_lines tb),
       (ids + 1)%N).

Definition zero : Decimal := mkDecimal 0 0.

(** Modelled from the spec: [create_account(...)] (db-schema), run in a
    session bound to tenant [T].  The account number is unique within the
    tenant, the account type and the currency are reference data, a parent
    reference resolves through the access gate; then the account and its
    balance row (both sides zero) are allocated together. *)
Definition create_account (T : UUID) (now : Time) (ids : N) (tb : Tables)
  (p : CreateAccountParams.t) : (UUID * Tables * N) + error :=
  let visible := filter (policy_accounts T) (accounts tb) in
  if existsb (fun a => String.eqb (Account.AccountNumber a)
                                  (CreateAccountParams.AccountNumber p)) visible
  then raise "duplicate account number"
  else if negb (existsb (fun k => AccountType.ID k =? CreateAccountParams.AccountTypeID p)
                        (account_types tb))
  then raise "unknown account type"
  else if negb (existsb (fun c => String.eqb (Currency.Code c)
                                             (CreateAccountParams.CurrencyCode p))
                        (currencies tb))
  then raise "unknown currency"
  else if match CreateAccountParams.ParentAccountID p with
          | Some parent => negb (existsb (fun a => (Account.ID a =? parent)%N) visible)
          | None => false
          end
  then raise "parent account not found"
  else
    let account :=
      Account.mk ids T
        (CreateAccountParams.AccountNumber p) (CreateAccountParams.Name p)
        (CreateAccountParams.Description p) (CreateAccountParams.AccountTypeID p)
        (CreateAccountParams.CurrencyCode p) (CreateAccountParams.ParentAccountID p)
        true now now in
    let balance := AccountBalance.mk ids zero zero now in
    inl (ids,
         mkTables (tenants tb) (account_types tb) (currencies tb)
                  (accounts tb ++ [account]) (account_balances tb ++ [balance])
                  (journal_entries tb) (journal_entry_lines tb),
         (ids + 1)%N).

(** Sum of a column of decimals, as SQL's [SUM] over [NUMERIC]. *)
Definition sum_decimals (ds : list Decimal) : Decimal := fold_right Add zero ds.

Definition total_debit (ls : list CreateJournalEntryLineParams.t) : Decimal :=
  sum_decimals (map CreateJournalEntryLineParams.Debit ls).

Definition total_credit (ls : list CreateJournalEntryLineParams.t) : Decimal :=
  sum_decimals (map CreateJournalEntryLineParams.Credit ls).

(** The rows of [journal_entry_lines] for the submitted lines, in the order
    submitted, with consecutive fresh ids. *)
Fixpoint line_rows (entry : UUID) (now : Time) (first_id : N)
  (ls : list CreateJournalEntryLineParams.t) : list JournalEntryLine.t :=
  match ls with
  | [] => []
  | l :: r =>
      JournalEntryLine.mk first_id entry
        (CreateJournalEntryLineParams.AccountID l)
        (CreateJournalEntryLineParams.Debit l)
        (CreateJournalEntryLineParams.Credit l)
        (CreateJournalEntryLineParams.Description l) now
      :: line_rows entry now (first_id + 1)%N r
  end.

(** [UPDATE account_balances SET debit_balance = debit_balance + d,
    credit_balance = credit_balance + c WHERE account_id = a]. *)
Definition add_to_balance (now : Time) (l : CreateJournalEntryLineParams.t)
  (bs : list AccountBalance.t) : list AccountBalance.t :=
  map (fun b =>
         if (AccountBalance.AccountID b =? CreateJournalEntryLineParams.AccountID l)%N
         then AccountBalance.mk (AccountBalance.AccountID b)
                (Add (AccountBalance.DebitBalance b) (CreateJournalEntryLineParams.Debit l))
                (Add (AccountBalance.CreditBalance b) (CreateJournalEntryLineParams.Credit l))
                now
         else b)
      bs.

Definition apply_lines (now : Time) (ls : list CreateJournalEntryLineParams.t)
  (bs : list AccountBalance.t) : list AccountBalance.t :=
  fold_left (fun acc l => add_to_balance now l acc) ls bs.

(** Modelled from the spec: [create_journal_entry(...)] (db-schema), run in a
    session bound to tenant [T].  It validates the line count, that the
    amounts are non-negative, the aggregate balance (exact decimal equality
    of the two totals) and that every line's account belongs to the tenant;
    then it persists the header and the lines and adds every line's debit and
    credit to the balance row of its account. *)
Definition create_journal_entry (T : UUID) (now : Time) (ids : N) (tb : Tables)
  (p : CreateJournalEntryParams.t) : (UUID * Tables * N) + error :=
  let ls := CreateJournalEntryParams.Lines p in
  if (List.length ls <? 2)%nat
  then raise "journal entry must have at least two lines"
  else if existsb (fun l => IsNegative (CreateJournalEntryLineParams.Debit l)
                            || IsNegative (CreateJournalEntryLineParams.Credit l)) ls
  then raise "amounts must be non-negative"
  else if negb (Equal (total_debit ls) (total_credit ls))
  then raise "entry not balanced"
  else if negb (forallb
                  (fun l => existsb
                              (fun a => (Account.ID a =? CreateJournalEntryLineParams.AccountID l)%N
                                        && policy_accounts T a)
                              (accounts tb))
                  ls)
  then raise "account not found"
  else
    let header :=
      JournalEntryRow.mk ids T
        (CreateJournalEntryParams.ReferenceNumber p)
        (CreateJournalEntryParams.Description p)
        (CreateJournalEntryParams.EntryDate p)
        (CreateJournalEntryParams.Metadata p) now now in
    inl (ids,
         mkTables (tenants tb) (account_types tb) (currencies tb)
                  (accounts tb)
                  (apply_lines now ls (account_balances tb))
                  (journal_entries tb ++ [header])
                  (journal_entry_lines tb ++ line_rows ids now (ids + 1)%N ls),
         (ids + 1 + N.of_nat (List.length ls))%N).

(** ** internal/db: connections and transactions bound to a tenant *)

(** A pooled connection on which [app.current_tenant_id] has been set. *)
Record Conn : Type := mkConn { conn_tenantID : UUID }.

(** An open transaction: the tenant it is bound to, its timestamp, and the
    working copy of the tables and of the id supply that [Commit] installs
    and [Rollback] drops. *)
Record TenantTx : Type := mkTx
  { tx_tenantID : UUID; tx_now : Time; tx_tables : Tables; tx_ids : N }.

Definition pool_Acquire (ctx : Context) : M unit := roundtrip ctx.

(** [conn.Release()]: the pool itself is not part of the model. *)
Definition Conn_Release (w : World) : World := w.

(** [defer cleanup]: runs on every exit path of [body]. *)
Definition defer {X A : Type} (cleanup : World -> World) (body : Comp X A) : Comp X A :=
  fun w => let '(r, w') := body w in (r, cleanup w').

(** [WithTenant]: acquire a connection, then
    [SET LOCAL app.current_tenant_id = $1].  The statement is taken to bind
    the connection to the tenant for the queries that follow, which is what
    the function's comment promises ("a connection with the tenant_id set
    for RLS"). *)
Definition DB_WithTenant (ctx : Context) (tenantID : UUID) : M Conn :=
  _ <- wrapf "unable to acquire connection" (pool_Acquire ctx) ;;
  _ <- wrapf "unable to set tenant_id" (roundtrip ctx) ;;
  ret (mkConn tenantID).

Definition DB_BeginTx (ctx : Context) (tenantID : UUID) : M TenantTx :=
  _ <- wrapf "unable to acquire connection" (pool_Acquire ctx) ;;
  _ <- wrapf "unable to begin transaction" (roundtrip ctx) ;;
  _ <- wrapf "unable to set tenant_id" (roundtrip ctx) ;;
  fun w => (inl (mkTx tenantID (clock w) (db w) (next_uuid w)), w).

(** [tx.QueryRow(ctx, "SELECT <procedure>(...)").Scan(&id)]: the procedure
    runs on the transaction's working copy. *)
Definition TenantTx_QueryRow (ctx : Context) (tx : TenantTx)
  (procedure : UUID -> Time -> N -> Tables -> (UUID * Tables * N) + error)
  : M (UUID * TenantTx) :=
  _ <- roundtrip ctx ;;
  match procedure (tx_tenantID tx) (tx_now tx) (tx_ids tx) (tx_tables tx) with
  | inl (id, tb, ids) => ret (id, mkTx (tx_tenantID tx) (tx_now tx) tb ids)
  | inr e => fail e
  end.

Definition TenantTx_Commit (ctx : Context) (tx : TenantTx) : M unit :=
  _ <- roundtrip ctx ;;
  fun w => (inl tt, mkWorld (tx_tables tx) (tx_ids tx) (clock w)).

(** [tx.Rollback(ctx)]: drops the working copy, which lives in the handle;
    after a commit there is nothing left to drop. *)
Definition TenantTx_Rollback (ctx : Context) (tx : TenantTx) (w : World) : World := w.

(** [conn.QueryRow(ctx, q).Scan(...)] and [conn.Query(ctx, q)] with all rows
    read. *)
Definition Conn_QueryRow {A : Type} (ctx : Context) (q : Tables -> list A) : M A :=
  _ <- roundtrip ctx ;;
  fun w => (first_row (q (db w)), w).

Definition Conn_Query {A : Type} (ctx : Context) (q : Tables -> list A + error) : M (list A) :=
  _ <- roundtrip ctx ;;
  fun w => (q (db w), w).

Fixpoint mapM {A B : Type} (f : A -> M B) (l : list A) : M (list B) :=
  match l with
  | [] => ret []
  | x :: r => y <- f x ;; ys <- mapM f r ;; ret (y :: ys)
  end.

Definition uuid_eq_dec : forall a b : UUID, {a = b} + {a <> b} := N.eq_dec.

Definition JournalEntryRow_eq_dec :
  forall a b : JournalEntryRow.t, {a = b} + {a <> b}.
Proof.
  decide equality; try apply Z.eq_dec; try apply N.eq_dec; try apply string_dec.
  decide equality; apply string_dec.
Defined.

Section Repositories.

Variable E : SqlEngine.

(** [FROM <table>] in a session bound to [T]: what the scan yields of the
    rows the access gate lets through. *)
Definition from_tenants (tb : Tables) : list Tenant.t :=
  scan E _ (tenants tb).

Definition from_accounts (T : UUID) (tb : Tables) : list Account.t :=
  scan E _ (filter (policy_accounts T) (accounts tb)).

Definition from_account_balances (T : UUID) (tb : Tables) : list AccountBalance.t :=
  scan E _ (filter (policy_account_balances T tb) (account_balances tb)).

Definition from_journal_entries (T : UUID) (tb : Tables) : list JournalEntryRow.t :=
  scan E _ (filter (policy_journal_entries T) (journal_entries tb)).

Definition from_journal_entry_lines (T : UUID) (tb : Tables) : list JournalEntryLine.t :=
  scan E _ (filter (policy_journal_entry_lines T tb) (journal_entry_lines tb)).

(** *** TenantRepository *)

Definition TenantRepository_GetByID (ctx : Context) (tenantID : UUID) : M Tenant.t :=
  wrapf "failed to get tenant"
    (Conn_QueryRow ctx
       (fun tb => filter (fun t => (Tenant.ID t =? tenantID)%N) (from_tenants tb))).

Definition TenantRepository_GetByName (ctx : Context) (name : string) : M Tenant.t :=
  wrapf "failed to get tenant by name"
    (Conn_QueryRow ctx
       (fun tb => filter (fun t => String.eqb (Tenant.Name t) name) (from_tenants tb))).

Definition TenantRepository_Create (ctx : Context) (name : string) : M Tenant.t :=
  tenantID <- wrapf "failed to create tenant"
    (_ <- roundtrip ctx ;;
     fun w =>
       match create_tenant (clock w) (next_uuid w) (db w) name with
       | inl (id, tb, ids) => (inl id, mkWorld tb ids (clock w))
       | inr e => (inr e, w)
       end) ;;
  TenantRepository_GetByID ctx tenantID.

(** *** AccountRepository *)

Definition AccountRepository_GetByID (ctx : Context) (tenantID accountID : UUID)
  : M Account.t :=
  conn <- wrapf "failed to set tenant context" (DB_WithTenant ctx tenantID) ;;
  defer Conn_Release
    (fun w =>
       match Conn_QueryRow ctx
               (fun tb => filter (fun a => (Account.ID a =? accountID)%N)
                                 (from_accounts (conn_tenantID conn) tb)) w with
       | (inl account, w') => (inl account, w')
       | (inr err, w') =>
           if Is_ErrNoRows err then (inr (Errorf "account not found"), w')
           else (inr (Wrapf "failed to get account" err), w')
       end).

Definition AccountRepository_Create (ctx : Context) (tenantID : UUID)
  (params : CreateAccountParams.t) : M Account.t :=
  tx <- wrapf "failed to begin transaction" (DB_BeginTx ctx tenantID) ;;
  defer (TenantTx_Rollback ctx tx)
    ('(accountID, tx') <- wrapf "failed to create account"
        (TenantTx_QueryRow ctx tx
           (fun T now ids tb => create_account T now ids tb params)) ;;
     _ <- wrapf "failed to commit transaction" (TenantTx_Commit ctx tx') ;;
     AccountRepository_GetByID ctx tenantID accountID).

Definition account_filters (accountTypeID : option Z) (currencyCode : option string)
  (a : Account.t) : bool :=
  match accountTypeID with
  | Some k => Account.AccountTypeID a =? k
  | None => true
  end
  && match currencyCode with
     | Some c => String.eqb (Account.CurrencyCode a) c
     | None => true
     end.

(** [ORDER BY created_at DESC]. *)
Definition account_newest_first (a b : Account.t) : bool :=
  Account.CreatedAt b <=? Account.CreatedAt a.

Definition AccountRepository_List (ctx : Context) (tenantID : UUID)
  (accountTypeID : option Z) (currencyCode : option string) (limit offset : Z)
  : M (list Account.t * Z) :=
  conn <- wrapf "failed to set tenant context" (DB_WithTenant ctx tenantID) ;;
  defer Conn_Release
    (let matching tb :=
       filter (account_filters accountTypeID currencyCode)
              (from_accounts (conn_tenantID conn) tb) in
     totalCount <- wrapf "failed to count accounts"
       (Conn_QueryRow ctx (fun tb => [Z.of_nat (List.length (matching tb))])) ;;
     accounts <- wrapf "failed to list accounts"
       (Conn_Query ctx
          (fun tb => limit_offset limit offset
                       (order_by account_newest_first (matching tb)))) ;;
     ret (accounts, int64 totalCount)).

Definition AccountRepository_GetBalance (ctx : Context) (tenantID accountID : UUID)
  : M AccountBalance.t :=
  conn <- wrapf "failed to set tenant context" (DB_WithTenant ctx tenantID) ;;
  defer Conn_Release
    (fun w =>
       match Conn_QueryRow ctx
               (fun tb => filter (fun b => (AccountBalance.AccountID b =? accountID)%N)
                                 (from_account_balances (conn_tenantID conn) tb)) w with
       | (inl row, w') =>
           (inl (AccountBalance.mk accountID
                   (AccountBalance.DebitBalance row)
                   (AccountBalance.CreditBalance row)
                   (AccountBalance.UpdatedAt row)), w')
       | (inr err, w') =>
           match err with
           | ErrNoRows => (inr (Errorf "balance not found for account"), w')
           | _ => (inr (Wrapf "failed to get account balance" err), w')
           end
       end).

(** *** JournalRepository *)

(** [ORDER BY created_at]. *)
Definition line_oldest_first (a b : JournalEntryLine.t) : bool :=
  JournalEntryLine.CreatedAt a <=? JournalEntryLine.CreatedAt b.

Definition getLinesByJournalEntryID (ctx : Context) (conn : Conn) (journalEntryID : UUID)
  : M (list JournalEntryLine.t) :=
  wrapf "failed to query journal entry lines"
    (Conn_Query ctx
       (fun tb =>
          inl (order_by line_oldest_first
                 (filter (fun l => (JournalEntryLine.JournalEntryID l =? journalEntryID)%N)
                         (from_journal_entry_lines (conn_tenantID conn) tb))))).

(** The [rows.Scan] of a [journal_entries] row into a [JournalEntry], with
    the lines fetched for it. *)
Definition scan_entry (row : JournalEntryRow.t) (lines : list JournalEntryLine.t)
  : JournalEntry.t :=
  JournalEntry.mk (JournalEntryRow.id row) (JournalEntryRow.tenant_id row)
    (JournalEntryRow.reference_number row) (JournalEntryRow.description row)
    (JournalEntryRow.entry_date row) (JournalEntryRow.metadata row)
    lines
    (JournalEntryRow.created_at row) (JournalEntryRow.updated_at row).

Definition JournalRepository_GetByID (ctx : Context) (tenantID journalEntryID : UUID)
  : M JournalEntry.t :=
  conn <- wrapf "failed to set tenant context" (DB_WithTenant ctx tenantID) ;;
  defer Conn_Release
    (fun w =>
       match Conn_QueryRow ctx
               (fun tb => filter (fun e => (JournalEntryRow.id e =? journalEntryID)%N)
                                 (from_journal_entries (conn_tenantID conn) tb)) w with
       | (inr err, w') =>
           if Is_ErrNoRows err then (inr (Errorf "journal entry not found"), w')
           else (inr (Wrapf "failed to get journal entry" err), w')
       | (inl row, w') =>
           (lines <- wrapf "failed to get journal entry lines"
                       (getLinesByJournalEntryID ctx conn journalEntryID) ;;
            ret (scan_entry row lines)) w'
       end).

Definition JournalRepository_Create (ctx : Context) (tenantID : UUID)
  (params : CreateJournalEntryParams.t) : M JournalEntry.t :=
  tx <- wrapf "failed to begin transaction" (DB_BeginTx ctx tenantID) ;;
  defer (TenantTx_Rollback ctx tx)
    ('(journalEntryID, tx') <- wrapf "failed to create journal entry"
        (TenantTx_QueryRow ctx tx
           (fun T now ids tb => create_journal_entry T now ids tb params)) ;;
     _ <- wrapf "failed to commit transaction" (TenantTx_Commit ctx tx') ;;
     JournalRepository_GetByID ctx tenantID journalEntryID).

(** [je INNER JOIN journal_entry_lines jel ON je.id = jel.journal_entry_id]. *)
Definition inner_join (es : list JournalEntryRow.t) (ls : list JournalEntryLine.t)
  : list (JournalEntryRow.t * JournalEntryLine.t) :=
  flat_map
    (fun e => map (pair e)
                  (filter (fun l => (JournalEntryRow.id e =? JournalEntryLine.JournalEntryID l)%N)
                          ls))
    es.

Definition date_filters (fromDate toDate : option Time) (e : JournalEntryRow.t) : bool :=
  match fromDate with
  | Some f => f <=? JournalEntryRow.entry_date e
  | None => true
  end
  && match toDate with
     | Some t => JournalEntryRow.entry_date e <=? t
     | None => true
     end.

(** The [je] columns of the rows the [FROM] and [WHERE] clauses of [List]
    select, one per joined row. *)
Definition list_selection (T : UUID) (accountID : option UUID)
  (fromDate toDate : option Time) (tb : Tables) : list JournalEntryRow.t :=
  let je := from_journal_entries T tb in
  let selected :=
    match accountID with
    | Some a =>
        map fst
          (filter (fun r => (JournalEntryLine.AccountID (snd r) =? a)%N)
                  (inner_join je (from_journal_entry_lines T tb)))
    | None => je
    end in
  filter (date_filters fromDate toDate) selected.

(** [ORDER BY je.entry_date DESC, je.created_at DESC]. *)
Definition entry_newest_first (a b : JournalEntryRow.t) : bool :=
  (JournalEntryRow.entry_date b <? JournalEntryRow.entry_date a)
  || ((JournalEntryRow.entry_date b =? JournalEntryRow.entry_date a)
      && (JournalEntryRow.created_at b <=? JournalEntryRow.created_at a)).

Definition JournalRepository_List (ctx : Context) (tenantID : UUID)
  (accountID : option UUID) (fromDate toDate : option Time) (limit offset : Z)
  : M (list JournalEntry.t * Z) :=
  conn <- wrapf "failed to set tenant context" (DB_WithTenant ctx tenantID) ;;
  defer Conn_Release
    (let selection := list_selection (conn_tenantID conn) accountID fromDate toDate in
     totalCount <- wrapf "failed to count journal entries"
       (Conn_QueryRow ctx
          (fun tb => [Z.of_nat (List.length
                                  (nodup uuid_eq_dec
                                         (map JournalEntryRow.id (selection tb))))])) ;;
     rows <- wrapf "failed to list journal entries"
       (Conn_Query ctx
          (fun tb => limit_offset limit offset
                       (order_by entry_newest_first
                          (nodup JournalEntryRow_eq_dec (selection tb))))) ;;
     entries <- mapM
       (fun row =>
          lines <- wrapf "failed to get journal entry lines"
                     (getLinesByJournalEntryID ctx conn (JournalEntryRow.id row)) ;;
          ret (scan_entry row lines))
       rows ;;
     ret (entries, int64 totalCount)).

End Repositories.

(** ** internal/repository/interfaces.go *)

Record TenantRepositoryInterface : Type := mkTenantRepository
  { TenantRepo_Create : Context -> string -> M Tenant.t;
    TenantRepo_GetByID : Context -> UUID -> M Tenant.t;
    TenantRepo_GetByName : Context -> string -> M Tenant.t }.

Record AccountRepositoryInterface : Type := mkAccountRepository
  { AccountRepo_Create : Context -> UUID -> CreateAccountParams.t -> M Account.t;
    AccountRepo_GetByID : Context -> UUID -> UUID -> M Account.t;
    AccountRepo_List :
      Context -> UUID -> option Z -> option string -> Z -> Z -> M (list Account.t * Z);
    AccountRepo_GetBalance : Context -> UUID -> UUID -> M AccountBalance.t }.

Record JournalRepositoryInterface : Type := mkJournalRepository
  { JournalRepo_Create : Context -> UUID -> CreateJournalEntryParams.t -> M JournalEntry.t;
    JournalRepo_GetByID : Context -> UUID -> UUID -> M JournalEntry.t;
    JournalRepo_List :
      Context -> UUID -> option UUID -> option Time -> option Time -> Z -> Z
      -> M (list JournalEntry.t * Z) }.

Definition NewTenantRepository (E : SqlEngine) : TenantRepositoryInterface :=
  mkTenantRepository (TenantRepository_Create E) (TenantRepository_GetByID E)
    (TenantRepository_GetByName E).

Definition NewAccountRepository (E : SqlEngine) : AccountRepositoryInterface :=
  mkAccountRepository (AccountRepository_Create E) (AccountRepository_GetByID E)
    (AccountRepository_List E) (AccountRepository_GetBalance E).

Definition NewJournalRepository (E : SqlEngine) : JournalRepositoryInterface :=
  mkJournalRepository (JournalRepository_Create E) (JournalRepository_GetByID E)
    (JournalRepository_List E).

(** ** The protocol messages the service reads and builds (gen/go/ledger/v1) *)

Module pb.

Record Tenant : Type := mkTenant
  { Tenant_TenantId : string; Tenant_Name : string;
    Tenant_CreatedAt : Time; Tenant_UpdatedAt : Time }.

Record Account : Type := mkAccount
  { Account_AccountId : string;
    Account_TenantId : string;
    Account_AccountNumber : string;
    Account_Name : string;
    Account_Description : string;
    Account_AccountTypeId : Z;
    Account_CurrencyCode : string;
    Account_ParentAccountId : option string;
    Account_IsActive : bool;
    Account_CreatedAt : Time;
    Account_UpdatedAt : Time }.

Record JournalEntryLine : Type := mkJournalEntryLine
  { Line_LineId : option string;
    Line_AccountId : string;
    Line_Debit : string;
    Line_Credit : string;
    Line_Description : string;
    Line_CreatedAt : option Time }.

Record JournalEntry : Type := mkJournalEntry
  { Entry_JournalEntryId : string;
    Entry_TenantId : string;
    Entry_ReferenceNumber : string;
    Entry_Description : string;
    Entry_EntryDate : Time;
    Entry_Lines : list JournalEntryLine;
    Entry_Metadata : option string;
    Entry_CreatedAt : Time;
    Entry_UpdatedAt : Time }.

Record CreateTenantRequest : Type := mkCreateTenantRequest
  { CreateTenant_Name : string }.

Record CreateTenantResponse : Type := mkCreateTenantResponse
  { CreateTenantResponse_TenantId : string;
    CreateTenantResponse_Name : string;
    CreateTenantResponse_CreatedAt : Time }.

Record GetTenantRequest : Type := mkGetTenantRequest
  { GetTenant_TenantId : string }.

Record GetTenantResponse : Type := mkGetTenantResponse
  { GetTenantResponse_Tenant : Tenant }.

Record CreateAccountRequest : Type := mkCreateAccountRequest
  { CreateAccount_TenantId : string;
    CreateAccount_AccountNumber : string;
    CreateAccount_Name : string;
    CreateAccount_Description : string;
    CreateAccount_AccountTypeId : Z;
    CreateAccount_CurrencyCode : string;
    CreateAccount_ParentAccountId : option string }.

Record CreateAccountResponse : Type := mkCreateAccountResponse
  { CreateAccountResponse_AccountId : string;
    CreateAccountResponse_TenantId : string;
    CreateAccountResponse_AccountNumber : string;
    CreateAccountResponse_Name : string;
    CreateAccountResponse_CreatedAt : Time }.

Record GetAccountRequest : Type := mkGetAccountRequest
  { GetAccount_TenantId : string; GetAccount_AccountId : string }.

Record GetAccountResponse : Type := mkGetAccountResponse
  { GetAccountResponse_Account : Account }.

Record ListAccountsRequest : Type := mkListAccountsRequest
  { ListAccounts_TenantId : string;
    ListAccounts_AccountTypeId : option Z;
    ListAccounts_CurrencyCode : option string;
    ListAccounts_Page : Z;
    ListAccounts_PageSize : Z }.

Record ListAccountsResponse : Type := mkListAccountsResponse
  { ListAccountsResponse_Accounts : list Account;
    ListAccountsResponse_TotalCount : Z }.

Record GetAccountBalanceRequest : Type := mkGetAccountBalanceRequest
  { GetAccountBalance_TenantId : string; GetAccountBalance_AccountId : string }.

Record GetAccountBalanceResponse : Type := mkGetAccountBalanceResponse
  { Balance_AccountId : string;
    Balance_DebitBalance : string;
    Balance_CreditBalance : string;
    Balance_NetBalance : string;
    Balance_UpdatedAt : Time }.

Record CreateJournalEntryRequest : Type := mkCreateJournalEntryRequest
  { CreateJournalEntry_TenantId : string;
    CreateJournalEntry_ReferenceNumber : string;
    CreateJournalEntry_Description : string;
    CreateJournalEntry_EntryDate : option Time;
    CreateJournalEntry_Lines : list JournalEntryLine;
    CreateJournalEntry_Metadata : option string }.

Record CreateJournalEntryResponse : Type := mkCreateJournalEntryResponse
  { CreateJournalEntryResponse_JournalEntryId : string;
    CreateJournalEntryResponse_TenantId : string;
    CreateJournalEntryResponse_ReferenceNumber : string;
    CreateJournalEntryResponse_EntryDate : Time;
    CreateJournalEntryResponse_CreatedAt : Time }.

Record GetJournalEntryRequest : Type := mkGetJournalEntryRequest
  { GetJournalEntry_TenantId : string; GetJournalEntry_JournalEntryId : string }.

Record GetJournalEntryResponse : Type := mkGetJournalEntryResponse
  { GetJournalEntryResponse_JournalEntry : JournalEntry }.

Record ListJournalEntriesRequest : Type := mkListJournalEntriesRequest
  { ListJournalEntries_TenantId : string;
    ListJournalEntries_AccountId : option string;
    ListJournalEntries_FromDate : option Time;
    ListJournalEntries_ToDate : option Time;
    ListJournalEntries_Page : Z;
    ListJournalEntries_PageSize : Z }.

Record ListJournalEntriesResponse : Type := mkListJournalEntriesResponse
  { ListJournalEntriesResponse_JournalEntries : list JournalEntry;
    ListJournalEntriesResponse_TotalCount : Z }.

End pb.

(** [Timestamp.AsTime] of timestamppb: a nil timestamp is the Unix epoch. *)
Definition AsTime (t : option Time) : Time :=
  match t with Some x => x | None => 0 end.

(** ** internal/service: the gRPC service *)

(** A handler returns its response or a gRPC status. *)
Definition Handler (A : Type) : Type := Comp Status A.

(** [if err != nil { return nil, status.Errorf(c, "<msg>: %v", err) }]. *)
Definition orStatus {A : Type} (c : codes.Code) (msg : string) (m : M A) : Handler A :=
  fun w =>
    match m w with
    | (inl a, w') => (inl a, w')
    | (inr e, w') => (inr (status_Errorf c msg e), w')
    end.

(** [status.Error(c, msg)] when a request field does not parse. *)
Definition parsed {A : Type} (c : codes.Code) (msg : string) (o : option A) : Handler A :=
  match o with
  | Some a => ret a
  | None => fail (mkStatus c msg)
  end.

Definition require (c : codes.Code) (msg : string) (ok : bool) : Handler unit :=
  if ok then ret tt else fail (mkStatus c msg).

Record LedgerService : Type := NewLedgerService
  { tenantRepo : TenantRepositoryInterface;
    accountRepo : AccountRepositoryInterface;
    journalRepo : JournalRepositoryInterface }.

(** The clamping both list handlers apply to [page] and [page_size], on Go's
    64-bit [int]. *)
Definition clamp_page (page : Z) : Z := if page <? 1 then 1 else page.

Definition clamp_pageSize (pageSize : Z) : Z :=
  let pageSize := if pageSize <? 1 then 50 else pageSize in
  if 100 <? pageSize then 100 else pageSize.

Definition accountToProto (account : Account.t) : pb.Account :=
  pb.mkAccount
    (uuid.String (Account.ID account))
    (uuid.String (Account.TenantID account))
    (Account.AccountNumber account)
    (Account.Name account)
    (match Account.Description account with Some d => d | None => "" end)
    (Account.AccountTypeID account)
    (Account.CurrencyCode account)
    (option_map uuid.String (Account.ParentAccountID account))
    (Account.IsActive account)
    (Account.CreatedAt account)
    (Account.UpdatedAt account).

Definition lineToProto (line : JournalEntryLine.t) : pb.JournalEntryLine :=
  pb.mkJournalEntryLine
    (Some (uuid.String (JournalEntryLine.ID line)))
    (uuid.String (JournalEntryLine.AccountID line))
    (decimal.String (JournalEntryLine.Debit line))
    (decimal.String (JournalEntryLine.Credit line))
    (JournalEntryLine.Description line)
    (Some (JournalEntryLine.CreatedAt line)).

Definition journalEntryToProto (entry : JournalEntry.t) : pb.JournalEntry :=
  pb.mkJournalEntry
    (uuid.String (JournalEntry.ID entry))
    (uuid.String (JournalEntry.TenantID entry))
    (JournalEntry.ReferenceNumber entry)
    (JournalEntry.Description entry)
    (JournalEntry.EntryDate entry)
    (map lineToProto (JournalEntry.Lines entry))
    (JournalEntry.Metadata entry)
    (JournalEntry.CreatedAt entry)
    (JournalEntry.UpdatedAt entry).

(** The loop of [CreateJournalEntry] over [req.Lines], from index [i]: the
    first line whose account id, debit or credit does not parse ends the
    request with [InvalidArgument] and its index. *)
Fixpoint parse_lines (i : nat) (lines : list pb.JournalEntryLine)
  : list CreateJournalEntryLineParams.t + Status :=
  match lines with
  | [] => inl []
  | line :: rest =>
      match uuid.Parse (pb.Line_AccountId line) with
      | None =>
          inr (mkStatus codes.InvalidArgument
                 (String.append "invalid account ID at line " (itoa i)))
      | Some accountID =>
          match NewFromString (pb.Line_Debit line) with
          | None =>
              inr (mkStatus codes.InvalidArgument
                     (String.append "invalid debit amount at line " (itoa i)))
          | Some debit =>
              match NewFromString (pb.Line_Credit line) with
              | None =>
                  inr (mkStatus codes.InvalidArgument
                         (String.append "invalid credit amount at line " (itoa i)))
              | Some credit =>
                  match parse_lines (S i) rest with
                  | inr st => inr st
                  | inl ps =>
                      inl (CreateJournalEntryLineParams.mk accountID debit credit
                             (pb.Line_Description line) :: ps)
                  end
              end
          end
      end
  end.

Section Service.

(** [json.Unmarshal] into a [map[string]interface{}]: [None] on a syntax or
    type error, [Some None] when the text is [null] and the map stays nil. *)
Variable json_Unmarshal : string -> option (option JSONObject).

Variable s : LedgerService.

Definition CreateTenant (ctx : Context) (req : pb.CreateTenantRequest)
  : Handler pb.CreateTenantResponse :=
  _ <- require codes.InvalidArgument "tenant name is required"
         (negb (String.eqb (pb.CreateTenant_Name req) "")) ;;
  tenant <- orStatus codes.Internal "failed to create tenant"
              (TenantRepo_Create (tenantRepo s) ctx (pb.CreateTenant_Name req)) ;;
  ret (pb.mkCreateTenantResponse (uuid.String (Tenant.ID tenant))
         (Tenant.Name tenant) (Tenant.CreatedAt tenant)).

Definition GetTenant (ctx : Context) (req : pb.GetTenantRequest)
  : Handler pb.GetTenantResponse :=
  tenantID <- parsed codes.InvalidArgument "invalid tenant ID"
                (uuid.Parse (pb.GetTenant_TenantId req)) ;;
  tenant <- orStatus codes.NotFound "tenant not found"
              (TenantRepo_GetByID (tenantRepo s) ctx tenantID) ;;
  ret (pb.mkGetTenantResponse
         (pb.mkTenant (uuid.String (Tenant.ID tenant)) (Tenant.Name tenant)
            (Tenant.CreatedAt tenant) (Tenant.UpdatedAt tenant))).

Definition CreateAccount (ctx : Context) (req : pb.CreateAccountRequest)
  : Handler pb.CreateAccountResponse :=
  tenantID <- parsed codes.InvalidArgument "invalid tenant ID"
                (uuid.Parse (pb.CreateAccount_TenantId req)) ;;
  _ <- require codes.InvalidArgument "account number is required"
         (negb (String.eqb (pb.CreateAccount_AccountNumber req) "")) ;;
  _ <- require codes.InvalidArgument "account name is required"
         (negb (String.eqb (pb.CreateAccount_Name req) "")) ;;
  parent <- match pb.CreateAccount_ParentAccountId req with
            | Some text =>
                parentID <- parsed codes.InvalidArgument "invalid parent account ID"
                              (uuid.Parse text) ;;
                ret (Some parentID)
            | None => ret None
            end ;;
  let params :=
    CreateAccountParams.mk
      (pb.CreateAccount_AccountNumber req)
      (pb.CreateAccount_Name req)
      (if String.eqb (pb.CreateAccount_Description req) "" then None
       else Some (pb.CreateAccount_Description req))
      (pb.CreateAccount_AccountTypeId req)
      (pb.CreateAccount_CurrencyCode req)
      parent in
  account <- orStatus codes.Internal "failed to create account"
               (AccountRepo_Create (accountRepo s) ctx tenantID params) ;;
  ret (pb.mkCreateAccountResponse
         (uuid.String (Account.ID account))
         (uuid.String (Account.TenantID account))
         (Account.AccountNumber account)
         (Account.Name account)
         (Account.CreatedAt account)).

Definition GetAccount (ctx : Context) (req : pb.GetAccountRequest)
  : Handler pb.GetAccountResponse :=
  tenantID <- parsed codes.InvalidArgument "invalid tenant ID"
                (uuid.Parse (pb.GetAccount_TenantId req)) ;;
  accountID <- parsed codes.InvalidArgument "invalid account ID"
                 (uuid.Parse (pb.GetAccount_AccountId req)) ;;
  account <- orStatus codes.NotFound "account not found"
               (AccountRepo_GetByID (accountRepo s) ctx tenantID accountID) ;;
  ret (pb.mkGetAccountResponse (accountToProto account)).

Definition ListAccounts (ctx : Context) (req : pb.ListAccountsRequest)
  : Handler pb.ListAccountsResponse :=
  tenantID <- parsed codes.InvalidArgument "invalid tenant ID"
                (uuid.Parse (pb.ListAccounts_TenantId req)) ;;
  let page := clamp_page (pb.ListAccounts_Page req) in
  let pageSize := clamp_pageSize (pb.ListAccounts_PageSize req) in
  let offset := int64 ((page - 1) * pageSize) in
  '(accounts, totalCount) <- orStatus codes.Internal "failed to list accounts"
      (AccountRepo_List (accountRepo s) ctx tenantID
         (pb.ListAccounts_AccountTypeId req) (pb.ListAccounts_CurrencyCode req)
         pageSize offset) ;;
  ret (pb.mkListAccountsResponse (map accountToProto accounts) (int32 totalCount)).

Definition GetAccountBalance (ctx : Context) (req : pb.GetAccountBalanceRequest)
  : Handler pb.GetAccountBalanceResponse :=
  tenantID <- parsed codes.InvalidArgument "invalid tenant ID"
                (uuid.Parse (pb.GetAccountBalance_TenantId req)) ;;
  accountID <- parsed codes.InvalidArgument "invalid account ID"
                 (uuid.Parse (pb.GetAccountBalance_AccountId req)) ;;
  balance <- orStatus codes.NotFound "balance not found"
               (AccountRepo_GetBalance (accountRepo s) ctx tenantID accountID) ;;
  let netBalance :=
    Sub (AccountBalance.DebitBalance balance) (AccountBalance.CreditBalance balance) in
  ret (pb.mkGetAccountBalanceResponse
         (uuid.String (AccountBalance.AccountID balance))
         (decimal.String (AccountBalance.DebitBalance balance))
         (decimal.String (AccountBalance.CreditBalance balance))
         (decimal.String netBalance)
         (AccountBalance.UpdatedAt balance)).

Definition CreateJournalEntry (ctx : Context) (req : pb.CreateJournalEntryRequest)
  : Handler pb.CreateJournalEntryResponse :=
  tenantID <- parsed codes.InvalidArgument "invalid tenant ID"
                (uuid.Parse (pb.CreateJournalEntry_TenantId req)) ;;
  _ <- require codes.InvalidArgument "journal entry must have at least two lines"
         (negb (List.length (pb.CreateJournalEntry_Lines req) <? 2)%nat) ;;
  lines <- (fun w => (parse_lines 0 (pb.CreateJournalEntry_Lines req), w)) ;;
  metadata <- match pb.CreateJournalEntry_Metadata req with
              | Some text =>
                  if String.eqb text "" then ret None
                  else parsed codes.InvalidArgument "invalid metadata JSON"
                         (json_Unmarshal text)
              | None => ret None
              end ;;
  let params :=
    CreateJournalEntryParams.mk
      (pb.CreateJournalEntry_ReferenceNumber req)
      (pb.CreateJournalEntry_Description req)
      (AsTime (pb.CreateJournalEntry_EntryDate req))
      metadata
      lines in
  entry <- orStatus codes.Internal "failed to create journal entry"
             (JournalRepo_Create (journalRepo s) ctx tenantID params) ;;
  ret (pb.mkCreateJournalEntryResponse
         (uuid.String (JournalEntry.ID entry))
         (uuid.String (JournalEntry.TenantID entry))
         (JournalEntry.ReferenceNumber entry)
         (JournalEntry.EntryDate entry)
         (JournalEntry.CreatedAt entry)).

Definition GetJournalEntry (ctx : Context) (req : pb.GetJournalEntryRequest)
  : Handler pb.GetJournalEntryResponse :=
  tenantID <- parsed codes.InvalidArgument "invalid tenant ID"
                (uuid.Parse (pb.GetJournalEntry_TenantId req)) ;;
  journalEntryID <- parsed codes.InvalidArgument "invalid journal entry ID"
                      (uuid.Parse (pb.GetJournalEntry_JournalEntryId req)) ;;
  entry <- orStatus codes.NotFound "journal entry not found"
             (JournalRepo_GetByID (journalRepo s) ctx tenantID journalEntryID) ;;
  ret (pb.mkGetJournalEntryResponse (journalEntryToProto entry)).

Definition ListJournalEntries (ctx : Context) (req : pb.ListJournalEntriesRequest)
  : Handler pb.ListJournalEntriesResponse :=
  tenantID <- parsed codes.InvalidArgument "invalid tenant ID"
                (uuid.Parse (pb.ListJournalEntries_TenantId req)) ;;
  let page := clamp_page (pb.ListJournalEntries_Page req) in
  let pageSize := clamp_pageSize (pb.ListJournalEntries_PageSize req) in
  let offset := int64 ((page - 1) * pageSize) in
  accountID <- match pb.ListJournalEntries_AccountId req with
               | Some text =>
                   aid <- parsed codes.InvalidArgument "invalid account ID"
                            (uuid.Parse text) ;;
                   ret (Some aid)
               | None => ret None
               end ;;
  '(entries, totalCount) <- orStatus codes.Internal "failed to list journal entries"
      (JournalRepo_List (journalRepo s) ctx tenantID accountID
         (pb.ListJournalEntries_FromDate req) (pb.ListJournalEntries_ToDate req)
         pageSize offset) ;;
  ret (pb.mkListJournalEntriesResponse (map journalEntryToProto entries)
         (int32 totalCount)).

End Service.

(** cmd/server/main.go: the service over the repositories of one database. *)
Definition ledger (E : SqlEngine) : LedgerService :=
  NewLedgerService (NewTenantRepository E) (NewAccountRepository E)
    (NewJournalRepository E).

(** ** Instances used by the examples

    Two query executors: one scans a table in the order its rows were
    inserted, the other in the opposite order.  The examples carry no
    metadata; their decoder knows the two smallest documents. *)

Definition heap_order : SqlEngine :=
  mkEngine (fun _ l => l) (fun _ l => Permutation_refl l).

Definition reverse_order : SqlEngine :=
  mkEngine (fun _ l => rev l) (fun _ l => Permutation_sym (Permutation_rev l)).

Definition json_Unmarshal_small (text : string) : option (option JSONObject) :=
  if String.eqb text "null" then Some None
  else if String.eqb text "{}" then Some (Some "{}")
  else None.

(** A database holding only reference data. *)
Definition fresh_world : World :=
  mkWorld
    (mkTables []
       [AccountType.mk 1 "ASSET" "Asset" "DEBIT" 0 0;
        AccountType.mk 4 "REVENUE" "Revenue" "CREDIT" 0 0]
       [Currency.mk 1 "USD" "US Dollar" "$" 2 0 0]
       [] [] [] [])
    1%N 0.

Definition acme_id : string := "00000000-0000-0000-0000-000000000001".
Definition cash_id : string := "00000000-0000-0000-0000-000000000002".
Definition revenue_id : string := "00000000-0000-0000-0000-000000000003".

(** Tenant "Acme" with accounts 1000/Cash and 4000/Revenue, under [E]. *)
Definition acme_world (E : SqlEngine) : World :=
  let w := snd (CreateTenant (ledger E) None (pb.mkCreateTenantRequest "Acme") fresh_world) in
  let w := snd (CreateAccount (ledger E) None
                  (pb.mkCreateAccountRequest acme_id "1000" "Cash" "" 1 "USD" None) w) in
  snd (CreateAccount (ledger E) None
         (pb.mkCreateAccountRequest acme_id "4000" "Revenue" "" 4 "USD" None) w).

Definition entry_request (lines : list pb.JournalEntryLine) : pb.CreateJournalEntryRequest :=
  pb.mkCreateJournalEntryRequest acme_id "INV-001" "Sale of goods" None lines None.

Definition line_request (account debit credit : string) : pb.JournalEntryLine :=
  pb.mkJournalEntryLine None account debit credit "" None.

(** The scenarios of the spec: a balanced sale of 100.00, and the same with
    a credit of 99.99. *)
Definition balanced_request : pb.CreateJournalEntryRequest :=
  entry_request [line_request cash_id "100.00" "0"; line_request revenue_id "0" "100.00"].

Definition unbalanced_request : pb.CreateJournalEntryRequest :=
  entry_request [line_request cash_id "100.00" "0"; line_request revenue_id "0" "99.99"].

Definition one_line_request : pb.CreateJournalEntryRequest :=
  entry_request [line_request cash_id "100.00" "0"].

Definition negative_request : pb.CreateJournalEntryRequest :=
  entry_request [line_request cash_id "-5" "0"; line_request revenue_id "0" "-5"].

Definition malformed_request : pb.CreateJournalEntryRequest :=
  entry_request [line_request cash_id "100.00" "0"; line_request revenue_id "0" "1OO.00"].

(** [acme_world] after the balanced sale has been posted. *)
Definition posted_world (E : SqlEngine) : World :=
  snd (CreateJournalEntry json_Unmarshal_small (ledger E) None balanced_request
         (acme_world E)).

Definition cash_balance_request : pb.GetAccountBalanceRequest :=
  pb.mkGetAccountBalanceRequest acme_id cash_id.

Definition get_entry_request (id : string) : pb.GetJournalEntryRequest :=
  pb.mkGetJournalEntryRequest acme_id id.

Definition posted_entry_id : string := "00000000-0000-0000-0000-000000000004".

Definition list_accounts_request : pb.ListAccountsRequest :=
  pb.mkListAccountsRequest acme_id None None 3 500.

Definition list_entries_request : pb.ListJournalEntriesRequest :=
  pb.mkListJournalEntriesRequest acme_id (Some cash_id) None None 0 0.

Definition split_request : pb.CreateJournalEntryRequest :=
  entry_request [line_request cash_id "60" "0"; line_request cash_id "40" "0";
                 line_request revenue_id "0" "100"].

(** [posted_world] after a second sale whose debit is split over two lines
    against the cash account. *)
Definition two_entries_world (E : SqlEngine) : World :=
  snd (CreateJournalEntry json_Unmarshal_small (ledger E) None split_request
         (posted_world E)).

Definition listed_response : pb.ListJournalEntriesResponse :=
  match fst (ListJournalEntries (ledger heap_order) None list_entries_request
               (two_entries_world heap_order)) with
  | inl resp => resp
  | inr _ => pb.mkListJournalEntriesResponse [] 0
  end.

(** ** What the spec says of pagination *)

Definition spec_page (page : Z) : Z := if page <? 1 then 1 else page.

Definition spec_page_size (page_size : Z) : Z :=
  if page_size <? 1 then 50 else if 100 <? page_size then 100 else page_size.

Definition spec_offset (page page_size : Z) : Z :=
  (spec_page page - 1) * spec_page_size page_size.

(** The range of the [int32] fields of a request. *)
Definition is_int32 (z : Z) : Prop := - 2 ^ 31 <= z <= 2 ^ 31 - 1.

(** The optional account filter of [ListJournalEntries], as the handler
    reads it. *)
Definition parse_account_filter (o : option string) : option (option UUID) :=
  match o with
  | None => Some None
  | Some text => option_map Some (uuid.Parse text)
  end.

(** ** Vocabulary of the statements *)

(** [w'] holds the same committed tables and id supply as [w], at the same
    or a later time: nothing was persisted between the two. *)
Definition same_store (w w' : World) : Prop :=
  db w' = db w /\ next_uuid w' = next_uuid w /\ clock w <= clock w'.

(** A computation that persists nothing on any path. *)
Definition readonly {X A : Type} (c : Comp X A) : Prop :=
  forall w r w', c w = (r, w') -> same_store w w'.

(** A request line whose account id, debit and credit all parse. *)
Definition line_parses (line : pb.JournalEntryLine) : bool :=
  match uuid.Parse (pb.Line_AccountId line),
        NewFromString (pb.Line_Debit line),
        NewFromString (pb.Line_Credit line) with
  | Some _, Some _, Some _ => true
  | _, _, _ => false
  end.

Definition amount_malformed (line : pb.JournalEntryLine) : Prop :=
  NewFromString (pb.Line_Debit line) = None \/ NewFromString (pb.Line_Credit line) = None.

Definition line_error_prefixes : list string :=
  ["invalid account ID at line "; "invalid debit amount at line ";
   "invalid credit amount at line "].

(** The optional metadata of a CreateJournalEntry request, as the handler
    decodes it. *)
Definition decode_metadata (json_Unmarshal : string -> option (option JSONObject))
  (o : option string) : option (option JSONObject) :=
  match o with
  | None => Some None
  | Some text => if String.eqb text "" then Some None else json_Unmarshal text
  end.

(** The response of CreateJournalEntry for the entry the repository returns. *)
Definition created_response (entry : JournalEntry.t) : pb.CreateJournalEntryResponse :=
  pb.mkCreateJournalEntryResponse
    (uuid.String (JournalEntry.ID entry))
    (uuid.String (JournalEntry.TenantID entry))
    (JournalEntry.ReferenceNumber entry)
    (JournalEntry.EntryDate entry)
    (JournalEntry.CreatedAt entry).

(** The tables after [create_journal_entry] has accepted [p]: the header,
    the lines in the order submitted, and every line's amounts added to the
    balance row of its account. *)
Definition posted_tables (T : UUID) (now : Time) (ids : N) (tb : Tables)
  (p : CreateJournalEntryParams.t) : Tables :=
  mkTables (tenants tb) (account_types tb) (currencies tb) (accounts tb)
    (apply_lines now (CreateJournalEntryParams.Lines p) (account_balances tb))
    (journal_entries tb
     ++ [JournalEntryRow.mk ids T
           (CreateJournalEntryParams.ReferenceNumber p)
           (CreateJournalEntryParams.Description p)
           (CreateJournalEntryParams.EntryDate p)
           (CreateJournalEntryParams.Metadata p) now now])
    (journal_entry_lines tb
     ++ line_rows ids now (ids + 1)%N (CreateJournalEntryParams.Lines p)).

(** The rows of [journal_entry_lines] of entry [id] that a session bound to
    [T] sees, in the order of the table. *)
Definition stored_lines (T id : UUID) (tb : Tables) : list JournalEntryLine.t :=
  filter (fun l => (JournalEntryLine.JournalEntryID l =? id)%N)
         (filter (policy_journal_entry_lines T tb) (journal_entry_lines tb)).

Definition created_before (a b : JournalEntryLine.t) : Prop :=
  JournalEntryLine.CreatedAt a <= JournalEntryLine.CreatedAt b.

(** The [journal_entries] columns of an entry the repository returned. *)
Definition entry_header (e : JournalEntry.t) : JournalEntryRow.t :=
  JournalEntryRow.mk (JournalEntry.ID e) (JournalEntry.TenantID e)
    (JournalEntry.ReferenceNumber e) (JournalEntry.Description e)
    (JournalEntry.EntryDate e) (JournalEntry.Metadata e)
    (JournalEntry.CreatedAt e) (JournalEntry.UpdatedAt e).

Definition has_line_against (tb : Tables) (a : UUID) (e : JournalEntryRow.t) : Prop :=
  exists l, In l (journal_entry_lines tb) /\
            JournalEntryLine.JournalEntryID l = JournalEntryRow.id e /\
            JournalEntryLine.AccountID l = a.

Definition within_dates (fromDate toDate : option Time) (e : JournalEntryRow.t) : Prop :=
  (forall f, fromDate = Some f -> f <= JournalEntryRow.entry_date e) /\
  (forall t, toDate = Some t -> JournalEntryRow.entry_date e <= t).

(** [a] comes no later than [b] under "entry_date descending, then created_at
    descending". *)
Definition newest_first (a b : JournalEntryRow.t) : Prop :=
  JournalEntryRow.entry_date b < JournalEntryRow.entry_date a \/
  (JournalEntryRow.entry_date b = JournalEntryRow.entry_date a /\
   JournalEntryRow.created_at b <= JournalEntryRow.created_at a).

(** ** The calls a client can make *)

Inductive Request : Type :=
| CreateTenantReq (req : pb.CreateTenantRequest)
| GetTenantReq (req : pb.GetTenantRequest)
| CreateAccountReq (req : pb.CreateAccountRequest)
| GetAccountReq (req : pb.GetAccountRequest)
| ListAccountsReq (req : pb.ListAccountsRequest)
| GetAccountBalanceReq (req : pb.GetAccountBalanceRequest)
| CreateJournalEntryReq (req : pb.CreateJournalEntryRequest)
| GetJournalEntryReq (req : pb.GetJournalEntryRequest)
| ListJournalEntriesReq (req : pb.ListJournalEntriesRequest).

Inductive Response : Type :=
| CreateTenantResp (resp : pb.CreateTenantResponse)
| GetTenantResp (resp : pb.GetTenantResponse)
| CreateAccountResp (resp : pb.CreateAccountResponse)
| GetAccountResp (resp : pb.GetAccountResponse)
| ListAccountsResp (resp : pb.ListAccountsResponse)
| GetAccountBalanceResp (resp : pb.GetAccountBalanceResponse)
| CreateJournalEntryResp (resp : pb.CreateJournalEntryResponse)
| GetJournalEntryResp (resp : pb.GetJournalEntryResponse)
| ListJournalEntriesResp (resp : pb.ListJournalEntriesResponse).

Definition answer {A : Type} (wrap : A -> Response) (h : Handler A) : Handler Response :=
  fun w =>
    match h w with
    | (inl a, w') => (inl (wrap a), w')
    | (inr st, w') => (inr st, w')
    end.

(** The server's dispatch of one call to its handler. *)
Definition serve (json_Unmarshal : string -> option (option JSONObject))
  (s : LedgerService) (ctx : Context) (call : Request) : Handler Response :=
  match call with
  | CreateTenantReq req => answer CreateTenantResp (CreateTenant s ctx req)
  | GetTenantReq req => answer GetTenantResp (GetTenant s ctx req)
  | CreateAccountReq req => answer CreateAccountResp (CreateAccount s ctx req)
  | GetAccountReq req => answer GetAccountResp (GetAccount s ctx req)
  | ListAccountsReq req => answer ListAccountsResp (ListAccounts s ctx req)
  | GetAccountBalanceReq req => answer GetAccountBalanceResp (GetAccountBalance s ctx req)
  | CreateJournalEntryReq req =>
      answer CreateJournalEntryResp (CreateJournalEntry json_Unmarshal s ctx req)
  | GetJournalEntryReq req => answer GetJournalEntryResp (GetJournalEntry s ctx req)
  | ListJournalEntriesReq req => answer ListJournalEntriesResp (ListJournalEntries s ctx req)
  end.

(** The world after a sequence of calls, each under its own context. *)
Definition run (json_Unmarshal : string -> option (option JSONObject))
  (s : LedgerService) (calls : list (Context * Request)) (w : World) : World :=
  fold_left (fun w c => snd (serve json_Unmarshal s (fst c) (snd c) w)) calls w.

(** The committed lines against account [a]. *)
Definition lines_against (a : UUID) (tb : Tables) : list JournalEntryLine.t :=
  filter (fun l => (JournalEntryLine.AccountID l =? a)%N) (journal_entry_lines tb).

(** A ledger in which no account has been opened yet. *)
Definition no_accounts (w : World) : Prop :=
  accounts (db w) = [] /\ account_balances (db w) = [] /\
  journal_entry_lines (db w) = [].

(** Every balance row carries the exact sums of the committed lines against
    its account. *)
Definition balances_match (tb : Tables) : Prop :=
  forall b, In b (account_balances tb) ->
    Equal (AccountBalance.DebitBalance b)
          (sum_decimals (map JournalEntryLine.Debit
                             (lines_against (AccountBalance.AccountID b) tb))) = true /\
    Equal (AccountBalance.CreditBalance b)
          (sum_decimals (map JournalEntryLine.Credit
                             (lines_against (AccountBalance.AccountID b) tb))) = true.

(** Every account has its one balance row. *)
Definition one_balance_per_account (tb : Tables) : Prop :=
  NoDup (map AccountBalance.AccountID (account_balances tb)) /\
  forall a, In a (accounts tb) ->
            exists b, In b (account_balances tb) /\
                      AccountBalance.AccountID b = Account.ID a.

(** The ids in use were drawn from the id supply. *)
Definition ids_allocated (w : World) : Prop :=
  (forall a, In a (accounts (db w)) -> (Account.ID a < next_uuid w)%N) /\
  (forall b, In b (account_balances (db w)) -> (AccountBalance.AccountID b < next_uuid w)%N) /\
  (forall l, In l (journal_entry_lines (db w)) ->
             (JournalEntryLine.AccountID l < next_uuid w)%N).

Definition consistent (w : World) : Prop :=
  balances_match (db w) /\ one_balance_per_account (db w) /\ ids_allocated w.

(** The value of a list of decimals. *)
Fixpoint total (ds : list Decimal) : Q :=
  match ds with
  | [] => 0%Q
  | d :: r => (toQ d + total r)%Q
  end.

(** What [apply_lines] does to one balance row. *)
Definition apply_to_row (now : Time) (ls : list CreateJournalEntryLineParams.t)
  (b : AccountBalance.t) : AccountBalance.t :=
  fold_left (fun b l =>
               if (AccountBalance.AccountID b =? CreateJournalEntryLineParams.AccountID l)%N
               then AccountBalance.mk (AccountBalance.AccountID b)
                      (Add (AccountBalance.DebitBalance b) (CreateJournalEntryLineParams.Debit l))
                      (Add (AccountBalance.CreditBalance b) (CreateJournalEntryLineParams.Credit l))
                      now
               else b) ls b.

Definition params_against (a : UUID) (ls : list CreateJournalEntryLineParams.t)
  : list CreateJournalEntryLineParams.t :=
  filter (fun l => (CreateJournalEntryLineParams.AccountID l =? a)%N) ls.

Definition opened_tables (T : UUID) (now : Time) (ids : N) (tb : Tables)
  (p : CreateAccountParams.t) : Tables :=
  mkTables (tenants tb) (account_types tb) (currencies tb)
    (accounts tb
     ++ [Account.mk ids T
           (CreateAccountParams.AccountNumber p) (CreateAccountParams.Name p)
           (CreateAccountParams.Description p) (CreateAccountParams.AccountTypeID p)
           (CreateAccountParams.CurrencyCode p) (CreateAccountParams.ParentAccountID p)
           true now now])
    (account_balances tb ++ [AccountBalance.mk ids zero zero now])
    (journal_entries tb) (journal_entry_lines tb).

(** The tenant a call is bound to: the tenant id of its request, when it
    parses; the tenant directory's calls are bound to none. *)
Definition scope_of (call : Request) : option UUID :=
  match call with
  | CreateTenantReq _ | GetTenantReq _ => None
  | CreateAccountReq req => uuid.Parse (pb.CreateAccount_TenantId req)
  | GetAccountReq req => uuid.Parse (pb.GetAccount_TenantId req)
  | ListAccountsReq req => uuid.Parse (pb.ListAccounts_TenantId req)
  | GetAccountBalanceReq req => uuid.Parse (pb.GetAccountBalance_TenantId req)
  | CreateJournalEntryReq req => uuid.Parse (pb.CreateJournalEntry_TenantId req)
  | GetJournalEntryReq req => uuid.Parse (pb.GetJournalEntry_TenantId req)
  | ListJournalEntriesReq req => uuid.Parse (pb.ListJournalEntries_TenantId req)
  end.

(** The tables and the id supply after a call bound to [scope], whatever it
    answered: those before it, or those one stored procedure, run for the
    tenant of the scope, has produced from them. *)
Inductive committed (scope : option UUID) (w w' : World) : Prop :=
| nothing_committed :
    db w' = db w -> next_uuid w' = next_uuid w -> committed scope w w'
| tenant_committed (now : Time) (name : string) :
    scope = None ->
    db w' = mkTables (tenants (db w) ++ [Tenant.mk (next_uuid w) name now now])
              (account_types (db w)) (currencies (db w)) (accounts (db w))
              (account_balances (db w)) (journal_entries (db w))
              (journal_entry_lines (db w)) ->
    next_uuid w' = (next_uuid w + 1)%N ->
    committed scope w w'
| account_committed (T : UUID) (now : Time) (p : CreateAccountParams.t) :
    scope = Some T ->
    create_account T now (next_uuid w) (db w) p
    = inl (next_uuid w, db w', next_uuid w') ->
    committed scope w w'
| entry_committed (T : UUID) (now : Time) (p : CreateJournalEntryParams.t) :
    scope = Some T ->
    create_journal_entry T now (next_uuid w) (db w) p
    = inl (next_uuid w, db w', next_uuid w') ->
    committed scope w w'.

Definition ledger_calls : list (Context * Request) :=
  [(None, CreateTenantReq (pb.mkCreateTenantRequest "Acme"));
   (None, CreateAccountReq (pb.mkCreateAccountRequest acme_id "1000" "Cash" "" 1 "USD" None));
   (None, CreateAccountReq
            (pb.mkCreateAccountRequest acme_id "4000" "Revenue" "" 4 "USD" None));
   (None, CreateJournalEntryReq balanced_request);
   (None, CreateJournalEntryReq unbalanced_request);
   (Some 40, CreateJournalEntryReq split_request);
   (None, GetAccountBalanceReq cash_balance_request)].

(** [a] is an account row of tenant [T]. *)
Definition owns_account (T : UUID) (tb : Tables) (a : Account.t) : Prop :=
  In a (accounts tb) /\ Account.TenantID a = T.

(** [e] is an entry row of tenant [T] together with lines of that entry. *)
Definition owns_entry (T : UUID) (tb : Tables) (e : JournalEntry.t) : Prop :=
  In (entry_header e) (journal_entries tb) /\
  JournalEntry.TenantID e = T /\
  forall l, In l (JournalEntry.Lines e) ->
            In l (journal_entry_lines tb) /\
            JournalEntryLine.JournalEntryID l = JournalEntry.ID e.

(** Every row a response carries is a row of tenant [T]. *)
Definition reveals_only (T : UUID) (tb : Tables) (resp : Response) : Prop :=
  match resp with
  | CreateTenantResp _ | GetTenantResp _ => True
  | CreateAccountResp r =>
      exists a, owns_account T tb a /\
                r = pb.mkCreateAccountResponse
                      (uuid.String (Account.ID a)) (uuid.String (Account.TenantID a))
                      (Account.AccountNumber a) (Account.Name a) (Account.CreatedAt a)
  | GetAccountResp r =>
      exists a, owns_account T tb a /\
                pb.GetAccountResponse_Account r = accountToProto a
  | ListAccountsResp r =>
      forall pa, In pa (pb.ListAccountsResponse_Accounts r) ->
                 exists a, owns_account T tb a /\ pa = accountToProto a
  | GetAccountBalanceResp r =>
      exists a b,
        owns_account T tb a /\ In b (account_balances tb) /\
        AccountBalance.AccountID b = Account.ID a /\
        r = pb.mkGetAccountBalanceResponse
              (uuid.String (Account.ID a))
              (decimal.String (AccountBalance.DebitBalance b))
              (decimal.String (AccountBalance.CreditBalance b))
              (decimal.String (Sub (AccountBalance.DebitBalance b)
                                   (AccountBalance.CreditBalance b)))
              (AccountBalance.UpdatedAt b)
  | CreateJournalEntryResp r =>
      exists e, owns_entry T tb e /\ r = created_response e
  | GetJournalEntryResp r =>
      exists e, owns_entry T tb e /\
                pb.GetJournalEntryResponse_JournalEntry r = journalEntryToProto e
  | ListJournalEntriesResp r =>
      forall pe, In pe (pb.ListJournalEntriesResponse_JournalEntries r) ->
                 exists e, owns_entry T tb e /\ pe = journalEntryToProto e
  end.

(** The rows that are not tenant [T]'s are still there, as they were. *)
Definition foreign_rows_kept (T : UUID) (tb tb' : Tables) : Prop :=
  (forall a, In a (accounts tb) -> Account.TenantID a <> T -> In a (accounts tb')) /\
  (forall e, In e (journal_entries tb) -> JournalEntryRow.tenant_id e <> T ->
             In e (journal_entries tb')) /\
  (forall l, In l (journal_entry_lines tb) -> policy_journal_entry_lines T tb l = false ->
             In l (journal_entry_lines tb')) /\
  (forall b, In b (account_balances tb) -> policy_account_balances T tb b = false ->
             In b (account_balances tb')).

(** Every row that was not there before is tenant [T]'s. *)
Definition new_rows_owned (T : UUID) (tb tb' : Tables) : Prop :=
  (forall a, In a (accounts tb') -> In a (accounts tb) \/ Account.TenantID a = T) /\
  (forall e, In e (journal_entries tb') ->
             In e (journal_entries tb) \/ JournalEntryRow.tenant_id e = T) /\
  (forall l, In l (journal_entry_lines tb') ->
             In l (journal_entry_lines tb) \/ policy_journal_entry_lines T tb' l = true) /\
  (forall b, In b (account_balances tb') ->
             In b (account_balances tb) \/ policy_account_balances T tb' b = true).

(** The call names, by id, an account or an entry that is no row of tenant
    [T]. *)
Definition asks_for_foreign_row (T : UUID) (tb : Tables) (call : Request) : Prop :=
  match call with
  | GetAccountReq req =>
      exists a, uuid.Parse (pb.GetAccount_AccountId req) = Some a /\
                forall row, In row (accounts tb) -> Account.ID row = a ->
                            Account.TenantID row <> T
  | GetAccountBalanceReq req =>
      exists a, uuid.Parse (pb.GetAccountBalance_AccountId req) = Some a /\
                forall row, In row (accounts tb) -> Account.ID row = a ->
                            Account.TenantID row <> T
  | GetJournalEntryReq req =>
      exists id, uuid.Parse (pb.GetJournalEntry_JournalEntryId req) = Some id /\
                 forall row, In row (journal_entries tb) -> JournalEntryRow.id row = id ->
                             JournalEntryRow.tenant_id row <> T
  | _ => False
  end.

(** A second tenant, "Globex", opened after Acme's sale was posted, with an
    account 1000/Cash of its own. *)
Definition globex_id : string := "00000000-0000-0000-0000-000000000007".

Definition globex_cash_id : string := "00000000-0000-0000-0000-000000000008".

Definition two_tenants_world : World :=
  let w := snd (CreateTenant (ledger heap_order) None (pb.mkCreateTenantRequest "Globex")
                  (posted_world heap_order)) in
  snd (CreateAccount (ledger heap_order) None
         (pb.mkCreateAccountRequest globex_id "1000" "Cash" "" 1 "USD" None) w).

(** Acme asks for Globex's cash account by its exact id. *)
Definition foreign_account_request : pb.GetAccountRequest :=
  pb.mkGetAccountRequest acme_id globex_cash_id.

(** The tenant id a request carries; [CreateTenant] carries none. *)
Definition tenant_id_of (call : Request) : option string :=
  match call with
  | CreateTenantReq _ => None
  | GetTenantReq req => Some (pb.GetTenant_TenantId req)
  | CreateAccountReq req => Some (pb.CreateAccount_TenantId req)
  | GetAccountReq req => Some (pb.GetAccount_TenantId req)
  | ListAccountsReq req => Some (pb.ListAccounts_TenantId req)
  | GetAccountBalanceReq req => Some (pb.GetAccountBalance_TenantId req)
  | CreateJournalEntryReq req => Some (pb.CreateJournalEntry_TenantId req)
  | GetJournalEntryReq req => Some (pb.GetJournalEntry_TenantId req)
  | ListJournalEntriesReq req => Some (pb.ListJournalEntries_TenantId req)
  end.

(** The code under which a handler reports a failure of its repository:
    the lookups by id answer [NotFound], every other call [Internal]. *)
Definition repository_failure_code (call : Request) : codes.Code :=
  match call with
  | GetTenantReq _ | GetAccountReq _ | GetAccountBalanceReq _ | GetJournalEntryReq _ =>
      codes.NotFound
  | _ => codes.Internal
  end.

(** A request line and the parameters the repository receives for it. *)
Definition parses_to (line : pb.JournalEntryLine) (p : CreateJournalEntryLineParams.t)
  : Prop :=
  uuid.Parse (pb.Line_AccountId line) = Some (CreateJournalEntryLineParams.AccountID p) /\
  NewFromString (pb.Line_Debit line) = Some (CreateJournalEntryLineParams.Debit p) /\
  NewFromString (pb.Line_Credit line) = Some (CreateJournalEntryLineParams.Credit p) /\
  pb.Line_Description line = CreateJournalEntryLineParams.Description p.

(** A request as the unit tests of the service send it: a tenant id that is
    no UUID. *)
Definition invalid_tenant_request : pb.GetAccountRequest :=
  pb.mkGetAccountRequest "invalid-uuid" cash_id.

Definition nameless_account_request : pb.CreateAccountRequest :=
  pb.mkCreateAccountRequest acme_id "1000" "" "" 1 "USD" None.

(** A computation that does nothing but fail when the context is already
    done. *)
Definition refused {X A : Type} (ctx : Context) (c : Comp X A) : Prop :=
  forall w, ctx_done ctx w = true -> exists e, c w = (inr e, w).

(** The calls that only look rows up. *)
Definition is_lookup (call : Request) : bool :=
  match call with
  | CreateTenantReq _ | CreateAccountReq _ | CreateJournalEntryReq _ => false
  | _ => true
  end.

(** [a] comes before [b] under [ORDER BY created_at DESC]. *)
Definition newer_account (a b : Account.t) : Prop :=
  Account.CreatedAt b <= Account.CreatedAt a.

(** The first page of Acme's accounts in US dollars, with the default page
    size. *)
Definition usd_accounts_request : pb.ListAccountsRequest :=
  pb.mkListAccountsRequest acme_id None (Some "USD") 0 0.

(** The world [n] round trips later, tables and id supply untouched. *)
Definition later (n : Z) (w : World) : World :=
  mkWorld (db w) (next_uuid w) (clock w + n).

(** The ids of the stored entries, and the entry ids their lines refer to,
    were drawn from the id supply. *)
Definition entry_ids_allocated (w : World) : Prop :=
  (forall e, In e (journal_entries (db w)) -> (JournalEntryRow.id e < next_uuid w)%N) /\
  (forall l, In l (journal_entry_lines (db w)) ->
             (JournalEntryLine.JournalEntryID l < next_uuid w)%N).

(** What a stored line and a submitted line say: account, debit, credit and
    description. *)
Definition line_content (l : JournalEntryLine.t) : UUID * Decimal * Decimal * string :=
  (JournalEntryLine.AccountID l, JournalEntryLine.Debit l, JournalEntryLine.Credit l,
   JournalEntryLine.Description l).

Definition param_content (l : CreateJournalEntryLineParams.t)
  : UUID * Decimal * Decimal * string :=
  (CreateJournalEntryLineParams.AccountID l, CreateJournalEntryLineParams.Debit l,
   CreateJournalEntryLineParams.Credit l, CreateJournalEntryLineParams.Description l).

(** [ids_allocated] and [entry_ids_allocated], decided. *)
Definition ids_allocatedb (w : World) : bool :=
  forallb (fun a => (Account.ID a <? next_uuid w)%N) (accounts (db w))
  && forallb (fun b => (AccountBalance.AccountID b <? next_uuid w)%N) (account_balances (db w))
  && forallb (fun l => (JournalEntryLine.AccountID l <? next_uuid w)%N)
             (journal_entry_lines (db w)).

Definition entry_ids_allocatedb (w : World) : bool :=
  forallb (fun e => (JournalEntryRow.id e <? next_uuid w)%N) (journal_entries (db w))
  && forallb (fun l => (JournalEntryLine.JournalEntryID l <? next_uuid w)%N)
             (journal_entry_lines (db w)).

(** The parameters of the integration tests of the repositories. *)
Definition bank_account_params : CreateAccountParams.t :=
  CreateAccountParams.mk "2000" "Bank Account" None 1 "USD" None.

Definition test_entry_params : CreateJournalEntryParams.t :=
  CreateJournalEntryParams.mk "TEST-001" "Test transaction" 7 None
    [CreateJournalEntryLineParams.mk 2%N (mkDecimal 100 0) zero "Debit line";
     CreateJournalEntryLineParams.mk 3%N zero (mkDecimal 100 0) "Credit line"].

(** A lookup whose ids parse and name nothing the caller can see: no tenant
    with the id for GetTenant; for the lookups bound to a tenant, no account
    or entry of that tenant with the id. *)
Definition names_missing_row (tb : Tables) (call : Request) : Prop :=
  match call with
  | GetTenantReq req =>
      exists id, uuid.Parse (pb.GetTenant_TenantId req) = Some id /\
                 forall t, In t (tenants tb) -> Tenant.ID t <> id
  | GetAccountReq _ | GetAccountBalanceReq _ | GetJournalEntryReq _ =>
      exists T, scope_of call = Some T /\ asks_for_foreign_row T tb call
  | _ => False
  end.

(** The message of the [NotFound] status of each lookup, as the handler's
    prefix and the repository's error spell it. *)
Definition not_found_message (call : Request) : string :=
  match call with
  | GetTenantReq _ => "tenant not found: failed to get tenant: no rows in result set"
  | GetAccountReq _ => "account not found: account not found"
  | GetAccountBalanceReq _ => "balance not found: balance not found for account"
  | GetJournalEntryReq _ => "journal entry not found: journal entry not found"
  | _ => ""
  end.

Definition unknown_tenant_request : pb.GetTenantRequest :=
  pb.mkGetTenantRequest "00000000-0000-0000-0000-00000000beef".

(** ** internal/repository: reference data *)

Section Reference.

Variable E : SqlEngine.

(** The collation of [currencies.code]: how [ORDER BY code] compares two
    codes. *)
Variable collate : string -> string -> bool.

(** [ORDER BY id]. *)
Definition account_type_by_id (a b : AccountType.t) : bool :=
  AccountType.ID a <=? AccountType.ID b.

(** [ORDER BY code]. *)
Definition currency_by_code (a b : Currency.t) : bool :=
  collate (Currency.Code a) (Currency.Code b).

(** Reference data are read on a connection of the pool that is bound to no
    tenant. *)
Definition ReferenceRepository_ListAccountTypes (ctx : Context) : M (list AccountType.t) :=
  wrapf "failed to list account types"
    (Conn_Query ctx
       (fun tb => inl (order_by account_type_by_id (scan E _ (account_types tb))))).

Definition ReferenceRepository_ListCurrencies (ctx : Context) : M (list Currency.t) :=
  wrapf "failed to list currencies"
    (Conn_Query ctx
       (fun tb => inl (order_by currency_by_code (scan E _ (currencies tb))))).

End Reference.

Record ReferenceRepositoryInterface : Type := mkReferenceRepository
  { ReferenceRepo_ListAccountTypes : Context -> M (list AccountType.t);
    ReferenceRepo_ListCurrencies : Context -> M (list Currency.t) }.

Definition NewReferenceRepository (E : SqlEngine) (collate : string -> string -> bool)
  : ReferenceRepositoryInterface :=
  mkReferenceRepository (ReferenceRepository_ListAccountTypes E)
    (ReferenceRepository_ListCurrencies E collate).

(** The messages of the two reference data calls. *)
Module pb_reference.

Record AccountType : Type := mkAccountType
  { AccountType_Id : Z; AccountType_Code : string; AccountType_Name : string;
    AccountType_NormalBalance : string }.

Record Currency : Type := mkCurrency
  { Currency_Id : Z; Currency_Code : string; Currency_Name : string;
    Currency_Symbol : string; Currency_Precision : Z }.

Record ListAccountTypesRequest : Type := mkListAccountTypesRequest { }.

Record ListAccountTypesResponse : Type := mkListAccountTypesResponse
  { ListAccountTypesResponse_AccountTypes : list AccountType }.

Record ListCurrenciesRequest : Type := mkListCurrenciesRequest { }.

Record ListCurrenciesResponse : Type := mkListCurrenciesResponse
  { ListCurrenciesResponse_Currencies : list Currency }.

End pb_reference.

Section ReferenceService.

(** The [referenceRepo] of the service. *)
Variable referenceRepo : ReferenceRepositoryInterface.

Definition ListAccountTypes (ctx : Context) (req : pb_reference.ListAccountTypesRequest)
  : Handler pb_reference.ListAccountTypesResponse :=
  accountTypes <- orStatus codes.Internal "failed to list account types"
                    (ReferenceRepo_ListAccountTypes referenceRepo ctx) ;;
  ret (pb_reference.mkListAccountTypesResponse
         (map (fun at_ => pb_reference.mkAccountType (AccountType.ID at_)
                            (AccountType.Code at_) (AccountType.Name at_)
                            (AccountType.NormalBalance at_))
              accountTypes)).

Definition ListCurrencies (ctx : Context) (req : pb_reference.ListCurrenciesRequest)
  : Handler pb_reference.ListCurrenciesResponse :=
  currencies <- orStatus codes.Internal "failed to list currencies"
                  (ReferenceRepo_ListCurrencies referenceRepo ctx) ;;
  ret (pb_reference.mkListCurrenciesResponse
         (map (fun c => pb_reference.mkCurrency (Currency.ID c) (Currency.Code c)
                          (Currency.Name c) (Currency.Symbol c) (Currency.Precision c))
              currencies)).

End ReferenceService.

(** The reference data of a ledger that also keeps euro accounts, the dollar
    stored first. *)
Definition reference_world : World :=
  mkWorld
    (mkTables []
       [AccountType.mk 4 "REVENUE" "Revenue" "CREDIT" 0 0;
        AccountType.mk 1 "ASSET" "Asset" "DEBIT" 0 0]
       [Currency.mk 1 "USD" "US Dollar" "$" 2 0 0;
        Currency.mk 2 "EUR" "Euro" "E" 2 0 0]
       [] [] [] [])
    1%N 0.

(** The byte order of strings, as under the "C" collation. *)
Definition bytewise (a b : string) : bool := String.leb a b.

(** All of Acme's entries dated from 0 on, second page of one entry. *)
Definition second_entry_request : pb.ListJournalEntriesRequest :=
  pb.mkListJournalEntriesRequest acme_id None (Some 0) None 2 1.

Definition bank_account_request : pb.CreateAccountRequest :=
  pb.mkCreateAccountRequest acme_id "2000" "Bank Account" "" 1 "USD" None.

(** * Properties *)

(** ** Decimal arithmetic is exact *)

Lemma ten_nonzero : ~ (10 # 1 == 0)%Q.
Proof. discriminate. Qed.

Lemma toQ_rescale (d : Decimal) (e : Z) :
  e <= exp d -> (toQ (rescale d e) == toQ d)%Q.
Proof.
  intros He. unfold rescale.
  destruct (Z.eqb_spec (exp d) e) as [Heq|Hne]; [reflexivity|].
  destruct (Z.ltb_spec (exp d) e) as [Hlt|_]; [lia|].
  unfold toQ; cbn [value exp].
  assert (Hp : ((10 # 1) ^ exp d == (10 # 1) ^ (exp d - e) * (10 # 1) ^ e)%Q).
  { rewrite <- (Qpower_plus _ _ _ ten_nonzero).
    replace (exp d - e + e) with (exp d) by lia. reflexivity. }
  rewrite Hp, inject_Z_mult, Zpower_Qpower by lia.
  change (inject_Z 10) with (10 # 1)%Q. ring.
Qed.

Lemma RescalePair_spec (d1 d2 : Decimal) :
  let '(r1, r2) := RescalePair d1 d2 in
  exp r1 = exp r2 /\ (toQ r1 == toQ d1)%Q /\ (toQ r2 == toQ d2)%Q.
Proof.
  unfold RescalePair.
  destruct (Z.ltb_spec (exp d1) (exp d2)) as [H|H].
  - split; [|split; [reflexivity|apply toQ_rescale; lia]].
    unfold rescale. destruct (Z.eqb_spec (exp d2) (exp d1)); [lia|].
    destruct (Z.ltb_spec (exp d2) (exp d1)); [lia|reflexivity].
  - destruct (Z.ltb_spec (exp d2) (exp d1)) as [H'|H'].
    + split; [|split; [apply toQ_rescale; lia|reflexivity]].
      unfold rescale. destruct (Z.eqb_spec (exp d1) (exp d2)); [lia|].
      destruct (Z.ltb_spec (exp d1) (exp d2)); [lia|reflexivity].
    + split; [lia|split; reflexivity].
Qed.

Lemma toQ_Add (a b : Decimal) : (toQ (Add a b) == toQ a + toQ b)%Q.
Proof.
  unfold Add. pose proof (RescalePair_spec a b) as H.
  destruct (RescalePair a b) as [r1 r2]. destruct H as (He & H1 & H2).
  rewrite <- H1, <- H2. unfold toQ; cbn [value exp].
  rewrite inject_Z_plus, He. ring.
Qed.

Lemma toQ_Sub (a b : Decimal) : (toQ (Sub a b) == toQ a - toQ b)%Q.
Proof.
  unfold Sub. pose proof (RescalePair_spec a b) as H.
  destruct (RescalePair a b) as [r1 r2]. destruct H as (He & H1 & H2).
  rewrite <- H1, <- H2. unfold toQ; cbn [value exp].
  unfold Z.sub. rewrite inject_Z_plus, inject_Z_opp, He. ring.
Qed.

Lemma pow10_pos (e : Z) : (0 < (10 # 1) ^ e)%Q.
Proof. apply Qpower_0_lt. reflexivity. Qed.

Lemma toQ_same_exp (a b : Decimal) :
  exp a = exp b -> ((toQ a == toQ b)%Q <-> value a = value b).
Proof.
  intros He. unfold toQ. rewrite He. split.
  - intros H. apply inject_Z_injective.
    apply Qmult_inj_r in H; [exact H|].
    intro Hz. pose proof (pow10_pos (exp b)) as Hp. rewrite Hz in Hp. inversion Hp.
  - intros ->. reflexivity.
Qed.

Lemma Equal_spec (a b : Decimal) : Equal a b = true <-> (toQ a == toQ b)%Q.
Proof.
  unfold Equal, Cmp. pose proof (RescalePair_spec a b) as H.
  destruct (RescalePair a b) as [r1 r2]. destruct H as (He & H1 & H2).
  rewrite <- H1, <- H2, (toQ_same_exp _ _ He).
  destruct (Z.compare_spec (value r1) (value r2)); split; intros; try congruence; try lia.
Qed.

Example NewFromString_examples :
  NewFromString "100.00" = Some (mkDecimal 10000 (-2)) /\
  NewFromString "-5" = Some (mkDecimal (-5) 0) /\
  NewFromString "1.5e3" = Some (mkDecimal 15 2) /\
  NewFromString "12x" = None /\ NewFromString "" = None /\
  NewFromString "1.2.3" = None /\ NewFromString "." = None.
Proof. repeat split; reflexivity. Qed.

Example String_examples :
  decimal.String (mkDecimal 10000 (-2)) = "100" /\
  decimal.String (mkDecimal (-5) (-3)) = "-0.005" /\
  decimal.String (mkDecimal 15 2) = "1500" /\
  decimal.String (mkDecimal 9999 (-2)) = "99.99".
Proof. repeat split; vm_compute; reflexivity. Qed.

Example uuid_examples :
  uuid.Parse cash_id = Some 2%N /\
  uuid.String 2%N = cash_id /\
  uuid.Parse "not-a-uuid" = None.
Proof. repeat split; vm_compute; reflexivity. Qed.

(** ** Pagination *)

Lemma clamp_page_spec (p : Z) : clamp_page p = spec_page p.
Proof. reflexivity. Qed.

Lemma clamp_pageSize_spec (p : Z) : clamp_pageSize p = spec_page_size p.
Proof.
  unfold clamp_pageSize, spec_page_size. destruct (p <? 1); reflexivity.
Qed.

Lemma spec_page_size_range (p : Z) : 1 <= spec_page_size p <= 100.
Proof.
  unfold spec_page_size.
  destruct (Z.ltb_spec p 1); [lia|]. destruct (Z.ltb_spec 100 p); lia.
Qed.

Lemma int64_small (z : Z) : - 2 ^ 63 <= z < 2 ^ 63 -> int64 z = z.
Proof.
  intros H. unfold int64, wrap.
  change (2 ^ (64 - 1)) with (2 ^ 63).
  rewrite Z.mod_small; lia.
Qed.

Lemma offset_exact (page page_size : Z) :
  is_int32 page ->
  int64 ((clamp_page page - 1) * clamp_pageSize page_size) = spec_offset page page_size.
Proof.
  intros Hp. rewrite clamp_page_spec, clamp_pageSize_spec. unfold spec_offset.
  apply int64_small. pose proof (spec_page_size_range page_size).
  unfold is_int32 in Hp. unfold spec_page. destruct (Z.ltb_spec page 1); nia.
Qed.

(** C7.  Both list handlers hand the repository the clamped page size (50
    when the requested size is below 1, 100 when it is above 100) as the
    limit, and [(page - 1) * page_size] of the clamped page (1 when the
    requested page is below 1) and page size as the offset, whatever the
    repository behind the interface is. *)
Theorem list_handlers_pagination
  (s : LedgerService) (ctx : Context) (w : World)
  (reqA : pb.ListAccountsRequest) (tenantA : UUID)
  (reqJ : pb.ListJournalEntriesRequest) (tenantJ : UUID) (filterJ : option UUID) :
  uuid.Parse (pb.ListAccounts_TenantId reqA) = Some tenantA ->
  is_int32 (pb.ListAccounts_Page reqA) ->
  uuid.Parse (pb.ListJournalEntries_TenantId reqJ) = Some tenantJ ->
  parse_account_filter (pb.ListJournalEntries_AccountId reqJ) = Some filterJ ->
  is_int32 (pb.ListJournalEntries_Page reqJ) ->
  ListAccounts s ctx reqA w =
    bind (orStatus codes.Internal "failed to list accounts"
            (AccountRepo_List (accountRepo s) ctx tenantA
               (pb.ListAccounts_AccountTypeId reqA) (pb.ListAccounts_CurrencyCode reqA)
               (spec_page_size (pb.ListAccounts_PageSize reqA))
               (spec_offset (pb.ListAccounts_Page reqA) (pb.ListAccounts_PageSize reqA))))
         (fun r => ret (pb.mkListAccountsResponse
                          (map accountToProto (fst r)) (int32 (snd r))))
         w
  /\
  ListJournalEntries s ctx reqJ w =
    bind (orStatus codes.Internal "failed to list journal entries"
            (JournalRepo_List (journalRepo s) ctx tenantJ filterJ
               (pb.ListJournalEntries_FromDate reqJ) (pb.ListJournalEntries_ToDate reqJ)
               (spec_page_size (pb.ListJournalEntries_PageSize reqJ))
               (spec_offset (pb.ListJournalEntries_Page reqJ)
                            (pb.ListJournalEntries_PageSize reqJ))))
         (fun r => ret (pb.mkListJournalEntriesResponse
                          (map journalEntryToProto (fst r)) (int32 (snd r))))
         w.
Proof.
  intros HtA HpA HtJ HfJ HpJ. split.
  - unfold ListAccounts. rewrite HtA. cbn [parsed].
    unfold bind at 1. cbn [ret].
    rewrite (offset_exact _ _ HpA), clamp_pageSize_spec.
    unfold bind. destruct (orStatus _ _ _ w) as [[[accounts total]|e] w']; reflexivity.
  - unfold ListJournalEntries. rewrite HtJ. cbn [parsed].
    unfold bind at 1. cbn [ret].
    rewrite (offset_exact _ _ HpJ), clamp_pageSize_spec.
    unfold parse_account_filter in HfJ.
    destruct (pb.ListJournalEntries_AccountId reqJ) as [text|].
    + destruct (uuid.Parse text) as [aid|]; [|discriminate].
      injection HfJ as <-. cbn [parsed]. unfold bind at 1 2. cbn [ret].
      unfold bind. destruct (orStatus _ _ _ w) as [[[entries total]|e] w']; reflexivity.
    + injection HfJ as <-. unfold bind at 1. cbn [ret].
      unfold bind. destruct (orStatus _ _ _ w) as [[[entries total]|e] w']; reflexivity.
Qed.

Lemma list_handlers_pagination_witness :
  ListAccounts (ledger heap_order) None list_accounts_request (acme_world heap_order) =
    bind (orStatus codes.Internal "failed to list accounts"
            (AccountRepo_List (accountRepo (ledger heap_order)) None 1%N None None 100 200))
         (fun r => ret (pb.mkListAccountsResponse
                          (map accountToProto (fst r)) (int32 (snd r))))
         (acme_world heap_order)
  /\
  ListJournalEntries (ledger heap_order) None list_entries_request (acme_world heap_order) =
    bind (orStatus codes.Internal "failed to list journal entries"
            (JournalRepo_List (journalRepo (ledger heap_order)) None 1%N (Some 2%N)
               None None 50 0))
         (fun r => ret (pb.mkListJournalEntriesResponse
                          (map journalEntryToProto (fst r)) (int32 (snd r))))
         (acme_world heap_order).
Proof.
  apply (list_handlers_pagination (ledger heap_order) None (acme_world heap_order)
           list_accounts_request 1%N list_entries_request 1%N (Some 2%N)).
  - reflexivity.
  - unfold is_int32. cbn. lia.
  - reflexivity.
  - reflexivity.
  - unfold is_int32. cbn. lia.
Defined.

(** ** GetAccountBalance *)

Lemma GetAccountBalance_inv (s : LedgerService) (ctx : Context)
  (req : pb.GetAccountBalanceRequest) (w w' : World)
  (resp : pb.GetAccountBalanceResponse) :
  GetAccountBalance s ctx req w = (inl resp, w') ->
  exists tenantID accountID balance,
    uuid.Parse (pb.GetAccountBalance_TenantId req) = Some tenantID /\
    uuid.Parse (pb.GetAccountBalance_AccountId req) = Some accountID /\
    AccountRepo_GetBalance (accountRepo s) ctx tenantID accountID w = (inl balance, w') /\
    resp = pb.mkGetAccountBalanceResponse
             (uuid.String (AccountBalance.AccountID balance))
             (decimal.String (AccountBalance.DebitBalance balance))
             (decimal.String (AccountBalance.CreditBalance balance))
             (decimal.String (Sub (AccountBalance.DebitBalance balance)
                                  (AccountBalance.CreditBalance balance)))
             (AccountBalance.UpdatedAt balance).
Proof.
  unfold GetAccountBalance, bind, parsed, orStatus, ret, fail.
  destruct (uuid.Parse (pb.GetAccountBalance_TenantId req)) as [tenantID|]; [|discriminate].
  destruct (uuid.Parse (pb.GetAccountBalance_AccountId req)) as [accountID|]; [|discriminate].
  destruct (AccountRepo_GetBalance _ ctx tenantID accountID w) as [[balance|e] w1] eqn:Hb;
    [|discriminate].
  intros H. injection H as <- <-.
  exists tenantID, accountID, balance. repeat split; try reflexivity. exact Hb.
Qed.

(** C10.  In every successful GetAccountBalance response the three amounts
    are the renderings of the balance row's debit, of its credit, and of a
    decimal whose value is exactly the debit minus the credit. *)
Theorem net_balance_is_debit_minus_credit (s : LedgerService) (ctx : Context)
  (req : pb.GetAccountBalanceRequest) (w w' : World)
  (resp : pb.GetAccountBalanceResponse) :
  GetAccountBalance s ctx req w = (inl resp, w') ->
  exists (tenantID accountID : UUID) (balance : AccountBalance.t) (net : Decimal),
    AccountRepo_GetBalance (accountRepo s) ctx tenantID accountID w = (inl balance, w') /\
    pb.Balance_DebitBalance resp = decimal.String (AccountBalance.DebitBalance balance) /\
    pb.Balance_CreditBalance resp = decimal.String (AccountBalance.CreditBalance balance) /\
    pb.Balance_NetBalance resp = decimal.String net /\
    (toQ net == toQ (AccountBalance.DebitBalance balance)
                - toQ (AccountBalance.CreditBalance balance))%Q.
Proof.
  intros H. apply GetAccountBalance_inv in H.
  destruct H as (tenantID & accountID & balance & _ & _ & Hb & ->).
  exists tenantID, accountID, balance,
    (Sub (AccountBalance.DebitBalance balance) (AccountBalance.CreditBalance balance)).
  repeat split; try reflexivity; try assumption. apply toQ_Sub.
Qed.

(** ** CreateJournalEntry: request validation *)

(** C4.  A CreateJournalEntry request with no line or one line fails with
    [InvalidArgument] and leaves the world as it was, whatever repositories
    the service runs on: none of them is reached. *)
Theorem too_few_lines_rejected
  (json_Unmarshal : string -> option (option JSONObject))
  (s : LedgerService) (ctx : Context) (req : pb.CreateJournalEntryRequest) (w : World) :
  (List.length (pb.CreateJournalEntry_Lines req) < 2)%nat ->
  exists msg : string,
    CreateJournalEntry json_Unmarshal s ctx req w
    = (inr (mkStatus codes.InvalidArgument msg), w).
Proof.
  intros Hlen. unfold CreateJournalEntry, bind, parsed, require, ret, fail.
  destruct (uuid.Parse (pb.CreateJournalEntry_TenantId req)) as [tenantID|].
  - apply Nat.ltb_lt in Hlen. rewrite Hlen. cbn. eexists. reflexivity.
  - eexists. reflexivity.
Qed.

(** ** Computations that persist nothing *)

Lemma same_store_refl w : same_store w w.
Proof. unfold same_store. repeat split; lia. Qed.

Lemma same_store_trans w1 w2 w3 : same_store w1 w2 -> same_store w2 w3 -> same_store w1 w3.
Proof. unfold same_store. intros (-> & -> & ?) (-> & -> & ?). repeat split; lia. Qed.

Lemma roundtrip_cases (ctx : Context) (w : World) :
  (ctx_done ctx w = true /\ roundtrip ctx w = (inr ErrContext, w)) \/
  (ctx_done ctx w = false /\
   roundtrip ctx w = (inl tt, mkWorld (db w) (next_uuid w) (clock w + 1))).
Proof. unfold roundtrip. destruct (ctx_done ctx w); [left|right]; split; reflexivity. Qed.

Lemma readonly_ret {X A} (a : A) : readonly (@ret X A a).
Proof. intros w r w' H. injection H as _ <-. apply same_store_refl. Qed.

Lemma readonly_fail {X A} (e : X) : readonly (@fail X A e).
Proof. intros w r w' H. injection H as _ <-. apply same_store_refl. Qed.

Lemma readonly_bind {X A B} (c : Comp X A) (k : A -> Comp X B) :
  readonly c -> (forall a, readonly (k a)) -> readonly (bind c k).
Proof.
  intros Hc Hk w r w' H. unfold bind in H.
  destruct (c w) as [[a|e] w1] eqn:Hcw.
  - eapply same_store_trans; [eapply Hc; eassumption|eapply Hk; eassumption].
  - injection H as _ <-. eapply Hc; eassumption.
Qed.

Lemma readonly_wrapf {A} msg (c : M A) : readonly c -> readonly (wrapf msg c).
Proof.
  intros Hc w r w' H. unfold wrapf in H.
  destruct (c w) as [[a|e] w1] eqn:Hcw; injection H as _ <-; eapply Hc; eassumption.
Qed.

Lemma readonly_orStatus {A} code msg (c : M A) : readonly c -> readonly (orStatus code msg c).
Proof.
  intros Hc w r w' H. unfold orStatus in H.
  destruct (c w) as [[a|e] w1] eqn:Hcw; injection H as _ <-; eapply Hc; eassumption.
Qed.

Lemma readonly_defer {X A} (c : Comp X A) : readonly c -> readonly (defer Conn_Release c).
Proof.
  intros Hc w r w' H. unfold defer, Conn_Release in H.
  destruct (c w) as [r1 w1] eqn:Hcw. injection H as _ <-. eapply Hc; eassumption.
Qed.

Lemma readonly_roundtrip ctx : readonly (roundtrip ctx).
Proof.
  intros w r w' H. destruct (roundtrip_cases ctx w) as [[_ E]|[_ E]];
    rewrite E in H; injection H as _ <-; unfold same_store; cbn; repeat split; lia.
Qed.

Lemma readonly_Conn_QueryRow {A} ctx (q : Tables -> list A) : readonly (Conn_QueryRow ctx q).
Proof.
  unfold Conn_QueryRow. apply readonly_bind; [apply readonly_roundtrip|].
  intros _ w r w' H. injection H as _ <-. apply same_store_refl.
Qed.

Lemma readonly_Conn_Query {A} ctx (q : Tables -> list A + error) : readonly (Conn_Query ctx q).
Proof.
  unfold Conn_Query. apply readonly_bind; [apply readonly_roundtrip|].
  intros _ w r w' H. injection H as _ <-. apply same_store_refl.
Qed.

Lemma readonly_mapM {A B} (f : A -> M B) (l : list A) :
  (forall a, readonly (f a)) -> readonly (mapM f l).
Proof.
  intros Hf. induction l as [|x l IH]; cbn [mapM].
  - apply readonly_ret.
  - apply readonly_bind; [apply Hf|]. intros y.
    apply readonly_bind; [apply IH|]. intros ys. apply readonly_ret.
Qed.

Lemma readonly_DB_WithTenant ctx T : readonly (DB_WithTenant ctx T).
Proof.
  unfold DB_WithTenant, pool_Acquire.
  repeat (first [apply readonly_bind; [|intros ?] | apply readonly_wrapf
                | apply readonly_roundtrip | apply readonly_ret]).
Qed.

Create HintDb readonly.
#[local] Hint Resolve readonly_ret readonly_fail readonly_wrapf readonly_orStatus
  readonly_defer readonly_roundtrip readonly_Conn_QueryRow readonly_Conn_Query
  readonly_mapM readonly_DB_WithTenant : readonly.

Lemma readonly_match_result {A B} (c : M A) (k : A -> M B) (h : error -> error) :
  readonly c -> (forall a, readonly (k a)) ->
  readonly (fun w => match c w with
                     | (inl a, w') => k a w'
                     | (inr e, w') => (inr (h e), w')
                     end).
Proof.
  intros Hc Hk w r w' H.
  destruct (c w) as [[a|e] w1] eqn:Hcw.
  - eapply same_store_trans; [eapply Hc; eassumption|eapply Hk; eassumption].
  - injection H as _ <-. eapply Hc; eassumption.
Qed.

Section R.
Variable E : SqlEngine.

Lemma readonly_getLines ctx conn id : readonly (getLinesByJournalEntryID E ctx conn id).
Proof. unfold getLinesByJournalEntryID. auto with readonly. Qed.

Lemma readonly_JournalRepository_GetByID ctx T id :
  readonly (JournalRepository_GetByID E ctx T id).
Proof.
  unfold JournalRepository_GetByID.
  apply readonly_bind; [auto with readonly|]. intros conn.
  apply readonly_defer.
  intros w r w' H.
  destruct (Conn_QueryRow ctx _ w) as [[row|e] w1] eqn:Hq.
  - apply readonly_Conn_QueryRow in Hq.
    eapply same_store_trans; [exact Hq|].
    revert H. apply readonly_bind; [apply readonly_wrapf, readonly_getLines|].
    intros; apply readonly_ret.
  - apply readonly_Conn_QueryRow in Hq.
    destruct (Is_ErrNoRows e); injection H as _ <-; exact Hq.
Qed.
End R.

Ltac step_roundtrip :=
  match goal with
  | |- context [roundtrip ?c ?w] =>
      let Hd := fresh "Hdone" in
      let He := fresh "Hrt" in
      destruct (roundtrip_cases c w) as [[Hd He]|[Hd He]]; rewrite He; clear He; cbn
  end.

Lemma same_store_tick w n :
  0 <= n -> same_store w (mkWorld (db w) (next_uuid w) (clock w + n)).
Proof. intros. unfold same_store; cbn. repeat split; lia. Qed.

Lemma DB_BeginTx_cases (ctx : Context) (T : UUID) (w : World) :
  (exists e w', DB_BeginTx ctx T w = (inr e, w') /\ same_store w w') \/
  DB_BeginTx ctx T w =
    (inl (mkTx T (clock w + 3) (db w) (next_uuid w)),
     mkWorld (db w) (next_uuid w) (clock w + 3)).
Proof.
  unfold DB_BeginTx, pool_Acquire, bind, wrapf.
  step_roundtrip.
  { left. eexists _, _. split; [reflexivity|apply same_store_refl]. }
  step_roundtrip.
  { left. eexists _, _. split; [reflexivity|]. apply same_store_tick. lia. }
  step_roundtrip.
  { left. eexists _, _. split; [reflexivity|].
    replace (clock w + 1 + 1) with (clock w + 2) by lia. apply same_store_tick. lia. }
  right. replace (clock w + 1 + 1 + 1) with (clock w + 3) by lia. reflexivity.
Qed.

Lemma JournalRepository_Create_cases (E : SqlEngine) (ctx : Context) (T : UUID)
  (p : CreateJournalEntryParams.t) (w : World) :
  (exists e w', JournalRepository_Create E ctx T p w = (inr e, w') /\ same_store w w')
  \/
  (exists id tb ids,
     create_journal_entry T (clock w + 3) (next_uuid w) (db w) p = inl (id, tb, ids) /\
     JournalRepository_Create E ctx T p w =
       JournalRepository_GetByID E ctx T id (mkWorld tb ids (clock w + 5))).
Proof.
  remember (JournalRepository_Create E ctx T p w) as r eqn:Hr.
  unfold JournalRepository_Create in Hr. unfold bind at 1 in Hr. unfold wrapf at 1 in Hr.
  destruct (DB_BeginTx_cases ctx T w) as [(e & w' & Hb & Hs)|Hb]; rewrite Hb in Hr; clear Hb.
  { left. eexists _, _. split; [exact Hr|exact Hs]. }
  unfold defer, TenantTx_Rollback, TenantTx_QueryRow, TenantTx_Commit, bind, wrapf in Hr.
  cbn [tx_tenantID tx_now tx_tables tx_ids] in Hr.
  destruct (roundtrip_cases ctx (mkWorld (db w) (next_uuid w) (clock w + 3)))
    as [[Hd Hrt]|[Hd Hrt]]; rewrite Hrt in Hr; clear Hrt; cbn in Hr.
  { left. eexists _, _. split; [exact Hr|]. apply same_store_tick. lia. }
  destruct (create_journal_entry T (clock w + 3) (next_uuid w) (db w) p)
    as [[[id tb] ids]|e] eqn:Hproc; cbn in Hr.
  2:{ left. eexists _, _. split; [exact Hr|].
      replace (clock w + 3 + 1) with (clock w + 4) by lia. apply same_store_tick. lia. }
  destruct (roundtrip_cases ctx (mkWorld (db w) (next_uuid w) (clock w + 3 + 1)))
    as [[Hd' Hrt]|[Hd' Hrt]]; rewrite Hrt in Hr; clear Hrt; cbn in Hr.
  { left. eexists _, _. split; [exact Hr|].
    replace (clock w + 3 + 1) with (clock w + 4) by lia. apply same_store_tick. lia. }
  right. exists id, tb, ids. split; [reflexivity|].
  replace (clock w + 3 + 1 + 1) with (clock w + 5) in Hr by lia.
  rewrite Hr.
  destruct (JournalRepository_GetByID E ctx T id _) as [r1 w1]. reflexivity.
Qed.

(** ** The line loop of CreateJournalEntry *)

Lemma itoa_injective (i j : nat) : itoa i = itoa j -> i = j.
Proof.
  unfold itoa. intros H.
  assert (Hnil : forall n, Nat.to_uint n <> Decimal.Nil).
  { intros n Hn. pose proof (DecimalNat.Unsigned.of_to n) as Hof.
    rewrite Hn in Hof. cbn in Hof. subst n. discriminate Hn. }
  apply (f_equal NilZero.uint_of_string) in H.
  rewrite !NilZero.usu in H by apply Hnil.
  injection H as H. apply (f_equal Nat.of_uint) in H.
  rewrite !DecimalNat.Unsigned.of_to in H. exact H.
Qed.

Lemma amount_malformed_not_parses line : amount_malformed line -> line_parses line = false.
Proof.
  unfold amount_malformed, line_parses.
  intros [H|H]; destruct (uuid.Parse _);
    destruct (NewFromString (pb.Line_Debit line));
    destruct (NewFromString (pb.Line_Credit line)); try reflexivity; discriminate.
Qed.

(** The first line that does not parse ends the loop with its index. *)
Lemma parse_lines_first_error (lines : list pb.JournalEntryLine) :
  forall (i k : nat) (line : pb.JournalEntryLine),
    nth_error lines k = Some line -> line_parses line = false ->
    exists (j : nat) (bad : pb.JournalEntryLine) (what : string),
      (j <= k)%nat /\ nth_error lines j = Some bad /\ line_parses bad = false /\
      (forall m l, (m < j)%nat -> nth_error lines m = Some l -> line_parses l = true) /\
      In what line_error_prefixes /\
      parse_lines i lines
      = inr (mkStatus codes.InvalidArgument (String.append what (itoa (i + j)))).
Proof.
  induction lines as [|l0 rest IH]; intros i k line Hk Hbad.
  - destruct k; discriminate.
  - destruct (line_parses l0) eqn:Hl0.
    + destruct k as [|k]; [cbn in Hk; injection Hk as ->; congruence|].
      cbn in Hk. destruct (IH (S i) k line Hk Hbad)
        as (j & bad & what & Hj & Hnth & Hb & Hfirst & Hin & Hp).
      exists (S j), bad, what. repeat split; try assumption; try lia.
      * intros m l Hm Hnm. destruct m as [|m]; [cbn in Hnm; congruence|].
        cbn in Hnm. apply (Hfirst m l); [lia|assumption].
      * cbn [parse_lines]. unfold line_parses in Hl0.
        destruct (uuid.Parse (pb.Line_AccountId l0)); [|discriminate].
        destruct (NewFromString (pb.Line_Debit l0)); [|discriminate].
        destruct (NewFromString (pb.Line_Credit l0)); [|discriminate].
        rewrite Hp. replace (S i + j)%nat with (i + S j)%nat by lia. reflexivity.
    + assert (Hp : exists what, In what line_error_prefixes /\
                parse_lines i (l0 :: rest) =
                inr (mkStatus codes.InvalidArgument (String.append what (itoa i)))).
      { pose proof Hl0 as Hl. unfold line_parses in Hl. cbn [parse_lines].
        destruct (uuid.Parse (pb.Line_AccountId l0)).
        2:{ exists "invalid account ID at line ". split; [cbn; auto|reflexivity]. }
        destruct (NewFromString (pb.Line_Debit l0)).
        2:{ exists "invalid debit amount at line ". split; [cbn; auto|reflexivity]. }
        destruct (NewFromString (pb.Line_Credit l0)); [discriminate|].
        exists "invalid credit amount at line ". split; [cbn; auto|reflexivity]. }
      destruct Hp as (what & Hin & Hp).
      exists 0%nat, l0, what.
      split; [lia|]. split; [reflexivity|]. split; [exact Hl0|].
      split; [intros m l Hm; lia|]. split; [exact Hin|].
      rewrite Nat.add_0_r. exact Hp.
Qed.

(** ** CreateJournalEntry: from the request to the repository *)

Lemma parse_lines_all_parse (lines : list pb.JournalEntryLine) :
  forall (i : nat) (ps : list CreateJournalEntryLineParams.t),
    parse_lines i lines = inl ps ->
    List.length ps = List.length lines /\ forallb line_parses lines = true.
Proof.
  induction lines as [|l rest IH]; intros i ps H.
  - injection H as <-. split; reflexivity.
  - cbn [parse_lines] in H. unfold line_parses. cbn [forallb].
    destruct (uuid.Parse (pb.Line_AccountId l)); [|discriminate].
    destruct (NewFromString (pb.Line_Debit l)); [|discriminate].
    destruct (NewFromString (pb.Line_Credit l)); [|discriminate].
    destruct (parse_lines (S i) rest) as [ps'|st] eqn:Hrest; [|discriminate].
    injection H as <-. destruct (IH _ _ Hrest) as [Hlen Hall].
    cbn [List.length]. fold line_parses. rewrite Hlen, Hall. split; reflexivity.
Qed.

(** A request that passes validation is handed to the repository, and the
    handler's outcome is the repository's: its entry rendered as the
    response, or its error as [Internal]. *)
Lemma CreateJournalEntry_validated
  (json_Unmarshal : string -> option (option JSONObject))
  (s : LedgerService) (ctx : Context) (req : pb.CreateJournalEntryRequest) (w : World)
  (tenantID : UUID) (lines : list CreateJournalEntryLineParams.t)
  (metadata : option JSONObject) :
  uuid.Parse (pb.CreateJournalEntry_TenantId req) = Some tenantID ->
  (2 <= List.length (pb.CreateJournalEntry_Lines req))%nat ->
  parse_lines 0 (pb.CreateJournalEntry_Lines req) = inl lines ->
  decode_metadata json_Unmarshal (pb.CreateJournalEntry_Metadata req) = Some metadata ->
  CreateJournalEntry json_Unmarshal s ctx req w =
  match JournalRepo_Create (journalRepo s) ctx tenantID
          (CreateJournalEntryParams.mk
             (pb.CreateJournalEntry_ReferenceNumber req)
             (pb.CreateJournalEntry_Description req)
             (AsTime (pb.CreateJournalEntry_EntryDate req))
             metadata lines) w with
  | (inl entry, w') => (inl (created_response entry), w')
  | (inr err, w') =>
      (inr (status_Errorf codes.Internal "failed to create journal entry" err), w')
  end.
Proof.
  intros Ht Hlen Hlines Hmeta.
  unfold CreateJournalEntry. rewrite Ht. cbn [parsed]. unfold bind at 1. cbn [ret].
  assert (Hl : (List.length (pb.CreateJournalEntry_Lines req) <? 2)%nat = false)
    by (apply Nat.ltb_ge; exact Hlen).
  rewrite Hl. cbn [negb require]. unfold bind at 1. cbn [ret].
  unfold bind at 1. rewrite Hlines.
  unfold decode_metadata in Hmeta.
  unfold bind, orStatus, parsed, ret, fail, created_response.
  destruct (pb.CreateJournalEntry_Metadata req) as [text|].
  - destruct (String.eqb text "").
    + injection Hmeta as <-.
      destruct (JournalRepo_Create (journalRepo s) ctx tenantID _ w) as [[entry|err] w'];
        reflexivity.
    + rewrite Hmeta.
      destruct (JournalRepo_Create (journalRepo s) ctx tenantID _ w) as [[entry|err] w'];
        reflexivity.
  - injection Hmeta as <-.
    destruct (JournalRepo_Create (journalRepo s) ctx tenantID _ w) as [[entry|err] w'];
      reflexivity.
Qed.

Lemma parse_lines_error_code (lines : list pb.JournalEntryLine) :
  forall (i : nat) (st : Status),
    parse_lines i lines = inr st -> Code st = codes.InvalidArgument.
Proof.
  induction lines as [|l rest IH]; intros i st H; [discriminate|].
  cbn [parse_lines] in H.
  destruct (uuid.Parse (pb.Line_AccountId l)); [|injection H as <-; reflexivity].
  destruct (NewFromString (pb.Line_Debit l)); [|injection H as <-; reflexivity].
  destruct (NewFromString (pb.Line_Credit l)); [|injection H as <-; reflexivity].
  destruct (parse_lines (S i) rest) as [ps|st'] eqn:Hr; [discriminate|].
  injection H as <-. eapply IH; exact Hr.
Qed.

(** The handler knows two failure kinds only. *)
Lemma CreateJournalEntry_codes
  (json_Unmarshal : string -> option (option JSONObject))
  (s : LedgerService) (ctx : Context) (req : pb.CreateJournalEntryRequest)
  (w w' : World) (st : Status) :
  CreateJournalEntry json_Unmarshal s ctx req w = (inr st, w') ->
  Code st = codes.InvalidArgument \/ Code st = codes.Internal.
Proof.
  unfold CreateJournalEntry, bind, parsed, require, orStatus, ret, fail.
  destruct (uuid.Parse (pb.CreateJournalEntry_TenantId req)) as [tenantID|].
  2:{ intros H. injection H as <- _. left. reflexivity. }
  destruct (negb (List.length (pb.CreateJournalEntry_Lines req) <? 2)%nat).
  2:{ intros H. injection H as <- _. left. reflexivity. }
  destruct (parse_lines 0 (pb.CreateJournalEntry_Lines req)) as [lines|e] eqn:Hl.
  2:{ intros H. injection H as <- _. left. eapply parse_lines_error_code; exact Hl. }
  destruct (pb.CreateJournalEntry_Metadata req) as [text|].
  - destruct (String.eqb text "").
    + destruct (JournalRepo_Create _ _ _ _ w) as [[entry|err] w1];
        intros H; [discriminate|]. injection H as <- _. right. reflexivity.
    + destruct (json_Unmarshal text) as [m|].
      * destruct (JournalRepo_Create _ _ _ _ w) as [[entry|err] w1];
          intros H; [discriminate|]. injection H as <- _. right. reflexivity.
      * intros H. injection H as <- _. left. reflexivity.
  - destruct (JournalRepo_Create _ _ _ _ w) as [[entry|err] w1];
      intros H; [discriminate|]. injection H as <- _. right. reflexivity.
Qed.

(** C5 (amended).  When some line of a CreateJournalEntry request with a
    well-formed tenant id and at least two lines has a debit or credit that
    does not parse as a decimal, the request fails with [InvalidArgument];
    the message names the index of the first line whose account id, debit or
    credit does not parse; the world is left as it was and no repository is
    reached. *)
Theorem malformed_amount_rejected
  (json_Unmarshal : string -> option (option JSONObject))
  (s : LedgerService) (ctx : Context) (req : pb.CreateJournalEntryRequest) (w : World)
  (tenantID : UUID) (i : nat) (line : pb.JournalEntryLine) :
  uuid.Parse (pb.CreateJournalEntry_TenantId req) = Some tenantID ->
  (2 <= List.length (pb.CreateJournalEntry_Lines req))%nat ->
  nth_error (pb.CreateJournalEntry_Lines req) i = Some line ->
  amount_malformed line ->
  exists (j : nat) (bad : pb.JournalEntryLine) (what : string),
    (j <= i)%nat /\
    nth_error (pb.CreateJournalEntry_Lines req) j = Some bad /\
    line_parses bad = false /\
    (forall m l, (m < j)%nat ->
                 nth_error (pb.CreateJournalEntry_Lines req) m = Some l ->
                 line_parses l = true) /\
    In what line_error_prefixes /\
    CreateJournalEntry json_Unmarshal s ctx req w
    = (inr (mkStatus codes.InvalidArgument (String.append what (itoa j))), w).
Proof.
  intros Ht Hlen Hnth Hbad.
  destruct (parse_lines_first_error _ 0%nat i line Hnth
              (amount_malformed_not_parses _ Hbad))
    as (j & bad & what & Hj & Hnj & Hb & Hfirst & Hin & Hp).
  exists j, bad, what. repeat (split; [assumption|]).
  unfold CreateJournalEntry. rewrite Ht. cbn [parsed]. unfold bind at 1. cbn [ret].
  assert (Hl : (List.length (pb.CreateJournalEntry_Lines req) <? 2)%nat = false)
    by (apply Nat.ltb_ge; exact Hlen).
  rewrite Hl. cbn [negb require]. unfold bind at 1. cbn [ret].
  unfold bind at 1. rewrite Hp. reflexivity.
Qed.

Lemma too_few_lines_rejected_witness :
  exists msg : string,
    CreateJournalEntry json_Unmarshal_small (ledger heap_order) None one_line_request
      (acme_world heap_order)
    = (inr (mkStatus codes.InvalidArgument msg), acme_world heap_order).
Proof.
  apply (too_few_lines_rejected json_Unmarshal_small (ledger heap_order) None
           one_line_request (acme_world heap_order)).
  cbn. lia.
Defined.

Lemma malformed_amount_rejected_witness :
  exists (j : nat) (bad : pb.JournalEntryLine) (what : string),
    (j <= 1)%nat /\
    nth_error (pb.CreateJournalEntry_Lines malformed_request) j = Some bad /\
    line_parses bad = false /\
    (forall m l, (m < j)%nat ->
                 nth_error (pb.CreateJournalEntry_Lines malformed_request) m = Some l ->
                 line_parses l = true) /\
    In what line_error_prefixes /\
    CreateJournalEntry json_Unmarshal_small (ledger heap_order) None malformed_request
      (acme_world heap_order)
    = (inr (mkStatus codes.InvalidArgument (String.append what (itoa j))),
       acme_world heap_order).
Proof.
  apply (malformed_amount_rejected json_Unmarshal_small (ledger heap_order) None
           malformed_request (acme_world heap_order) 1%N 1%nat
           (line_request revenue_id "0" "1OO.00")).
  - reflexivity.
  - cbn. lia.
  - reflexivity.
  - right. reflexivity.
Defined.

(** C5, as stated, fails on a negative amount: ["-5"] parses, the request
    passes the handler's validation, and the outcome is not [InvalidArgument]. *)
Lemma negative_amount_not_invalid_argument :
  (exists d : Decimal, NewFromString "-5" = Some d /\ IsNegative d = true) /\
  ~ (exists (msg : string) (w' : World),
       CreateJournalEntry json_Unmarshal_small (ledger heap_order) None negative_request
         (acme_world heap_order)
       = (inr (mkStatus codes.InvalidArgument msg), w')).
Proof.
  split.
  - exists (mkDecimal (-5) 0). split; reflexivity.
  - intros (msg & w' & H).
    assert (Hv : exists err w1,
               CreateJournalEntry json_Unmarshal_small (ledger heap_order) None
                 negative_request (acme_world heap_order)
               = (inr (mkStatus codes.Internal err), w1)).
    { eexists _, _. vm_compute. reflexivity. }
    destruct Hv as (err & w1 & Hv). rewrite Hv in H. discriminate H.
Qed.

Lemma net_balance_is_debit_minus_credit_witness :
  exists (tenantID accountID : UUID) (balance : AccountBalance.t) (net : Decimal),
    AccountRepo_GetBalance (accountRepo (ledger heap_order)) None tenantID accountID
      (posted_world heap_order)
    = (inl balance,
       snd (GetAccountBalance (ledger heap_order) None cash_balance_request
              (posted_world heap_order))) /\
    "100" = decimal.String (AccountBalance.DebitBalance balance) /\
    "0" = decimal.String (AccountBalance.CreditBalance balance) /\
    "100" = decimal.String net /\
    (toQ net == toQ (AccountBalance.DebitBalance balance)
                - toQ (AccountBalance.CreditBalance balance))%Q.
Proof.
  apply (net_balance_is_debit_minus_credit (ledger heap_order) None cash_balance_request
           (posted_world heap_order)
           (snd (GetAccountBalance (ledger heap_order) None cash_balance_request
                   (posted_world heap_order)))
           (pb.mkGetAccountBalanceResponse cash_id "100" "0" "100" 21)).
  vm_compute. reflexivity.
Defined.

(** ** CreateJournalEntry: unbalanced entries *)

Lemma create_journal_entry_unbalanced (T : UUID) (now : Time) (ids : N) (tb : Tables)
  (p : CreateJournalEntryParams.t) :
  ~ (toQ (total_debit (CreateJournalEntryParams.Lines p))
     == toQ (total_credit (CreateJournalEntryParams.Lines p)))%Q ->
  exists e : error, create_journal_entry T now ids tb p = inr e.
Proof.
  intros Hne. unfold create_journal_entry.
  destruct (List.length (CreateJournalEntryParams.Lines p) <? 2)%nat;
    [eexists; reflexivity|].
  destruct (existsb _ (CreateJournalEntryParams.Lines p)); [eexists; reflexivity|].
  destruct (Equal (total_debit (CreateJournalEntryParams.Lines p))
                  (total_credit (CreateJournalEntryParams.Lines p))) eqn:Heq.
  - exfalso. apply Hne. apply Equal_spec. exact Heq.
  - eexists. reflexivity.
Qed.

(** C1 (amended).  A CreateJournalEntry request that passes the handler's
    validation but whose total debits differ, as exact decimals, from its
    total credits fails with [Internal], and the committed tables and the id
    supply are those from before the call. *)
Theorem unbalanced_entry_rejected
  (json_Unmarshal : string -> option (option JSONObject))
  (E : SqlEngine) (ctx : Context) (req : pb.CreateJournalEntryRequest) (w : World)
  (tenantID : UUID) (lines : list CreateJournalEntryLineParams.t)
  (metadata : option JSONObject) :
  uuid.Parse (pb.CreateJournalEntry_TenantId req) = Some tenantID ->
  (2 <= List.length (pb.CreateJournalEntry_Lines req))%nat ->
  parse_lines 0 (pb.CreateJournalEntry_Lines req) = inl lines ->
  decode_metadata json_Unmarshal (pb.CreateJournalEntry_Metadata req) = Some metadata ->
  ~ (toQ (total_debit lines) == toQ (total_credit lines))%Q ->
  exists (msg : string) (w' : World),
    CreateJournalEntry json_Unmarshal (ledger E) ctx req w
    = (inr (mkStatus codes.Internal msg), w') /\
    db w' = db w /\ next_uuid w' = next_uuid w.
Proof.
  intros Ht Hlen Hlines Hmeta Hne.
  rewrite (CreateJournalEntry_validated json_Unmarshal (ledger E) ctx req w
             tenantID lines metadata Ht Hlen Hlines Hmeta).
  cbn [ledger journalRepo NewJournalRepository JournalRepo_Create].
  set (p := CreateJournalEntryParams.mk _ _ _ _ _).
  destruct (JournalRepository_Create_cases E ctx tenantID p w)
    as [(e & w' & -> & Hs)|(id & tb & ids & Hproc & _)].
  - eexists _, w'. split; [reflexivity|]. destruct Hs as (Hd & Hn & _). split; assumption.
  - exfalso.
    destruct (create_journal_entry_unbalanced tenantID (clock w + 3) (next_uuid w) (db w) p Hne)
      as [e He].
    rewrite He in Hproc. discriminate Hproc.
Qed.

Lemma unbalanced_entry_rejected_witness :
  exists (msg : string) (w' : World),
    CreateJournalEntry json_Unmarshal_small (ledger heap_order) None unbalanced_request
      (acme_world heap_order)
    = (inr (mkStatus codes.Internal msg), w') /\
    db w' = db (acme_world heap_order) /\ next_uuid w' = next_uuid (acme_world heap_order).
Proof.
  apply (unbalanced_entry_rejected json_Unmarshal_small heap_order None unbalanced_request
           (acme_world heap_order) 1%N
           [CreateJournalEntryLineParams.mk 2%N (mkDecimal 10000 (-2)) (mkDecimal 0 0) "";
            CreateJournalEntryLineParams.mk 3%N (mkDecimal 0 0) (mkDecimal 9999 (-2)) ""]
           None).
  - reflexivity.
  - cbn. lia.
  - reflexivity.
  - reflexivity.
  - intros H. vm_compute in H. discriminate H.
Defined.

(** C1, as stated, fails on the spec's own scenario (debit 100.00, credit
    99.99): the error kind is [Internal], not [FailedPrecondition]. *)
Lemma unbalanced_entry_not_failed_precondition :
  (exists (msg : string) (w' : World),
     CreateJournalEntry json_Unmarshal_small (ledger heap_order) None unbalanced_request
       (acme_world heap_order)
     = (inr (mkStatus codes.Internal msg), w')) /\
  ~ (exists (msg : string) (w' : World),
       CreateJournalEntry json_Unmarshal_small (ledger heap_order) None unbalanced_request
         (acme_world heap_order)
       = (inr (mkStatus codes.FailedPrecondition msg), w')).
Proof.
  assert (Hv : exists (msg : string) (w' : World),
             CreateJournalEntry json_Unmarshal_small (ledger heap_order) None
               unbalanced_request (acme_world heap_order)
             = (inr (mkStatus codes.Internal msg), w')).
  { eexists _, _. vm_compute. reflexivity. }
  split; [exact Hv|].
  destruct Hv as (msg & w' & Hv). intros (msg' & w'' & H).
  rewrite Hv in H. discriminate H.
Qed.

(** ** CreateJournalEntry: after the commit *)

Lemma create_journal_entry_inl T now ids tb p id tb' ids' :
  create_journal_entry T now ids tb p = inl (id, tb', ids') ->
  id = ids /\ tb' = posted_tables T now ids tb p /\
  ids' = (ids + 1 + N.of_nat (List.length (CreateJournalEntryParams.Lines p)))%N /\
  (2 <= List.length (CreateJournalEntryParams.Lines p))%nat /\
  Equal (total_debit (CreateJournalEntryParams.Lines p))
        (total_credit (CreateJournalEntryParams.Lines p)) = true /\
  forallb (fun l => existsb
             (fun a => (Account.ID a =? CreateJournalEntryLineParams.AccountID l)%N
                       && policy_accounts T a) (accounts tb))
          (CreateJournalEntryParams.Lines p) = true.
Proof.
  unfold create_journal_entry, raise.
  destruct (Nat.ltb_spec (List.length (CreateJournalEntryParams.Lines p)) 2); [discriminate|].
  destruct (existsb _ (CreateJournalEntryParams.Lines p)); [discriminate|].
  destruct (Equal _ _); [|discriminate]. cbn [negb].
  destruct (forallb _ (CreateJournalEntryParams.Lines p)); [|discriminate]. cbn [negb].
  intros Hx. injection Hx as <- <- <-. repeat split; try reflexivity. exact H.
Qed.

Lemma scan_In (E : SqlEngine) {A} (l : list A) (x : A) : In x (scan E A l) <-> In x l.
Proof.
  split; apply Permutation_in; [apply scan_perm|apply Permutation_sym, scan_perm].
Qed.

Lemma first_row_found {A} (l : list A) (x : A) : In x l -> exists y, first_row l = inl y.
Proof. destruct l; [intros []|]. intros _. eexists. reflexivity. Qed.

Lemma JournalRepository_GetByID_found (E : SqlEngine) (ctx : Context) (T id : UUID)
  (w w' : World) (r : JournalEntry.t + error) :
  JournalRepository_GetByID E ctx T id w = (r, w') ->
  (exists e, In e (journal_entries (db w)) /\
             JournalEntryRow.id e = id /\ JournalEntryRow.tenant_id e = T) ->
  ctx_done ctx w' = false ->
  exists entry, r = inl entry.
Proof.
  intros H (e & Hin & Hid & Ht) Hnd.
  unfold JournalRepository_GetByID, DB_WithTenant, pool_Acquire, defer, Conn_Release,
    Conn_QueryRow, getLinesByJournalEntryID, Conn_Query, bind, wrapf, ret in H.
  destruct (roundtrip_cases ctx w) as [[Hd Hrt]|[Hd Hrt]]; rewrite Hrt in H; clear Hrt.
  { injection H as _ <-. congruence. }
  cbn in H.
  match type of H with context [roundtrip ctx ?x] =>
    destruct (roundtrip_cases ctx x) as [[Hd1 Hrt]|[Hd1 Hrt]]; rewrite Hrt in H; clear Hrt end.
  { injection H as _ <-. congruence. }
  cbn in H.
  match type of H with context [roundtrip ctx ?x] =>
    destruct (roundtrip_cases ctx x) as [[Hd2 Hrt]|[Hd2 Hrt]]; rewrite Hrt in H; clear Hrt end.
  { injection H as _ <-. congruence. }
  cbn in H.
  destruct (first_row_found
              (filter (fun e0 => (JournalEntryRow.id e0 =? id)%N)
                      (from_journal_entries E T (db w))) e) as [row Hrow].
  { apply filter_In. split.
    - unfold from_journal_entries. apply scan_In. apply filter_In. split; [exact Hin|].
      unfold policy_journal_entries. rewrite Ht. apply N.eqb_refl.
    - rewrite Hid. apply N.eqb_refl. }
  rewrite Hrow in H.
  match type of H with context [roundtrip ctx ?x] =>
    destruct (roundtrip_cases ctx x) as [[Hd3 Hrt]|[Hd3 Hrt]]; rewrite Hrt in H; clear Hrt end.
  { cbn in H. injection H as _ <-. congruence. }
  cbn in H. injection H as <- _. eexists. reflexivity.
Qed.

Lemma CreateJournalEntry_cases
  (json_Unmarshal : string -> option (option JSONObject))
  (s : LedgerService) (ctx : Context) (req : pb.CreateJournalEntryRequest) (w : World) :
  (exists msg, CreateJournalEntry json_Unmarshal s ctx req w
               = (inr (mkStatus codes.InvalidArgument msg), w))
  \/
  (exists tenantID lines metadata,
     uuid.Parse (pb.CreateJournalEntry_TenantId req) = Some tenantID /\
     (2 <= List.length (pb.CreateJournalEntry_Lines req))%nat /\
     parse_lines 0 (pb.CreateJournalEntry_Lines req) = inl lines /\
     decode_metadata json_Unmarshal (pb.CreateJournalEntry_Metadata req) = Some metadata).
Proof.
  destruct (uuid.Parse (pb.CreateJournalEntry_TenantId req)) as [tenantID|] eqn:Ht.
  2:{ left. unfold CreateJournalEntry. rewrite Ht. eexists. reflexivity. }
  destruct (Nat.ltb_spec (List.length (pb.CreateJournalEntry_Lines req)) 2) as [Hlt|Hge].
  { left. apply too_few_lines_rejected. exact Hlt. }
  assert (Hl : (List.length (pb.CreateJournalEntry_Lines req) <? 2)%nat = false)
    by (apply Nat.ltb_ge; exact Hge).
  destruct (parse_lines 0 (pb.CreateJournalEntry_Lines req)) as [lines|st] eqn:Hlines.
  2:{ left. pose proof (parse_lines_error_code _ _ _ Hlines) as Hc.
      destruct st as [c msg]. cbn in Hc. subst c. exists msg.
      unfold CreateJournalEntry. rewrite Ht. cbn [parsed]. unfold bind at 1. cbn [ret].
      rewrite Hl. cbn [negb require]. unfold bind at 1. cbn [ret].
      unfold bind at 1. rewrite Hlines. reflexivity. }
  destruct (decode_metadata json_Unmarshal (pb.CreateJournalEntry_Metadata req))
    as [metadata|] eqn:Hm.
  2:{ left. exists "invalid metadata JSON".
      unfold CreateJournalEntry. rewrite Ht. cbn [parsed]. unfold bind at 1. cbn [ret].
      rewrite Hl. cbn [negb require]. unfold bind at 1. cbn [ret].
      unfold bind at 1. rewrite Hlines. unfold decode_metadata in Hm.
      destruct (pb.CreateJournalEntry_Metadata req) as [text|]; [|discriminate].
      destruct (String.eqb text ""); [discriminate|].
      unfold bind at 1. rewrite Hm. reflexivity. }
  right. exists tenantID, lines, metadata. repeat split; assumption.
Qed.

(** C6 (amended).  When a CreateJournalEntry call has committed (the tables
    afterwards differ from those before), it reports success provided the
    context is still live when the call returns; an error it reports is
    [Internal], and comes from the re-read of the entry that follows the
    commit being refused because the context was done. *)
Theorem committed_entry_reported
  (json_Unmarshal : string -> option (option JSONObject))
  (E : SqlEngine) (ctx : Context) (req : pb.CreateJournalEntryRequest)
  (w w' : World) (r : pb.CreateJournalEntryResponse + Status) :
  CreateJournalEntry json_Unmarshal (ledger E) ctx req w = (r, w') ->
  db w' <> db w ->
  (ctx_done ctx w' = false -> exists resp, r = inl resp) /\
  (forall st, r = inr st -> Code st = codes.Internal /\ ctx_done ctx w' = true).
Proof.
  intros H Hcommit.
  destruct (CreateJournalEntry_cases json_Unmarshal (ledger E) ctx req w)
    as [(msg & Hv)|(tenantID & lines & metadata & Ht & Hlen & Hlines & Hm)].
  { rewrite Hv in H. injection H as _ <-. congruence. }
  rewrite (CreateJournalEntry_validated json_Unmarshal (ledger E) ctx req w
             tenantID lines metadata Ht Hlen Hlines Hm) in H.
  cbn [ledger journalRepo NewJournalRepository JournalRepo_Create] in H.
  set (p := CreateJournalEntryParams.mk _ _ _ _ _) in H.
  destruct (JournalRepository_Create_cases E ctx tenantID p w)
    as [(e & w1 & Hc & Hs)|(id & tb & ids & Hproc & Hc)]; rewrite Hc in H; clear Hc.
  { injection H as _ <-. destruct Hs as (Hd & _). congruence. }
  apply create_journal_entry_inl in Hproc.
  destruct Hproc as (-> & -> & _).
  destruct (JournalRepository_GetByID E ctx tenantID (next_uuid w) _) as [r1 w1] eqn:Hg.
  assert (Hfound : ctx_done ctx w1 = false -> exists entry, r1 = inl entry).
  { intros Hnd. eapply JournalRepository_GetByID_found; [exact Hg| |exact Hnd].
    eexists. split; [cbn; apply in_or_app; right; left; reflexivity|].
    split; reflexivity. }
  assert (Hw : w' = w1) by (destruct r1; injection H as _ <-; reflexivity).
  subst w1. split.
  - intros Hnd. destruct (Hfound Hnd) as [entry ->]. injection H as <-.
    eexists. reflexivity.
  - intros st ->. destruct r1 as [entry|err]; [discriminate|].
    injection H as <-. split; [reflexivity|].
    destruct (ctx_done ctx w') eqn:Hd; [reflexivity|].
    destruct (Hfound eq_refl) as [entry He]. discriminate He.
Qed.

Lemma committed_entry_reported_witness :
  (ctx_done None (posted_world heap_order) = false ->
   exists resp,
     fst (CreateJournalEntry json_Unmarshal_small (ledger heap_order) None balanced_request
            (acme_world heap_order)) = inl resp) /\
  (forall st,
     fst (CreateJournalEntry json_Unmarshal_small (ledger heap_order) None balanced_request
            (acme_world heap_order)) = inr st ->
     Code st = codes.Internal /\ ctx_done None (posted_world heap_order) = true).
Proof.
  apply (committed_entry_reported json_Unmarshal_small heap_order None balanced_request
           (acme_world heap_order) (posted_world heap_order)).
  - unfold posted_world.
    destruct (CreateJournalEntry json_Unmarshal_small (ledger heap_order) None
                balanced_request (acme_world heap_order)); reflexivity.
  - vm_compute. discriminate.
Defined.

(** C6, as stated, fails: with a deadline that expires between the commit
    and the re-read of the created entry, the call reports [Internal] while
    the entry, its lines and the balance changes are committed. *)
Lemma error_after_commit :
  exists (msg : string) (w' : World),
    CreateJournalEntry json_Unmarshal_small (ledger heap_order) (Some 23) balanced_request
      (acme_world heap_order)
    = (inr (mkStatus codes.Internal msg), w') /\
    db w' = db (posted_world heap_order) /\
    db w' <> db (acme_world heap_order) /\
    List.length (journal_entries (db w')) = 1%nat /\
    List.length (journal_entry_lines (db w')) = 2%nat.
Proof.
  eexists _, _. split; [vm_compute; reflexivity|].
  split; [vm_compute; reflexivity|]. split; [vm_compute; discriminate|].
  split; reflexivity.
Qed.

(** ** ORDER BY *)

Section Sorting.

Context {A : Type} (le : A -> A -> bool).

Hypothesis le_total : forall a b, le a b = true \/ le b a = true.
Hypothesis le_trans : forall a b c, le a b = true -> le b c = true -> le a c = true.

Let R (a b : A) : Prop := le a b = true.

Lemma insert_sorted_perm (x : A) (l : list A) :
  Permutation (insert_sorted le x l) (x :: l).
Proof.
  induction l as [|y r IH]; cbn [insert_sorted]; [reflexivity|].
  destruct (le x y); [reflexivity|].
  rewrite IH. apply perm_swap.
Qed.

Lemma order_by_perm (l : list A) : Permutation (order_by le l) l.
Proof.
  unfold order_by. induction l as [|x l IH]; cbn [fold_right]; [reflexivity|].
  rewrite insert_sorted_perm. apply perm_skip. exact IH.
Qed.

Lemma insert_sorted_sorted (x : A) (l : list A) :
  StronglySorted R l -> StronglySorted R (insert_sorted le x l).
Proof.
  induction l as [|y r IH]; intros Hs; cbn [insert_sorted].
  - constructor; constructor.
  - inversion Hs as [|? ? Hr Hall]; subst.
    destruct (le x y) eqn:Hxy.
    + constructor; [exact Hs|]. constructor; [exact Hxy|].
      eapply Forall_impl; [|exact Hall]. intros z Hz. eapply le_trans; eassumption.
    + constructor; [apply IH; exact Hr|].
      assert (Hyx : R y x) by (destruct (le_total x y); [congruence|assumption]).
      eapply Permutation_Forall; [apply Permutation_sym, insert_sorted_perm|].
      constructor; assumption.
Qed.

Lemma order_by_sorted (l : list A) : StronglySorted R (order_by le l).
Proof.
  unfold order_by. induction l as [|x l IH]; cbn [fold_right]; [constructor|].
  apply insert_sorted_sorted. exact IH.
Qed.

Lemma order_by_sorted_input (l : list A) : StronglySorted R l -> order_by le l = l.
Proof.
  unfold order_by. induction l as [|x l IH]; intros Hs; cbn [fold_right]; [reflexivity|].
  inversion Hs as [|? ? Hr Hall]; subst. rewrite (IH Hr).
  destruct l as [|y r]; [reflexivity|]. cbn [insert_sorted].
  inversion Hall as [|? ? Hxy _]; subst. unfold R in Hxy. rewrite Hxy. reflexivity.
Qed.

End Sorting.

Lemma line_oldest_first_total a b :
  line_oldest_first a b = true \/ line_oldest_first b a = true.
Proof. unfold line_oldest_first. rewrite !Z.leb_le. lia. Qed.

Lemma line_oldest_first_trans a b c :
  line_oldest_first a b = true -> line_oldest_first b c = true ->
  line_oldest_first a c = true.
Proof. unfold line_oldest_first. rewrite !Z.leb_le. lia. Qed.

Lemma created_before_sorted (l : list JournalEntryLine.t) :
  StronglySorted created_before l <->
  StronglySorted (fun a b => line_oldest_first a b = true) l.
Proof.
  split; intros H; induction H; constructor; try assumption;
    (eapply Forall_impl; [|eassumption]); intros x Hx;
    unfold created_before, line_oldest_first in *; apply Z.leb_le; assumption.
Qed.

Lemma filter_scan_perm (E : SqlEngine) {A} (f : A -> bool) (l : list A) :
  Permutation (filter f (scan E A l)) (filter f l).
Proof.
  assert (H : forall l1 l2 : list A, Permutation l1 l2 ->
                                     Permutation (filter f l1) (filter f l2)).
  { intros l1 l2 Hp. induction Hp; cbn [filter].
    - constructor.
    - destruct (f x); [constructor|]; assumption.
    - destruct (f x), (f y); try apply perm_swap; reflexivity.
    - etransitivity; eassumption. }
  apply H, scan_perm.
Qed.

Lemma JournalRepository_GetByID_inl (E : SqlEngine) (ctx : Context) (T id : UUID)
  (w w' : World) (entry : JournalEntry.t) :
  JournalRepository_GetByID E ctx T id w = (inl entry, w') ->
  exists row,
    In row (journal_entries (db w)) /\
    JournalEntryRow.id row = id /\ JournalEntryRow.tenant_id row = T /\
    entry = scan_entry row
              (order_by line_oldest_first
                 (filter (fun l => (JournalEntryLine.JournalEntryID l =? id)%N)
                         (from_journal_entry_lines E T (db w)))).
Proof.
  intros H.
  unfold JournalRepository_GetByID, DB_WithTenant, pool_Acquire, defer, Conn_Release,
    Conn_QueryRow, getLinesByJournalEntryID, Conn_Query, bind, wrapf, ret in H.
  destruct (roundtrip_cases ctx w) as [[Hd Hrt]|[Hd Hrt]]; rewrite Hrt in H; clear Hrt;
    [discriminate|]. cbn in H.
  match type of H with context [roundtrip ctx ?x] =>
    destruct (roundtrip_cases ctx x) as [[Hd1 Hrt]|[Hd1 Hrt]]; rewrite Hrt in H; clear Hrt end;
    [discriminate|]. cbn in H.
  match type of H with context [roundtrip ctx ?x] =>
    destruct (roundtrip_cases ctx x) as [[Hd2 Hrt]|[Hd2 Hrt]]; rewrite Hrt in H; clear Hrt end;
    [discriminate|]. cbn in H.
  destruct (filter (fun e => (JournalEntryRow.id e =? id)%N)
                   (from_journal_entries E T (db w))) as [|row rows] eqn:Hf;
    cbn [first_row] in H; [discriminate|].
  assert (Hin : In row (filter (fun e => (JournalEntryRow.id e =? id)%N)
                               (from_journal_entries E T (db w))))
    by (rewrite Hf; left; reflexivity).
  apply filter_In in Hin. destruct Hin as [Hin Hid].
  unfold from_journal_entries in Hin. apply scan_In, filter_In in Hin.
  destruct Hin as [Hin Hpol].
  match type of H with context [roundtrip ctx ?x] =>
    destruct (roundtrip_cases ctx x) as [[Hd3 Hrt]|[Hd3 Hrt]]; rewrite Hrt in H; clear Hrt end;
    [discriminate|]. cbn in H.
  injection H as <- _. exists row.
  split; [exact Hin|]. split; [apply N.eqb_eq; exact Hid|].
  split; [apply N.eqb_eq; exact Hpol|reflexivity].
Qed.

Lemma JournalRepository_GetByID_absent (E : SqlEngine) (ctx : Context) (T id : UUID)
  (w : World) :
  (forall e, In e (journal_entries (db w)) ->
             ~ (JournalEntryRow.id e = id /\ JournalEntryRow.tenant_id e = T)) ->
  exists err w', JournalRepository_GetByID E ctx T id w = (inr err, w').
Proof.
  intros Habs.
  destruct (JournalRepository_GetByID E ctx T id w) as [[entry|err] w'] eqn:H.
  - exfalso. apply JournalRepository_GetByID_inl in H.
    destruct H as (row & Hin & Hid & Ht & _). apply (Habs row Hin). split; assumption.
  - eexists _, _. reflexivity.
Qed.

Lemma GetJournalEntry_parsed (s : LedgerService) (ctx : Context)
  (req : pb.GetJournalEntryRequest) (w : World) (T id : UUID) :
  uuid.Parse (pb.GetJournalEntry_TenantId req) = Some T ->
  uuid.Parse (pb.GetJournalEntry_JournalEntryId req) = Some id ->
  GetJournalEntry s ctx req w =
  match JournalRepo_GetByID (journalRepo s) ctx T id w with
  | (inl entry, w') => (inl (pb.mkGetJournalEntryResponse (journalEntryToProto entry)), w')
  | (inr err, w') => (inr (status_Errorf codes.NotFound "journal entry not found" err), w')
  end.
Proof.
  intros Ht Hid. unfold GetJournalEntry, bind, parsed, orStatus, ret.
  rewrite Ht, Hid. destruct (JournalRepo_GetByID _ _ _ _ w) as [[entry|err] w']; reflexivity.
Qed.

(** C9 (amended).  GetJournalEntry returns the lines of the entry that the
    tenant's session sees, each once, ordered by creation timestamp (oldest
    first); lines sharing a timestamp come in the order the store's scan
    yields them, which is the order of insertion when the scan follows it and
    the stored lines are in timestamp order.  For an id with no entry in the
    tenant's scope it fails [NotFound]. *)
Theorem lines_ordered_by_creation_time
  (E : SqlEngine) (ctx : Context) (req : pb.GetJournalEntryRequest) (w : World)
  (T id : UUID) :
  uuid.Parse (pb.GetJournalEntry_TenantId req) = Some T ->
  uuid.Parse (pb.GetJournalEntry_JournalEntryId req) = Some id ->
  (forall resp w',
     GetJournalEntry (ledger E) ctx req w = (inl resp, w') ->
     exists lines,
       pb.Entry_Lines (pb.GetJournalEntryResponse_JournalEntry resp)
       = map lineToProto lines /\
       Permutation lines (stored_lines T id (db w)) /\
       StronglySorted created_before lines /\
       ((forall l : list JournalEntryLine.t, scan E _ l = l) ->
        StronglySorted created_before (stored_lines T id (db w)) ->
        lines = stored_lines T id (db w)))
  /\
  ((forall e, In e (journal_entries (db w)) ->
              ~ (JournalEntryRow.id e = id /\ JournalEntryRow.tenant_id e = T)) ->
   exists msg w',
     GetJournalEntry (ledger E) ctx req w = (inr (mkStatus codes.NotFound msg), w')).
Proof.
  intros Ht Hid.
  rewrite (GetJournalEntry_parsed (ledger E) ctx req w T id Ht Hid).
  cbn [ledger journalRepo NewJournalRepository JournalRepo_GetByID].
  split.
  - intros resp w' H.
    destruct (JournalRepository_GetByID E ctx T id w) as [[entry|err] w1] eqn:Hg;
      [|discriminate].
    injection H as <- _. apply JournalRepository_GetByID_inl in Hg.
    destruct Hg as (row & _ & _ & _ & ->).
    exists (order_by line_oldest_first
              (filter (fun l => (JournalEntryLine.JournalEntryID l =? id)%N)
                      (from_journal_entry_lines E T (db w)))).
    split; [reflexivity|]. unfold from_journal_entry_lines, stored_lines.
    split; [|split].
    + etransitivity; [apply order_by_perm|apply filter_scan_perm].
    + apply created_before_sorted.
      apply order_by_sorted; [apply line_oldest_first_total|apply line_oldest_first_trans].
    + intros Hscan Hsorted. rewrite Hscan.
      apply order_by_sorted_input. apply created_before_sorted. exact Hsorted.
  - intros Habs.
    destruct (JournalRepository_GetByID_absent E ctx T id w Habs) as (err & w' & ->).
    eexists _, _. reflexivity.
Qed.

Lemma lines_ordered_by_creation_time_witness :
  (forall resp w',
     GetJournalEntry (ledger heap_order) None (get_entry_request posted_entry_id)
       (posted_world heap_order) = (inl resp, w') ->
     exists lines,
       pb.Entry_Lines (pb.GetJournalEntryResponse_JournalEntry resp)
       = map lineToProto lines /\
       Permutation lines (stored_lines 1%N 4%N (db (posted_world heap_order))) /\
       StronglySorted created_before lines /\
       ((forall l : list JournalEntryLine.t, scan heap_order _ l = l) ->
        StronglySorted created_before (stored_lines 1%N 4%N (db (posted_world heap_order))) ->
        lines = stored_lines 1%N 4%N (db (posted_world heap_order))))
  /\
  ((forall e, In e (journal_entries (db (posted_world heap_order))) ->
              ~ (JournalEntryRow.id e = 4%N /\ JournalEntryRow.tenant_id e = 1%N)) ->
   exists msg w',
     GetJournalEntry (ledger heap_order) None (get_entry_request posted_entry_id)
       (posted_world heap_order) = (inr (mkStatus codes.NotFound msg), w')).
Proof.
  apply (lines_ordered_by_creation_time heap_order None
           (get_entry_request posted_entry_id) (posted_world heap_order) 1%N 4%N).
  - reflexivity.
  - reflexivity.
Defined.

(** C9, as stated, fails: the two lines of the posted sale share their
    creation timestamp, and under an executor that scans the table backwards
    they come back in the opposite of the order submitted. *)
Lemma tied_lines_out_of_order :
  exists resp w',
    GetJournalEntry (ledger reverse_order) None (get_entry_request posted_entry_id)
      (posted_world reverse_order) = (inl resp, w') /\
    map pb.Line_AccountId (pb.CreateJournalEntry_Lines balanced_request)
    = [cash_id; revenue_id] /\
    map pb.Line_AccountId (pb.Entry_Lines (pb.GetJournalEntryResponse_JournalEntry resp))
    = [revenue_id; cash_id] /\
    map pb.Line_CreatedAt (pb.Entry_Lines (pb.GetJournalEntryResponse_JournalEntry resp))
    = [Some 21; Some 21].
Proof.
  eexists _, _. split; [vm_compute; reflexivity|].
  repeat split; reflexivity.
Qed.

(** ** ListJournalEntries *)

Lemma entry_header_scan_entry row lines : entry_header (scan_entry row lines) = row.
Proof. destruct row. reflexivity. Qed.

Lemma entry_newest_first_spec a b : entry_newest_first a b = true <-> newest_first a b.
Proof.
  unfold entry_newest_first, newest_first.
  rewrite orb_true_iff, andb_true_iff, Z.ltb_lt, Z.eqb_eq, Z.leb_le. reflexivity.
Qed.

Lemma entry_newest_first_total a b :
  entry_newest_first a b = true \/ entry_newest_first b a = true.
Proof. rewrite !entry_newest_first_spec. unfold newest_first. lia. Qed.

Lemma entry_newest_first_trans a b c :
  entry_newest_first a b = true -> entry_newest_first b c = true ->
  entry_newest_first a c = true.
Proof. rewrite !entry_newest_first_spec. unfold newest_first. lia. Qed.

Lemma date_filters_spec fromDate toDate e :
  date_filters fromDate toDate e = true <-> within_dates fromDate toDate e.
Proof.
  unfold date_filters, within_dates. rewrite andb_true_iff.
  destruct fromDate as [f|], toDate as [t|]; rewrite ?Z.leb_le; split.
  all: try (intros [H1 H2]; split; intros x Hx; try injection Hx as <-;
            try discriminate; assumption).
  all: intros [H1 H2]; split; try reflexivity; auto.
Qed.

Lemma int32_int64 z : int32 (int64 z) = int32 z.
Proof.
  unfold int32, int64, wrap. f_equal.
  change (2 ^ (64 - 1)) with (2 ^ 63). change (2 ^ (32 - 1)) with (2 ^ 31).
  replace ((z + 2 ^ 63) mod 2 ^ 64 - 2 ^ 63 + 2 ^ 31)
    with ((z + 2 ^ 31) + (-(2 ^ 63) + (z + 2 ^ 63) mod 2 ^ 64 - z)) by lia.
  pose proof (Z.div_mod (z + 2 ^ 63) (2 ^ 64) ltac:(lia)) as Hdm.
  replace (- 2 ^ 63 + (z + 2 ^ 63) mod 2 ^ 64 - z)
    with ((- ((z + 2 ^ 63) / 2 ^ 64) * 2 ^ 32) * 2 ^ 32) by lia.
  apply Z.mod_add. lia.
Qed.

Section ListProofs.

Variable E : SqlEngine.

Lemma inner_join_In es ls e l :
  In (e, l) (inner_join es ls) <->
  In e es /\ In l ls /\ JournalEntryRow.id e = JournalEntryLine.JournalEntryID l.
Proof.
  unfold inner_join. rewrite in_flat_map. split.
  - intros (e' & He' & Hin). apply in_map_iff in Hin.
    destruct Hin as (l' & Heq & Hl'). injection Heq as -> ->.
    apply filter_In in Hl'. destruct Hl' as [Hl' Hid].
    repeat split; try assumption. apply N.eqb_eq. exact Hid.
  - intros (He & Hl & Hid). exists e. split; [exact He|].
    apply in_map. apply filter_In. split; [exact Hl|]. apply N.eqb_eq. exact Hid.
Qed.

Lemma list_selection_In T a fromDate toDate tb e :
  In e (list_selection E T (Some a) fromDate toDate tb) <->
  In e (journal_entries tb) /\ JournalEntryRow.tenant_id e = T /\
  has_line_against tb a e /\ within_dates fromDate toDate e.
Proof.
  unfold list_selection. rewrite filter_In, date_filters_spec, in_map_iff. split.
  - intros [((e' & l) & Hfst & Hin) Hd]. cbn in Hfst. subst e'.
    apply filter_In in Hin. destruct Hin as [Hin Hacc]. cbn in Hacc.
    apply inner_join_In in Hin. destruct Hin as (He & Hl & Hid).
    unfold from_journal_entries in He. apply scan_In, filter_In in He.
    destruct He as [He Hpol].
    unfold from_journal_entry_lines in Hl. apply scan_In, filter_In in Hl.
    destruct Hl as [Hl _].
    split; [exact He|]. split; [apply N.eqb_eq; exact Hpol|]. split; [|exact Hd].
    exists l. split; [exact Hl|]. split; [symmetry; exact Hid|apply N.eqb_eq; exact Hacc].
  - intros (He & Ht & (l & Hl & Hid & Hacc) & Hd). split; [|exact Hd].
    exists (e, l). split; [reflexivity|]. apply filter_In. split.
    + apply inner_join_In. split; [|split].
      * unfold from_journal_entries. apply scan_In, filter_In. split; [exact He|].
        apply N.eqb_eq. exact Ht.
      * unfold from_journal_entry_lines. apply scan_In, filter_In. split; [exact Hl|].
        unfold policy_journal_entry_lines. apply existsb_exists. exists e.
        split; [exact He|]. apply andb_true_iff. split.
        -- apply N.eqb_eq. symmetry. exact Hid.
        -- apply N.eqb_eq. exact Ht.
      * symmetry. exact Hid.
    + cbn. apply N.eqb_eq. exact Hacc.
Qed.

Lemma mapM_headers {B} (f : JournalEntryRow.t -> M B) (h : B -> JournalEntryRow.t)
  (rows : list JournalEntryRow.t) :
  (forall row w b w', f row w = (inl b, w') -> h b = row) ->
  forall w bs w', mapM f rows w = (inl bs, w') -> map h bs = rows.
Proof.
  intros Hf. induction rows as [|row rows IH]; intros w bs w' H.
  - injection H as <- _. reflexivity.
  - cbn [mapM] in H. unfold bind at 1 in H.
    destruct (f row w) as [[b|err] w1] eqn:H1; [|discriminate].
    unfold bind at 1 in H.
    destruct (mapM f rows w1) as [[rest|err] w2] eqn:H2; [|discriminate].
    injection H as <- _. cbn [map]. rewrite (IH _ _ _ H2), (Hf _ _ _ _ H1). reflexivity.
Qed.

Lemma JournalRepository_List_inl ctx T acc fromDate toDate limit offset w entries total w' :
  JournalRepository_List E ctx T acc fromDate toDate limit offset w
  = (inl (entries, total), w') ->
  0 <= limit -> 0 <= offset ->
  map entry_header entries
  = firstn (Z.to_nat limit)
      (skipn (Z.to_nat offset)
         (order_by entry_newest_first
            (nodup JournalEntryRow_eq_dec
               (list_selection E T acc fromDate toDate (db w))))) /\
  total = int64 (Z.of_nat (List.length
                             (nodup uuid_eq_dec
                                (map JournalEntryRow.id
                                   (list_selection E T acc fromDate toDate (db w)))))).
Proof.
  intros H Hl Ho.
  unfold JournalRepository_List, DB_WithTenant, pool_Acquire, defer, Conn_Release,
    Conn_QueryRow, Conn_Query in H.
  unfold bind at 1 in H. unfold wrapf at 1 in H. unfold bind at 1 in H.
  unfold wrapf at 1 in H.
  destruct (roundtrip_cases ctx w) as [[Hd Hrt]|[Hd Hrt]]; rewrite Hrt in H; clear Hrt;
    [discriminate|].
  unfold bind at 1 in H. unfold wrapf at 1 in H.
  match type of H with context [roundtrip ctx ?x] =>
    destruct (roundtrip_cases ctx x) as [[Hd1 Hrt]|[Hd1 Hrt]]; rewrite Hrt in H; clear Hrt end;
    [discriminate|].
  cbn [ret conn_tenantID] in H.
  unfold bind at 1 in H. unfold wrapf at 1 in H. unfold bind at 1 in H.
  match type of H with context [roundtrip ctx ?x] =>
    destruct (roundtrip_cases ctx x) as [[Hd2 Hrt]|[Hd2 Hrt]]; rewrite Hrt in H; clear Hrt end;
    [discriminate|].
  cbn [first_row db] in H.
  unfold bind at 1 in H. unfold wrapf at 1 in H. unfold bind at 1 in H.
  match type of H with context [roundtrip ctx ?x] =>
    destruct (roundtrip_cases ctx x) as [[Hd3 Hrt]|[Hd3 Hrt]]; rewrite Hrt in H; clear Hrt end;
    [discriminate|].
  cbn [db] in H. unfold limit_offset in H.
  destruct (Z.ltb_spec limit 0); [lia|]. destruct (Z.ltb_spec offset 0); [lia|].
  unfold bind at 1 in H.
  match type of H with context [mapM ?f ?rows ?x] =>
    destruct (mapM f rows x) as [[es|err] w4] eqn:Hm end; [|discriminate].
  cbn [ret] in H. injection H as <- <- _.
  split; [|reflexivity].
  eapply mapM_headers; [|exact Hm].
  intros row w5 b w6 Hb. unfold bind, ret in Hb.
  destruct (wrapf _ _ w5) as [[lines|err] w7]; [|discriminate].
  injection Hb as <- _. apply entry_header_scan_entry.
Qed.

End ListProofs.

Lemma NoDup_map_injective {A B} (f : A -> B) (t : list A) :
  NoDup (map f t) -> forall x y, In x t -> In y t -> f x = f y -> x = y.
Proof.
  induction t as [|a t IH]; intros Hnd x y Hx Hy Hf; [destruct Hx|].
  cbn [map] in Hnd. inversion Hnd as [|? ? Hnotin Hnd']; subst.
  destruct Hx as [->|Hx], Hy as [->|Hy].
  - reflexivity.
  - exfalso. apply Hnotin. rewrite Hf. apply in_map. exact Hy.
  - exfalso. apply Hnotin. rewrite <- Hf. apply in_map. exact Hx.
  - apply IH; assumption.
Qed.

Lemma NoDup_map_sublist {A B} (f : A -> B) (l t : list A) :
  NoDup l -> incl l t -> NoDup (map f t) -> NoDup (map f l).
Proof.
  intros Hl Hincl Ht. induction Hl as [|x l Hx Hl IH]; cbn [map]; [constructor|].
  constructor.
  - intros Hin. apply in_map_iff in Hin. destruct Hin as (y & Hfy & Hy).
    assert (y = x).
    { apply (NoDup_map_injective f t Ht); [apply Hincl; right; exact Hy
                                          |apply Hincl; left; reflexivity|exact Hfy]. }
    subst y. contradiction.
  - apply IH. intros z Hz. apply Hincl. right. exact Hz.
Qed.

Lemma StronglySorted_impl {A} (R R' : A -> A -> Prop) (l : list A) :
  (forall a b, R a b -> R' a b) -> StronglySorted R l -> StronglySorted R' l.
Proof.
  intros HR Hs. induction Hs; constructor; [assumption|].
  eapply Forall_impl; [|eassumption]. intros x Hx. apply HR. exact Hx.
Qed.

Lemma In_firstn {A} (n : nat) (l : list A) (x : A) : In x (firstn n l) -> In x l.
Proof.
  revert n. induction l as [|y l IH]; intros n H; destruct n; cbn in H; try contradiction.
  destruct H as [->|H]; [left; reflexivity|right; eapply IH; exact H].
Qed.

Lemma In_skipn {A} (n : nat) (l : list A) (x : A) : In x (skipn n l) -> In x l.
Proof.
  revert l. induction n as [|n IH]; intros l H; [exact H|].
  destruct l as [|y l]; [contradiction|]. right. apply IH. exact H.
Qed.

Lemma NoDup_firstn {A} (n : nat) (l : list A) : NoDup l -> NoDup (firstn n l).
Proof.
  revert n. induction l as [|x l IH]; intros n Hnd; destruct n; cbn; try constructor.
  - inversion Hnd; subst. intros Hin. apply In_firstn in Hin. contradiction.
  - inversion Hnd; subst. apply IH. assumption.
Qed.

Lemma NoDup_skipn {A} (n : nat) (l : list A) : NoDup l -> NoDup (skipn n l).
Proof.
  revert l. induction n as [|n IH]; intros l Hnd; [exact Hnd|].
  destruct l as [|x l]; [constructor|]. cbn. apply IH. inversion Hnd; assumption.
Qed.

Lemma nodup_length_same_elements {A} (dec : forall x y : A, {x = y} + {x <> y})
  (l1 l2 : list A) :
  (forall x, In x l1 <-> In x l2) ->
  List.length (nodup dec l1) = List.length (nodup dec l2).
Proof.
  intros H. apply Permutation_length. apply NoDup_Permutation; try apply NoDup_nodup.
  intros x. rewrite !nodup_In. apply H.
Qed.

Lemma ListJournalEntries_parsed (s : LedgerService) (ctx : Context)
  (req : pb.ListJournalEntriesRequest) (w : World) (T : UUID) (filter_ : option UUID) :
  uuid.Parse (pb.ListJournalEntries_TenantId req) = Some T ->
  parse_account_filter (pb.ListJournalEntries_AccountId req) = Some filter_ ->
  is_int32 (pb.ListJournalEntries_Page req) ->
  ListJournalEntries s ctx req w =
  match JournalRepo_List (journalRepo s) ctx T filter_
          (pb.ListJournalEntries_FromDate req) (pb.ListJournalEntries_ToDate req)
          (spec_page_size (pb.ListJournalEntries_PageSize req))
          (spec_offset (pb.ListJournalEntries_Page req) (pb.ListJournalEntries_PageSize req))
          w with
  | (inl (entries, totalCount), w') =>
      (inl (pb.mkListJournalEntriesResponse (map journalEntryToProto entries)
              (int32 totalCount)), w')
  | (inr err, w') =>
      (inr (status_Errorf codes.Internal "failed to list journal entries" err), w')
  end.
Proof.
  intros Ht Hf Hp. unfold ListJournalEntries. rewrite Ht. cbn [parsed].
  unfold bind at 1. cbn [ret].
  rewrite (offset_exact _ _ Hp), clamp_pageSize_spec.
  unfold parse_account_filter in Hf.
  destruct (pb.ListJournalEntries_AccountId req) as [text|].
  - destruct (uuid.Parse text) as [aid|]; [|discriminate].
    injection Hf as <-. cbn [parsed]. unfold bind, orStatus, ret.
    destruct (JournalRepo_List _ _ _ _ _ _ _ _ w) as [[[entries total]|e] w']; reflexivity.
  - injection Hf as <-. unfold bind, orStatus, ret.
    destruct (JournalRepo_List _ _ _ _ _ _ _ _ w) as [[[entries total]|e] w']; reflexivity.
Qed.

Lemma spec_offset_nonneg page page_size : 0 <= spec_offset page page_size.
Proof.
  unfold spec_offset, spec_page. pose proof (spec_page_size_range page_size).
  destruct (Z.ltb_spec page 1); nia.
Qed.

(** C8.  A successful ListJournalEntries call with an account filter answers
    with a page (limit and offset as clamped) of the list [matching] of the
    tenant's entries that have at least one line against the account and an
    entry date within the inclusive bounds: every such entry is in [matching]
    once, however many of its lines hit the account; [matching] is ordered by
    entry date descending, then creation time descending; and the total count
    is the number of distinct entry ids in [matching]. *)
Theorem entries_filtered_by_account
  (E : SqlEngine) (ctx : Context) (req : pb.ListJournalEntriesRequest)
  (w w' : World) (T a : UUID) (resp : pb.ListJournalEntriesResponse) :
  uuid.Parse (pb.ListJournalEntries_TenantId req) = Some T ->
  parse_account_filter (pb.ListJournalEntries_AccountId req) = Some (Some a) ->
  is_int32 (pb.ListJournalEntries_Page req) ->
  ListJournalEntries (ledger E) ctx req w = (inl resp, w') ->
  exists (matching : list JournalEntryRow.t) (entries : list JournalEntry.t),
    (forall e, In e matching <->
               In e (journal_entries (db w)) /\
               JournalEntryRow.tenant_id e = T /\
               has_line_against (db w) a e /\
               within_dates (pb.ListJournalEntries_FromDate req)
                            (pb.ListJournalEntries_ToDate req) e) /\
    NoDup matching /\
    StronglySorted newest_first matching /\
    pb.ListJournalEntriesResponse_JournalEntries resp = map journalEntryToProto entries /\
    map entry_header entries
    = firstn (Z.to_nat (spec_page_size (pb.ListJournalEntries_PageSize req)))
        (skipn (Z.to_nat (spec_offset (pb.ListJournalEntries_Page req)
                                      (pb.ListJournalEntries_PageSize req)))
               matching) /\
    NoDup (map entry_header entries) /\
    pb.ListJournalEntriesResponse_TotalCount resp
    = int32 (Z.of_nat (List.length
                         (nodup uuid_eq_dec (map JournalEntryRow.id matching)))) /\
    (NoDup (map JournalEntryRow.id (journal_entries (db w))) ->
     NoDup (map JournalEntry.ID entries) /\
     pb.ListJournalEntriesResponse_TotalCount resp
     = int32 (Z.of_nat (List.length matching))).
Proof.
  intros Ht Hf Hp H.
  rewrite (ListJournalEntries_parsed (ledger E) ctx req w T (Some a) Ht Hf Hp) in H.
  cbn [ledger journalRepo NewJournalRepository JournalRepo_List] in H.
  destruct (JournalRepository_List E ctx T (Some a) _ _ _ _ w)
    as [[[entries total]|err] w1] eqn:Hl; [|discriminate].
  injection H as <- _.
  apply JournalRepository_List_inl in Hl;
    [|pose proof (spec_page_size_range (pb.ListJournalEntries_PageSize req)); lia
     |apply spec_offset_nonneg].
  destruct Hl as [Hpage Htotal].
  set (sel := list_selection E T (Some a) (pb.ListJournalEntries_FromDate req)
                (pb.ListJournalEntries_ToDate req) (db w)) in *.
  set (matching := order_by entry_newest_first (nodup JournalEntryRow_eq_dec sel)) in *.
  assert (Hin : forall e, In e matching <-> In e sel).
  { intros e. unfold matching. rewrite <- (nodup_In JournalEntryRow_eq_dec sel e).
    split; apply Permutation_in;
      [apply order_by_perm|apply Permutation_sym, order_by_perm]. }
  assert (Hnd : NoDup matching).
  { unfold matching. eapply Permutation_NoDup;
      [apply Permutation_sym, order_by_perm|apply NoDup_nodup]. }
  assert (Hcount : List.length (nodup uuid_eq_dec (map JournalEntryRow.id sel))
                   = List.length (nodup uuid_eq_dec (map JournalEntryRow.id matching))).
  { apply nodup_length_same_elements. intros x. rewrite !in_map_iff.
    split; intros (e & He & Hine); exists e; (split; [exact He|]); apply Hin; exact Hine. }
  exists matching, entries.
  split; [intros e; rewrite Hin; apply list_selection_In|].
  split; [exact Hnd|].
  split.
  { unfold matching.
    eapply StronglySorted_impl;
      [|apply (order_by_sorted entry_newest_first entry_newest_first_total
                 entry_newest_first_trans)].
    intros x y Hxy. apply entry_newest_first_spec. exact Hxy. }
  split; [reflexivity|].
  split; [exact Hpage|].
  split; [rewrite Hpage; apply NoDup_firstn, NoDup_skipn; exact Hnd|].
  split.
  { cbn [pb.ListJournalEntriesResponse_TotalCount]. rewrite Htotal, int32_int64, Hcount.
    reflexivity. }
  intros Hpk.
  assert (Hids : NoDup (map JournalEntryRow.id matching)).
  { apply (NoDup_map_sublist _ matching (journal_entries (db w))); [exact Hnd| |exact Hpk].
    intros e He. apply Hin, list_selection_In in He. apply He. }
  split.
  - replace (map JournalEntry.ID entries)
      with (map JournalEntryRow.id (map entry_header entries))
      by (rewrite map_map; reflexivity).
    rewrite Hpage.
    apply (NoDup_map_sublist _ _ matching); [| |exact Hids].
    + apply NoDup_firstn, NoDup_skipn. exact Hnd.
    + intros e He. apply In_firstn, In_skipn in He. exact He.
  - cbn [pb.ListJournalEntriesResponse_TotalCount]. rewrite Htotal, int32_int64, Hcount.
    rewrite (nodup_fixed_point uuid_eq_dec Hids), length_map. reflexivity.
Qed.

Lemma entries_filtered_by_account_witness :
  exists (matching : list JournalEntryRow.t) (entries : list JournalEntry.t),
    (forall e, In e matching <->
               In e (journal_entries (db (two_entries_world heap_order))) /\
               JournalEntryRow.tenant_id e = 1%N /\
               has_line_against (db (two_entries_world heap_order)) 2%N e /\
               within_dates None None e) /\
    NoDup matching /\
    StronglySorted newest_first matching /\
    pb.ListJournalEntriesResponse_JournalEntries listed_response
    = map journalEntryToProto entries /\
    map entry_header entries = firstn 50 (skipn 0 matching) /\
    NoDup (map entry_header entries) /\
    pb.ListJournalEntriesResponse_TotalCount listed_response
    = int32 (Z.of_nat (List.length
                         (nodup uuid_eq_dec (map JournalEntryRow.id matching)))) /\
    (NoDup (map JournalEntryRow.id (journal_entries (db (two_entries_world heap_order)))) ->
     NoDup (map JournalEntry.ID entries) /\
     pb.ListJournalEntriesResponse_TotalCount listed_response
     = int32 (Z.of_nat (List.length matching))).
Proof.
  apply (entries_filtered_by_account heap_order None list_entries_request
           (two_entries_world heap_order)
           (snd (ListJournalEntries (ledger heap_order) None list_entries_request
                   (two_entries_world heap_order)))
           1%N 2%N listed_response).
  - reflexivity.
  - reflexivity.
  - unfold is_int32. cbn. lia.
  - vm_compute. reflexivity.
Defined.

Example split_entry_listed_once :
  map pb.Entry_JournalEntryId
      (pb.ListJournalEntriesResponse_JournalEntries listed_response)
  = ["00000000-0000-0000-0000-000000000007"; "00000000-0000-0000-0000-000000000004"] /\
  pb.ListJournalEntriesResponse_TotalCount listed_response = 2.
Proof. split; vm_compute; reflexivity. Qed.

(** ** The balance ledger *)

Lemma toQ_sum_decimals ds : (toQ (sum_decimals ds) == total ds)%Q.
Proof.
  induction ds as [|d r IH]; cbn [sum_decimals fold_right total]; [reflexivity|].
  fold (sum_decimals r). rewrite toQ_Add, IH. reflexivity.
Qed.

Lemma total_app xs ys : (total (xs ++ ys) == total xs + total ys)%Q.
Proof.
  induction xs as [|x xs IH]; cbn [app total]; [ring|]. rewrite IH. ring.
Qed.

Lemma apply_lines_map now ls bs : apply_lines now ls bs = map (apply_to_row now ls) bs.
Proof.
  unfold apply_lines, apply_to_row. revert bs.
  induction ls as [|l ls IH]; intros bs; cbn [fold_left].
  - symmetry. apply map_id.
  - rewrite IH. unfold add_to_balance. rewrite map_map. reflexivity.
Qed.

Lemma apply_to_row_id now ls b :
  AccountBalance.AccountID (apply_to_row now ls b) = AccountBalance.AccountID b.
Proof.
  unfold apply_to_row. revert b. induction ls as [|l ls IH]; intros b; cbn [fold_left];
    [reflexivity|].
  rewrite IH. destruct (_ =? _)%N; reflexivity.
Qed.

Lemma apply_to_row_amounts now ls b :
  (toQ (AccountBalance.DebitBalance (apply_to_row now ls b))
   == toQ (AccountBalance.DebitBalance b)
      + total (map CreateJournalEntryLineParams.Debit
                   (params_against (AccountBalance.AccountID b) ls)))%Q /\
  (toQ (AccountBalance.CreditBalance (apply_to_row now ls b))
   == toQ (AccountBalance.CreditBalance b)
      + total (map CreateJournalEntryLineParams.Credit
                   (params_against (AccountBalance.AccountID b) ls)))%Q.
Proof.
  unfold apply_to_row. revert b.
  induction ls as [|l ls IH]; intros b; cbn [fold_left params_against filter map total].
  - split; ring.
  - rewrite (N.eqb_sym (CreateJournalEntryLineParams.AccountID l)).
    destruct (AccountBalance.AccountID b =? CreateJournalEntryLineParams.AccountID l)%N eqn:Hid.
    + destruct (IH (AccountBalance.mk (AccountBalance.AccountID b)
                      (Add (AccountBalance.DebitBalance b) (CreateJournalEntryLineParams.Debit l))
                      (Add (AccountBalance.CreditBalance b) (CreateJournalEntryLineParams.Credit l))
                      now)) as [Hd Hc].
      cbn [AccountBalance.AccountID AccountBalance.DebitBalance AccountBalance.CreditBalance]
        in Hd, Hc.
      fold (params_against (AccountBalance.AccountID b) ls).
      cbn [map total]. rewrite Hd, Hc, !toQ_Add. split; ring.
    + apply IH.
Qed.

Lemma line_rows_against entry now first a ls :
  map JournalEntryLine.Debit
      (filter (fun l => (JournalEntryLine.AccountID l =? a)%N) (line_rows entry now first ls))
  = map CreateJournalEntryLineParams.Debit (params_against a ls) /\
  map JournalEntryLine.Credit
      (filter (fun l => (JournalEntryLine.AccountID l =? a)%N) (line_rows entry now first ls))
  = map CreateJournalEntryLineParams.Credit (params_against a ls).
Proof.
  revert first. induction ls as [|l ls IH]; intros first;
    cbn [line_rows filter params_against map JournalEntryLine.AccountID]; [split; reflexivity|].
  destruct (CreateJournalEntryLineParams.AccountID l =? a)%N;
    cbn [map JournalEntryLine.Debit JournalEntryLine.Credit];
    destruct (IH (first + 1)%N) as [Hd Hc]; fold (params_against a ls);
    rewrite Hd, Hc; split; reflexivity.
Qed.

Lemma line_rows_accounts entry now first ls l :
  In l (line_rows entry now first ls) ->
  exists p, In p ls /\ JournalEntryLine.AccountID l = CreateJournalEntryLineParams.AccountID p
            /\ JournalEntryLine.JournalEntryID l = entry.
Proof.
  revert first. induction ls as [|p ls IH]; intros first Hin; [destruct Hin|].
  cbn [line_rows] in Hin. destruct Hin as [<-|Hin].
  - exists p. repeat split. left. reflexivity.
  - destruct (IH _ Hin) as (q & Hq & Hid). exists q. split; [right; exact Hq|exact Hid].
Qed.

(** ** Read-only handlers *)

Lemma readonly_parsed {A} c msg (o : option A) : readonly (parsed c msg o).
Proof. destruct o; [apply readonly_ret|apply readonly_fail]. Qed.

Lemma readonly_require c msg b : readonly (require c msg b).
Proof. destruct b; [apply readonly_ret|apply readonly_fail]. Qed.

Lemma readonly_answer {A} (wrap : A -> Response) (h : Handler A) :
  readonly h -> readonly (answer wrap h).
Proof.
  intros Hh w r w' H. unfold answer in H.
  destruct (h w) as [[a|st] w1] eqn:Hw; injection H as _ <-; eapply Hh; exact Hw.
Qed.

Lemma readonly_catch {A B} (c : M A) (k : A -> World -> (B + error) * World)
  (h : error -> error) :
  readonly c -> (forall a, readonly (k a)) ->
  readonly (fun w => match c w with
                     | (inl a, w') => k a w'
                     | (inr e, w') => (inr (h e), w')
                     end).
Proof.
  intros Hc Hk w r w' H.
  destruct (c w) as [[a|e] w1] eqn:Hcw.
  - eapply same_store_trans; [eapply Hc; eassumption|eapply Hk; eassumption].
  - injection H as _ <-. eapply Hc; eassumption.
Qed.

#[local] Hint Resolve readonly_parsed readonly_require readonly_answer : readonly.

Section ReadOnly.

Variable E : SqlEngine.

Lemma readonly_TenantRepository_GetByID ctx id : readonly (TenantRepository_GetByID E ctx id).
Proof. unfold TenantRepository_GetByID. auto with readonly. Qed.

Lemma readonly_AccountRepository_GetByID ctx T id :
  readonly (AccountRepository_GetByID E ctx T id).
Proof.
  unfold AccountRepository_GetByID.
  apply readonly_bind; [auto with readonly|]. intros conn. apply readonly_defer.
  intros w r w' H.
  destruct (Conn_QueryRow ctx _ w) as [[row|e] w1] eqn:Hq;
    apply readonly_Conn_QueryRow in Hq.
  - injection H as _ <-. exact Hq.
  - destruct (Is_ErrNoRows e); injection H as _ <-; exact Hq.
Qed.

Lemma readonly_AccountRepository_GetBalance ctx T id :
  readonly (AccountRepository_GetBalance E ctx T id).
Proof.
  unfold AccountRepository_GetBalance.
  apply readonly_bind; [auto with readonly|]. intros conn. apply readonly_defer.
  intros w r w' H.
  destruct (Conn_QueryRow ctx _ w) as [[row|e] w1] eqn:Hq;
    apply readonly_Conn_QueryRow in Hq.
  - injection H as _ <-. exact Hq.
  - destruct e; injection H as _ <-; exact Hq.
Qed.

Lemma readonly_AccountRepository_List ctx T ty cur limit offset :
  readonly (AccountRepository_List E ctx T ty cur limit offset).
Proof.
  unfold AccountRepository_List.
  apply readonly_bind; [auto with readonly|]. intros conn. apply readonly_defer.
  apply readonly_bind; [auto with readonly|]. intros total.
  apply readonly_bind; [auto with readonly|]. intros rows. apply readonly_ret.
Qed.

Lemma readonly_JournalRepository_List ctx T acc f t limit offset :
  readonly (JournalRepository_List E ctx T acc f t limit offset).
Proof.
  unfold JournalRepository_List.
  apply readonly_bind; [auto with readonly|]. intros conn. apply readonly_defer.
  apply readonly_bind; [auto with readonly|]. intros total.
  apply readonly_bind; [auto with readonly|]. intros rows.
  apply readonly_bind; [|intros; apply readonly_ret].
  apply readonly_mapM. intros row.
  apply readonly_bind; [apply readonly_wrapf, readonly_getLines|intros; apply readonly_ret].
Qed.

Lemma readonly_GetTenant ctx req : readonly (GetTenant (ledger E) ctx req).
Proof.
  unfold GetTenant. apply readonly_bind; [auto with readonly|]. intros T.
  apply readonly_bind; [|intros; apply readonly_ret].
  apply readonly_orStatus. apply readonly_TenantRepository_GetByID.
Qed.

Lemma readonly_GetAccount ctx req : readonly (GetAccount (ledger E) ctx req).
Proof.
  unfold GetAccount. apply readonly_bind; [auto with readonly|]. intros T.
  apply readonly_bind; [auto with readonly|]. intros a.
  apply readonly_bind; [|intros; apply readonly_ret].
  apply readonly_orStatus. apply readonly_AccountRepository_GetByID.
Qed.

Lemma readonly_GetAccountBalance ctx req : readonly (GetAccountBalance (ledger E) ctx req).
Proof.
  unfold GetAccountBalance. apply readonly_bind; [auto with readonly|]. intros T.
  apply readonly_bind; [auto with readonly|]. intros a.
  apply readonly_bind; [|intros; apply readonly_ret].
  apply readonly_orStatus. apply readonly_AccountRepository_GetBalance.
Qed.

Lemma readonly_ListAccounts ctx req : readonly (ListAccounts (ledger E) ctx req).
Proof.
  unfold ListAccounts. apply readonly_bind; [auto with readonly|]. intros T.
  apply readonly_bind; [|intros [? ?]; apply readonly_ret].
  apply readonly_orStatus. apply readonly_AccountRepository_List.
Qed.

Lemma readonly_GetJournalEntry ctx req : readonly (GetJournalEntry (ledger E) ctx req).
Proof.
  unfold GetJournalEntry. apply readonly_bind; [auto with readonly|]. intros T.
  apply readonly_bind; [auto with readonly|]. intros a.
  apply readonly_bind; [|intros; apply readonly_ret].
  apply readonly_orStatus. apply readonly_JournalRepository_GetByID.
Qed.

Lemma readonly_ListJournalEntries ctx req : readonly (ListJournalEntries (ledger E) ctx req).
Proof.
  unfold ListJournalEntries. apply readonly_bind; [auto with readonly|]. intros T.
  apply readonly_bind.
  - destruct (pb.ListJournalEntries_AccountId req); [|apply readonly_ret].
    apply readonly_bind; [auto with readonly|intros; apply readonly_ret].
  - intros acc. apply readonly_bind; [|intros [? ?]; apply readonly_ret].
    apply readonly_orStatus. apply readonly_JournalRepository_List.
Qed.

End ReadOnly.

(** ** What a write commits *)

Lemma create_account_inl T now ids tb p id tb' ids' :
  create_account T now ids tb p = inl (id, tb', ids') ->
  id = ids /\ tb' = opened_tables T now ids tb p /\ ids' = (ids + 1)%N.
Proof.
  unfold create_account, raise.
  destruct (existsb _ (filter _ _)); [discriminate|].
  destruct (negb (existsb _ (account_types tb))); [discriminate|].
  destruct (negb (existsb _ (currencies tb))); [discriminate|].
  destruct (match CreateAccountParams.ParentAccountID p with
            | Some _ => _ | None => _ end); [discriminate|].
  intros H. injection H as <- <- <-. repeat split.
Qed.

Lemma AccountRepository_Create_cases (E : SqlEngine) (ctx : Context) (T : UUID)
  (p : CreateAccountParams.t) (w : World) :
  (exists e w', AccountRepository_Create E ctx T p w = (inr e, w') /\ same_store w w')
  \/
  (exists id tb ids,
     create_account T (clock w + 3) (next_uuid w) (db w) p = inl (id, tb, ids) /\
     AccountRepository_Create E ctx T p w =
       AccountRepository_GetByID E ctx T id (mkWorld tb ids (clock w + 5))).
Proof.
  remember (AccountRepository_Create E ctx T p w) as r eqn:Hr.
  unfold AccountRepository_Create in Hr. unfold bind at 1 in Hr. unfold wrapf at 1 in Hr.
  destruct (DB_BeginTx_cases ctx T w) as [(e & w' & Hb & Hs)|Hb]; rewrite Hb in Hr; clear Hb.
  { left. eexists _, _. split; [exact Hr|exact Hs]. }
  unfold defer, TenantTx_Rollback, TenantTx_QueryRow, TenantTx_Commit, bind, wrapf in Hr.
  cbn [tx_tenantID tx_now tx_tables tx_ids] in Hr.
  destruct (roundtrip_cases ctx (mkWorld (db w) (next_uuid w) (clock w + 3)))
    as [[Hd Hrt]|[Hd Hrt]]; rewrite Hrt in Hr; clear Hrt; cbn in Hr.
  { left. eexists _, _. split; [exact Hr|]. apply same_store_tick. lia. }
  destruct (create_account T (clock w + 3) (next_uuid w) (db w) p)
    as [[[id tb] ids]|e] eqn:Hproc; cbn in Hr.
  2:{ left. eexists _, _. split; [exact Hr|].
      replace (clock w + 3 + 1) with (clock w + 4) by lia. apply same_store_tick. lia. }
  destruct (roundtrip_cases ctx (mkWorld (db w) (next_uuid w) (clock w + 3 + 1)))
    as [[Hd' Hrt]|[Hd' Hrt]]; rewrite Hrt in Hr; clear Hrt; cbn in Hr.
  { left. eexists _, _. split; [exact Hr|].
    replace (clock w + 3 + 1) with (clock w + 4) by lia. apply same_store_tick. lia. }
  right. exists id, tb, ids. split; [reflexivity|].
  replace (clock w + 3 + 1 + 1) with (clock w + 5) in Hr by lia.
  rewrite Hr.
  destruct (AccountRepository_GetByID E ctx T id _) as [r1 w1]. reflexivity.
Qed.

Lemma same_store_committed scope w w' : same_store w w' -> committed scope w w'.
Proof. intros (Hd & Hn & _). apply nothing_committed; assumption. Qed.

Lemma committed_after_read scope w w1 w' :
  committed scope w w1 -> same_store w1 w' -> committed scope w w'.
Proof.
  intros Hc (Hd & Hn & _).
  destruct Hc as [H1 H2|now name Hs H1 H2|T now p Hs H|T now p Hs H].
  - apply nothing_committed; congruence.
  - eapply tenant_committed; [exact Hs|rewrite Hd; exact H1|congruence].
  - eapply account_committed; [exact Hs|]. rewrite Hd, Hn. exact H.
  - eapply entry_committed; [exact Hs|]. rewrite Hd, Hn. exact H.
Qed.

Section Writes.

Variable E : SqlEngine.

Lemma TenantRepository_Create_committed ctx name w r w' :
  TenantRepository_Create E ctx name w = (r, w') -> committed None w w'.
Proof.
  unfold TenantRepository_Create. unfold bind at 1. unfold wrapf at 1. unfold bind at 1.
  destruct (roundtrip_cases ctx w) as [[Hd Hrt]|[Hd Hrt]]; rewrite Hrt; clear Hrt.
  { intros H. injection H as _ <-. apply same_store_committed, same_store_refl. }
  unfold create_tenant. cbn [db next_uuid clock].
  intros H.
  eapply committed_after_read;
    [|eapply readonly_TenantRepository_GetByID; exact H].
  eapply tenant_committed; reflexivity.
Qed.

Lemma AccountRepository_Create_committed ctx T p w r w' :
  AccountRepository_Create E ctx T p w = (r, w') -> committed (Some T) w w'.
Proof.
  intros H.
  destruct (AccountRepository_Create_cases E ctx T p w)
    as [(e & w1 & Hc & Hs)|(id & tb & ids & Hproc & Hc)]; rewrite Hc in H; clear Hc.
  - injection H as _ <-. apply same_store_committed. exact Hs.
  - eapply committed_after_read;
      [|eapply readonly_AccountRepository_GetByID; exact H].
    pose proof (create_account_inl _ _ _ _ _ _ _ _ Hproc) as (-> & _ & _).
    eapply account_committed; [reflexivity|]. cbn [db next_uuid]. exact Hproc.
Qed.

Lemma JournalRepository_Create_committed ctx T p w r w' :
  JournalRepository_Create E ctx T p w = (r, w') -> committed (Some T) w w'.
Proof.
  intros H.
  destruct (JournalRepository_Create_cases E ctx T p w)
    as [(e & w1 & Hc & Hs)|(id & tb & ids & Hproc & Hc)]; rewrite Hc in H; clear Hc.
  - injection H as _ <-. apply same_store_committed. exact Hs.
  - eapply committed_after_read;
      [|eapply readonly_JournalRepository_GetByID; exact H].
    pose proof (create_journal_entry_inl _ _ _ _ _ _ _ _ Hproc) as (-> & _ & _).
    eapply entry_committed; [reflexivity|]. cbn [db next_uuid]. exact Hproc.
Qed.

Lemma serve_committed json_Unmarshal ctx call w r w' :
  serve json_Unmarshal (ledger E) ctx call w = (r, w') ->
  committed (scope_of call) w w'.
Proof.
  destruct call as [req|req|req|req|req|req|req|req|req]; cbn [serve scope_of]; intros H.
  - unfold answer in H.
    destruct (CreateTenant (ledger E) ctx req w) as [x w1] eqn:Hh.
    assert (w' = w1) by (destruct x; injection H as _ <-; reflexivity). subst w1.
    clear H. unfold CreateTenant, bind, require, orStatus, ret, fail in Hh.
    destruct (negb _).
    + cbn [ledger tenantRepo NewTenantRepository TenantRepo_Create] in Hh.
      destruct (TenantRepository_Create E ctx _ w) as [[t|e] w2] eqn:Hc;
        injection Hh as _ <-; eapply TenantRepository_Create_committed; exact Hc.
    + injection Hh as _ <-. apply same_store_committed, same_store_refl.
  - apply same_store_committed.
    eapply (readonly_answer GetTenantResp); [apply readonly_GetTenant|exact H].
  - unfold answer in H.
    destruct (CreateAccount (ledger E) ctx req w) as [x w1] eqn:Hh.
    assert (w' = w1) by (destruct x; injection H as _ <-; reflexivity). subst w1.
    clear H. unfold CreateAccount, bind, parsed, require, orStatus, ret, fail in Hh.
    destruct (uuid.Parse (pb.CreateAccount_TenantId req)) as [T|];
      [|injection Hh as _ <-; apply same_store_committed, same_store_refl].
    destruct (negb (String.eqb (pb.CreateAccount_AccountNumber req) ""));
      [|injection Hh as _ <-; apply same_store_committed, same_store_refl].
    destruct (negb (String.eqb (pb.CreateAccount_Name req) ""));
      [|injection Hh as _ <-; apply same_store_committed, same_store_refl].
    cbn [ledger accountRepo NewAccountRepository AccountRepo_Create] in Hh.
    destruct (pb.CreateAccount_ParentAccountId req) as [text|].
    + destruct (uuid.Parse text);
        [|injection Hh as _ <-; apply same_store_committed, same_store_refl].
      destruct (AccountRepository_Create E ctx _ _ w) as [[t|e] w2] eqn:Hc;
        injection Hh as _ <-; eapply AccountRepository_Create_committed; exact Hc.
    + destruct (AccountRepository_Create E ctx _ _ w) as [[t|e] w2] eqn:Hc;
        injection Hh as _ <-; eapply AccountRepository_Create_committed; exact Hc.
  - apply same_store_committed.
    eapply (readonly_answer GetAccountResp); [apply readonly_GetAccount|exact H].
  - apply same_store_committed.
    eapply (readonly_answer ListAccountsResp); [apply readonly_ListAccounts|exact H].
  - apply same_store_committed.
    eapply (readonly_answer GetAccountBalanceResp);
      [apply readonly_GetAccountBalance|exact H].
  - unfold answer in H.
    destruct (CreateJournalEntry json_Unmarshal (ledger E) ctx req w) as [x w1] eqn:Hh.
    assert (w' = w1) by (destruct x; injection H as _ <-; reflexivity). subst w1.
    clear H.
    destruct (CreateJournalEntry_cases json_Unmarshal (ledger E) ctx req w)
      as [(msg & Hv)|(T & lines & metadata & Ht & Hlen & Hlines & Hm)].
    { rewrite Hv in Hh. injection Hh as _ <-. apply same_store_committed, same_store_refl. }
    rewrite (CreateJournalEntry_validated json_Unmarshal (ledger E) ctx req w
               T lines metadata Ht Hlen Hlines Hm) in Hh.
    cbn [ledger journalRepo NewJournalRepository JournalRepo_Create] in Hh.
    rewrite Ht.
    destruct (JournalRepository_Create E ctx T _ w) as [[t|e] w2] eqn:Hc;
      injection Hh as _ <-; eapply JournalRepository_Create_committed; exact Hc.
  - apply same_store_committed.
    eapply (readonly_answer GetJournalEntryResp); [apply readonly_GetJournalEntry|exact H].
  - apply same_store_committed.
    eapply (readonly_answer ListJournalEntriesResp);
      [apply readonly_ListJournalEntries|exact H].
Qed.

End Writes.

(** ** The balance invariant *)

Lemma Equal_total (d : Decimal) (ds : list Decimal) :
  Equal d (sum_decimals ds) = true <-> (toQ d == total ds)%Q.
Proof. rewrite Equal_spec, toQ_sum_decimals. reflexivity. Qed.

Lemma consistent_same_store w w' :
  db w' = db w -> next_uuid w' = next_uuid w -> consistent w -> consistent w'.
Proof.
  intros Hd Hn (Hb & Ho & Hi). unfold consistent, ids_allocated. rewrite Hd, Hn.
  split; [exact Hb|]. split; [exact Ho|exact Hi].
Qed.

Lemma consistent_posted T now p w w' :
  create_journal_entry T now (next_uuid w) (db w) p
  = inl (next_uuid w, db w', next_uuid w') ->
  consistent w -> consistent w'.
Proof.
  intros Hproc (Hb & (Hnd & Hex) & Hacc & Hbal & Hlin).
  apply create_journal_entry_inl in Hproc.
  destruct Hproc as (_ & Hdb & Hids & _ & _ & Hvalid).
  set (ls := CreateJournalEntryParams.Lines p) in *.
  assert (Ea : accounts (db w') = accounts (db w)) by (rewrite Hdb; reflexivity).
  assert (Eb : account_balances (db w')
               = map (apply_to_row now ls) (account_balances (db w)))
    by (rewrite Hdb; cbn [posted_tables account_balances]; apply apply_lines_map).
  assert (El : journal_entry_lines (db w')
               = journal_entry_lines (db w)
                 ++ line_rows (next_uuid w) now (next_uuid w + 1)%N ls)
    by (rewrite Hdb; reflexivity).
  unfold consistent, balances_match, one_balance_per_account, ids_allocated, lines_against.
  rewrite Ea, Eb, El, Hids.
  split; [|split; [split|split; [|split]]].
  - intros b' Hin. apply in_map_iff in Hin. destruct Hin as (b & <- & Hin).
    destruct (Hb b Hin) as [Hd Hc]. apply Equal_total in Hd, Hc.
    rewrite !Equal_total. rewrite apply_to_row_id.
    destruct (apply_to_row_amounts now ls b) as [Had Hac].
    rewrite filter_app, !map_app, !total_app.
    destruct (line_rows_against (next_uuid w) now (next_uuid w + 1)%N
                (AccountBalance.AccountID b) ls) as [Hrd Hrc].
    rewrite Hrd, Hrc, Had, Hac. unfold lines_against in Hd, Hc. rewrite Hd, Hc.
    split; reflexivity.
  - rewrite map_map.
    erewrite map_ext; [exact Hnd|]. intros b. apply apply_to_row_id.
  - intros a Ha. destruct (Hex a Ha) as (b & Hin & Hid).
    exists (apply_to_row now ls b). split; [apply in_map; exact Hin|].
    rewrite apply_to_row_id. exact Hid.
  - intros a Ha. specialize (Hacc a Ha). lia.
  - intros b' Hin. apply in_map_iff in Hin. destruct Hin as (b & <- & Hin).
    rewrite apply_to_row_id. specialize (Hbal b Hin). lia.
  - intros l Hin. apply in_app_or in Hin. destruct Hin as [Hin|Hin].
    + specialize (Hlin l Hin). lia.
    + apply line_rows_accounts in Hin. destruct Hin as (q & Hq & -> & _).
      rewrite forallb_forall in Hvalid. specialize (Hvalid q Hq).
      apply existsb_exists in Hvalid. destruct Hvalid as (a & Ha & Hm).
      apply andb_true_iff in Hm. destruct Hm as [Hm _]. apply N.eqb_eq in Hm.
      rewrite <- Hm. specialize (Hacc a Ha). lia.
Qed.

Lemma consistent_opened T now p w w' :
  create_account T now (next_uuid w) (db w) p
  = inl (next_uuid w, db w', next_uuid w') ->
  consistent w -> consistent w'.
Proof.
  intros Hproc (Hb & (Hnd & Hex) & Hacc & Hbal & Hlin).
  apply create_account_inl in Hproc. destruct Hproc as (_ & Hdb & Hids).
  assert (Hfresh : lines_against (next_uuid w) (db w) = []).
  { unfold lines_against.
    destruct (filter _ (journal_entry_lines (db w))) as [|l r] eqn:Hf; [reflexivity|].
    assert (Hin : In l (filter (fun l => (JournalEntryLine.AccountID l =? next_uuid w)%N)
                               (journal_entry_lines (db w))))
      by (rewrite Hf; left; reflexivity).
    apply filter_In in Hin. destruct Hin as [Hin Hid]. apply N.eqb_eq in Hid.
    specialize (Hlin l Hin). lia. }
  assert (Ea : accounts (db w')
               = accounts (db w)
                 ++ [Account.mk (next_uuid w) T
                       (CreateAccountParams.AccountNumber p) (CreateAccountParams.Name p)
                       (CreateAccountParams.Description p)
                       (CreateAccountParams.AccountTypeID p)
                       (CreateAccountParams.CurrencyCode p)
                       (CreateAccountParams.ParentAccountID p) true now now])
    by (rewrite Hdb; reflexivity).
  assert (Eb : account_balances (db w')
               = account_balances (db w) ++ [AccountBalance.mk (next_uuid w) zero zero now])
    by (rewrite Hdb; reflexivity).
  assert (El : journal_entry_lines (db w') = journal_entry_lines (db w))
    by (rewrite Hdb; reflexivity).
  unfold consistent, balances_match, one_balance_per_account, ids_allocated, lines_against.
  rewrite Ea, Eb, El, Hids.
  split; [|split; [split|split; [|split]]].
  - intros b Hin.
    apply in_app_or in Hin. destruct Hin as [Hin|[<-|[]]]; [apply Hb; exact Hin|].
    cbn [AccountBalance.AccountID AccountBalance.DebitBalance AccountBalance.CreditBalance].
    unfold lines_against in Hfresh. rewrite Hfresh. split; reflexivity.
  - rewrite map_app. cbn [map AccountBalance.AccountID].
    apply NoDup_app; [exact Hnd|repeat constructor; intros []|].
    intros x Hx [<-|[]]. apply in_map_iff in Hx. destruct Hx as (b & Hid & Hin).
    specialize (Hbal b Hin). lia.
  - intros a Ha. apply in_app_or in Ha. destruct Ha as [Ha|[<-|[]]].
    + destruct (Hex a Ha) as (b & Hin & Hid). exists b.
      split; [apply in_or_app; left; exact Hin|exact Hid].
    + eexists. split; [apply in_or_app; right; left; reflexivity|reflexivity].
  - intros a Ha. apply in_app_or in Ha. destruct Ha as [Ha|[<-|[]]].
    + specialize (Hacc a Ha). lia.
    + cbn. lia.
  - intros b Hin. apply in_app_or in Hin. destruct Hin as [Hin|[<-|[]]].
    + specialize (Hbal b Hin). lia.
    + cbn. lia.
  - intros l Hin. specialize (Hlin l Hin). lia.
Qed.

Lemma committed_consistent scope w w' :
  committed scope w w' -> consistent w -> consistent w'.
Proof.
  intros [Hd Hn|now name _ Hd Hn|T now p _ H|T now p _ H] Hc.
  - eapply consistent_same_store; eassumption.
  - destruct Hc as (Hb & Ho & Hacc & Hbal & Hlin).
    unfold consistent, balances_match, one_balance_per_account, ids_allocated,
      lines_against.
    rewrite Hd, Hn. cbn [accounts account_balances journal_entry_lines].
    repeat split; try apply Hb; try apply Ho; try assumption.
    + intros a Ha. specialize (Hacc a Ha). lia.
    + intros b Hin. specialize (Hbal b Hin). lia.
    + intros l Hin. specialize (Hlin l Hin). lia.
  - eapply consistent_opened; eassumption.
  - eapply consistent_posted; eassumption.
Qed.

Lemma no_accounts_consistent w : no_accounts w -> consistent w.
Proof.
  intros (Ha & Hb & Hl). unfold consistent, balances_match, one_balance_per_account,
    ids_allocated. rewrite Ha, Hb, Hl.
  split; [intros b []|]. split; [split; [constructor|intros a []]|].
  split; [intros a []|]. split; [intros b []|intros l []].
Qed.

Lemma run_consistent json_Unmarshal E calls w :
  consistent w -> consistent (run json_Unmarshal (ledger E) calls w).
Proof.
  unfold run. revert w. induction calls as [|[ctx call] calls IH]; intros w Hc; [exact Hc|].
  cbn [fold_left fst snd]. apply IH.
  destruct (serve json_Unmarshal (ledger E) ctx call w) as [r w'] eqn:Hs.
  eapply committed_consistent; [eapply serve_committed; exact Hs|exact Hc].
Qed.

Lemma AccountRepository_GetBalance_inl (E : SqlEngine) (ctx : Context) (T a : UUID)
  (w w' : World) (balance : AccountBalance.t) :
  AccountRepository_GetBalance E ctx T a w = (inl balance, w') ->
  exists row,
    In row (account_balances (db w)) /\
    AccountBalance.AccountID row = a /\
    policy_account_balances T (db w) row = true /\
    balance = AccountBalance.mk a (AccountBalance.DebitBalance row)
                (AccountBalance.CreditBalance row) (AccountBalance.UpdatedAt row).
Proof.
  intros H.
  unfold AccountRepository_GetBalance, DB_WithTenant, pool_Acquire, defer, Conn_Release,
    Conn_QueryRow, bind, wrapf, ret in H.
  destruct (roundtrip_cases ctx w) as [[Hd Hrt]|[Hd Hrt]]; rewrite Hrt in H; clear Hrt;
    [discriminate|]. cbn in H.
  match type of H with context [roundtrip ctx ?x] =>
    destruct (roundtrip_cases ctx x) as [[Hd1 Hrt]|[Hd1 Hrt]]; rewrite Hrt in H; clear Hrt end;
    [discriminate|]. cbn in H.
  match type of H with context [roundtrip ctx ?x] =>
    destruct (roundtrip_cases ctx x) as [[Hd2 Hrt]|[Hd2 Hrt]]; rewrite Hrt in H; clear Hrt end;
    [discriminate|]. cbn in H.
  destruct (filter (fun b => (AccountBalance.AccountID b =? a)%N)
                   (from_account_balances E T (db w))) as [|row rows] eqn:Hf;
    cbn [first_row] in H; [discriminate|].
  assert (Hin : In row (filter (fun b => (AccountBalance.AccountID b =? a)%N)
                               (from_account_balances E T (db w))))
    by (rewrite Hf; left; reflexivity).
  apply filter_In in Hin. destruct Hin as [Hin Hid].
  unfold from_account_balances in Hin. apply scan_In, filter_In in Hin.
  destruct Hin as [Hin Hpol].
  injection H as <- _. exists row.
  split; [exact Hin|]. split; [apply N.eqb_eq; exact Hid|]. split; [exact Hpol|reflexivity].
Qed.

Lemma CreateJournalEntry_all_or_nothing
  (json_Unmarshal : string -> option (option JSONObject)) (E : SqlEngine)
  (ctx : Context) (req : pb.CreateJournalEntryRequest) (w w' : World)
  (r : pb.CreateJournalEntryResponse + Status) :
  CreateJournalEntry json_Unmarshal (ledger E) ctx req w = (r, w') ->
  db w' = db w \/
  exists T now p,
    parse_lines 0 (pb.CreateJournalEntry_Lines req) = inl (CreateJournalEntryParams.Lines p) /\
    db w' = posted_tables T now (next_uuid w) (db w) p.
Proof.
  intros H.
  destruct (CreateJournalEntry_cases json_Unmarshal (ledger E) ctx req w)
    as [(msg & Hv)|(T & lines & metadata & Ht & Hlen & Hlines & Hm)].
  { rewrite Hv in H. injection H as _ <-. left. reflexivity. }
  rewrite (CreateJournalEntry_validated json_Unmarshal (ledger E) ctx req w
             T lines metadata Ht Hlen Hlines Hm) in H.
  cbn [ledger journalRepo NewJournalRepository JournalRepo_Create] in H.
  set (p := CreateJournalEntryParams.mk _ _ _ _ _) in H.
  destruct (JournalRepository_Create E ctx T p w) as [x w1] eqn:Hc.
  assert (w' = w1) by (destruct x; injection H as _ <-; reflexivity). subst w1. clear H.
  destruct (JournalRepository_Create_cases E ctx T p w)
    as [(e & w1 & Hc' & Hs)|(id & tb & ids & Hproc & Hc')]; rewrite Hc' in Hc; clear Hc'.
  - injection Hc as _ <-. left. apply Hs.
  - right. exists T, (clock w + 3), p. split; [exact Hlines|].
    apply readonly_JournalRepository_GetByID in Hc. destruct Hc as (Hd & _).
    rewrite Hd. cbn [db]. apply create_journal_entry_inl in Hproc. apply Hproc.
Qed.

(** C2.  After any sequence of calls to the service on a ledger that started
    without accounts, every account has its one balance row, and every
    balance row's debit (credit) balance equals, as exact decimals, the sum
    of the debits (credits) of all committed lines against its account; this
    is also what [GetBalance] reads.  A CreateJournalEntry call leaves the
    tables as they were or leaves them with the header, all of its lines and
    all of its balance additions applied together. *)
Theorem balances_equal_committed_lines
  (json_Unmarshal : string -> option (option JSONObject)) (E : SqlEngine)
  (calls : list (Context * Request)) (w0 : World) :
  no_accounts w0 ->
  one_balance_per_account (db (run json_Unmarshal (ledger E) calls w0)) /\
  balances_match (db (run json_Unmarshal (ledger E) calls w0)) /\
  (forall ctx T a balance w',
     AccountRepository_GetBalance E ctx T a (run json_Unmarshal (ledger E) calls w0)
     = (inl balance, w') ->
     Equal (AccountBalance.DebitBalance balance)
           (sum_decimals
              (map JournalEntryLine.Debit
                   (lines_against a (db (run json_Unmarshal (ledger E) calls w0))))) = true /\
     Equal (AccountBalance.CreditBalance balance)
           (sum_decimals
              (map JournalEntryLine.Credit
                   (lines_against a (db (run json_Unmarshal (ledger E) calls w0))))) = true) /\
  (forall ctx req w r w',
     CreateJournalEntry json_Unmarshal (ledger E) ctx req w = (r, w') ->
     db w' = db w \/
     exists T now p,
       parse_lines 0 (pb.CreateJournalEntry_Lines req)
       = inl (CreateJournalEntryParams.Lines p) /\
       db w' = posted_tables T now (next_uuid w) (db w) p).
Proof.
  intros Hinit.
  pose proof (run_consistent json_Unmarshal E calls w0 (no_accounts_consistent w0 Hinit))
    as (Hb & Ho & _).
  split; [exact Ho|]. split; [exact Hb|]. split.
  - intros ctx T a balance w' Hg. apply AccountRepository_GetBalance_inl in Hg.
    destruct Hg as (row & Hin & Hid & _ & ->).
    cbn [AccountBalance.DebitBalance AccountBalance.CreditBalance].
    rewrite <- Hid. apply Hb. exact Hin.
  - intros ctx req w r w'. apply CreateJournalEntry_all_or_nothing.
Qed.

Example ledger_calls_balances :
  map (fun b => (AccountBalance.AccountID b,
                 decimal.String (AccountBalance.DebitBalance b),
                 decimal.String (AccountBalance.CreditBalance b)))
      (account_balances (db (run json_Unmarshal_small (ledger heap_order)
                               ledger_calls fresh_world)))
  = [(2%N, "200", "0"); (3%N, "0", "200")].
Proof. vm_compute. reflexivity. Qed.


Lemma balances_equal_committed_lines_witness :
  one_balance_per_account
    (db (run json_Unmarshal_small (ledger heap_order) ledger_calls fresh_world)) /\
  balances_match
    (db (run json_Unmarshal_small (ledger heap_order) ledger_calls fresh_world)) /\
  (forall ctx T a balance w',
     AccountRepository_GetBalance heap_order ctx T a
       (run json_Unmarshal_small (ledger heap_order) ledger_calls fresh_world)
     = (inl balance, w') ->
     Equal (AccountBalance.DebitBalance balance)
           (sum_decimals
              (map JournalEntryLine.Debit
                   (lines_against a
                      (db (run json_Unmarshal_small (ledger heap_order)
                             ledger_calls fresh_world))))) = true /\
     Equal (AccountBalance.CreditBalance balance)
           (sum_decimals
              (map JournalEntryLine.Credit
                   (lines_against a
                      (db (run json_Unmarshal_small (ledger heap_order)
                             ledger_calls fresh_world))))) = true) /\
  (forall ctx req w r w',
     CreateJournalEntry json_Unmarshal_small (ledger heap_order) ctx req w = (r, w') ->
     db w' = db w \/
     exists T now p,
       parse_lines 0 (pb.CreateJournalEntry_Lines req)
       = inl (CreateJournalEntryParams.Lines p) /\
       db w' = posted_tables T now (next_uuid w) (db w) p).
Proof.
  apply (balances_equal_committed_lines json_Unmarshal_small heap_order ledger_calls
           fresh_world).
  repeat split; reflexivity.
Defined.

(** ** Tenant isolation *)

(** ** What a write leaves of other tenants' rows *)

Lemma committed_foreign_rows (T : UUID) (w w' : World) :
  committed (Some T) w w' ->
  foreign_rows_kept T (db w) (db w') /\ new_rows_owned T (db w) (db w').
Proof.
  intros [Hd Hn|now name Hs Hd Hn|T' now p Hs H|T' now p Hs H].
  - rewrite Hd. split; repeat split; intros; auto.
  - discriminate Hs.
  - injection Hs as <-. apply create_account_inl in H. destruct H as (_ & -> & _).
    unfold foreign_rows_kept, new_rows_owned, opened_tables.
    cbn [accounts account_balances journal_entries journal_entry_lines].
    split; [repeat split; intros; auto; apply in_or_app; left; assumption|].
    split; [|split; [|split]].
    + intros a Ha. apply in_app_or in Ha. destruct Ha as [Ha|[<-|[]]]; [left; exact Ha|].
      right. reflexivity.
    + intros e He. left. exact He.
    + intros l Hl. left. exact Hl.
    + intros b Hb. apply in_app_or in Hb. destruct Hb as [Hb|[<-|[]]]; [left; exact Hb|].
      right. unfold policy_account_balances. apply existsb_exists.
      eexists. split; [apply in_or_app; right; left; reflexivity|].
      unfold policy_accounts. cbn. rewrite !N.eqb_refl. reflexivity.
  - injection Hs as <-. apply create_journal_entry_inl in H.
    destruct H as (_ & -> & _ & _ & _ & Hvalid).
    set (ls := CreateJournalEntryParams.Lines p) in *.
    unfold foreign_rows_kept, new_rows_owned, posted_tables.
    cbn [accounts account_balances journal_entries journal_entry_lines]. fold ls.
    rewrite apply_lines_map.
    split; [split; [|split; [|split]]|split; [|split; [|split]]].
    + intros a Ha _. exact Ha.
    + intros e He _. apply in_or_app. left. exact He.
    + intros l Hl _. apply in_or_app. left. exact Hl.
    + intros b Hb Hpol. apply in_map_iff. exists b. split; [|exact Hb].
      unfold apply_to_row.
      assert (Hno : forall q, In q ls ->
                (AccountBalance.AccountID b =? CreateJournalEntryLineParams.AccountID q)%N
                = false).
      { intros q Hq. destruct (N.eqb_spec (AccountBalance.AccountID b)
                                 (CreateJournalEntryLineParams.AccountID q)) as [Heq|];
          [|reflexivity].
        exfalso. rewrite forallb_forall in Hvalid. specialize (Hvalid q Hq).
        unfold policy_account_balances in Hpol. rewrite Heq in Hpol.
        rewrite Hvalid in Hpol. discriminate Hpol. }
      clear -Hno. induction ls as [|q ls IH]; cbn [fold_left]; [reflexivity|].
      rewrite (Hno q) by (left; reflexivity). apply IH.
      intros q' Hq'. apply Hno. right. exact Hq'.
    + intros a Ha. left. exact Ha.
    + intros e He. apply in_app_or in He. destruct He as [He|[<-|[]]]; [left; exact He|].
      right. reflexivity.
    + intros l Hl. apply in_app_or in Hl. destruct Hl as [Hl|Hl]; [left; exact Hl|].
      right. apply line_rows_accounts in Hl. destruct Hl as (q & _ & _ & Hentry).
      unfold policy_journal_entry_lines. apply existsb_exists.
      eexists. split; [apply in_or_app; right; left; reflexivity|].
      unfold policy_journal_entries. cbn. rewrite Hentry, !N.eqb_refl. reflexivity.
    + intros b' Hb'. apply in_map_iff in Hb'. destruct Hb' as (b & <- & Hb).
      destruct (policy_account_balances T (db w) b) eqn:Hpol.
      * right. unfold policy_account_balances in *. rewrite apply_to_row_id. exact Hpol.
      * left.
        assert (Hsame : apply_to_row now ls b = b).
        { unfold apply_to_row.
          assert (Hno : forall q, In q ls ->
                    (AccountBalance.AccountID b =? CreateJournalEntryLineParams.AccountID q)%N
                    = false).
          { intros q Hq. destruct (N.eqb_spec (AccountBalance.AccountID b)
                                     (CreateJournalEntryLineParams.AccountID q)) as [Heq|];
              [|reflexivity].
            exfalso. rewrite forallb_forall in Hvalid. specialize (Hvalid q Hq).
            unfold policy_account_balances in Hpol. rewrite Heq in Hpol.
            rewrite Hvalid in Hpol. discriminate Hpol. }
          clear -Hno. induction ls as [|q ls IH]; cbn [fold_left]; [reflexivity|].
          rewrite (Hno q) by (left; reflexivity). apply IH.
          intros q' Hq'. apply Hno. right. exact Hq'. }
        rewrite Hsame. exact Hb.
Qed.

(** ** What a read returns *)

Section Reads.

Variable E : SqlEngine.

Lemma AccountRepository_GetByID_inl ctx T a w w' account :
  AccountRepository_GetByID E ctx T a w = (inl account, w') ->
  owns_account T (db w) account /\ Account.ID account = a.
Proof.
  intros H.
  unfold AccountRepository_GetByID, DB_WithTenant, pool_Acquire, defer, Conn_Release,
    Conn_QueryRow, bind, wrapf, ret in H.
  destruct (roundtrip_cases ctx w) as [[Hd Hrt]|[Hd Hrt]]; rewrite Hrt in H; clear Hrt;
    [discriminate|]. cbn in H.
  match type of H with context [roundtrip ctx ?x] =>
    destruct (roundtrip_cases ctx x) as [[Hd1 Hrt]|[Hd1 Hrt]]; rewrite Hrt in H; clear Hrt end;
    [discriminate|]. cbn in H.
  match type of H with context [roundtrip ctx ?x] =>
    destruct (roundtrip_cases ctx x) as [[Hd2 Hrt]|[Hd2 Hrt]]; rewrite Hrt in H; clear Hrt end;
    [discriminate|]. cbn in H.
  destruct (filter (fun r => (Account.ID r =? a)%N) (from_accounts E T (db w)))
    as [|row rows] eqn:Hf; cbn [first_row] in H; [discriminate|].
  assert (Hin : In row (filter (fun r => (Account.ID r =? a)%N) (from_accounts E T (db w))))
    by (rewrite Hf; left; reflexivity).
  apply filter_In in Hin. destruct Hin as [Hin Hid].
  unfold from_accounts in Hin. apply scan_In, filter_In in Hin. destruct Hin as [Hin Hpol].
  injection H as <- _. split; [split; [exact Hin|apply N.eqb_eq; exact Hpol]|].
  apply N.eqb_eq. exact Hid.
Qed.

Lemma AccountRepository_List_inl ctx T ty cur limit offset w w' rows total :
  AccountRepository_List E ctx T ty cur limit offset w = (inl (rows, total), w') ->
  forall a, In a rows -> owns_account T (db w) a.
Proof.
  intros H.
  unfold AccountRepository_List, DB_WithTenant, pool_Acquire, defer, Conn_Release,
    Conn_QueryRow, Conn_Query, bind, wrapf, ret in H.
  destruct (roundtrip_cases ctx w) as [[Hd Hrt]|[Hd Hrt]]; rewrite Hrt in H; clear Hrt;
    [discriminate|]. cbn in H.
  match type of H with context [roundtrip ctx ?x] =>
    destruct (roundtrip_cases ctx x) as [[Hd1 Hrt]|[Hd1 Hrt]]; rewrite Hrt in H; clear Hrt end;
    [discriminate|]. cbn in H.
  match type of H with context [roundtrip ctx ?x] =>
    destruct (roundtrip_cases ctx x) as [[Hd2 Hrt]|[Hd2 Hrt]]; rewrite Hrt in H; clear Hrt end;
    [discriminate|]. cbn in H.
  match type of H with context [roundtrip ctx ?x] =>
    destruct (roundtrip_cases ctx x) as [[Hd3 Hrt]|[Hd3 Hrt]]; rewrite Hrt in H; clear Hrt end;
    [discriminate|]. cbn in H.
  unfold limit_offset in H.
  destruct (limit <? 0); [discriminate|]. destruct (offset <? 0); [discriminate|].
  injection H as <- _ _. intros a Ha.
  apply In_firstn, In_skipn in Ha.
  apply (Permutation_in _ (order_by_perm _ _)) in Ha.
  apply filter_In in Ha. destruct Ha as [Ha _].
  unfold from_accounts in Ha. apply scan_In, filter_In in Ha. destruct Ha as [Ha Hpol].
  split; [exact Ha|apply N.eqb_eq; exact Hpol].
Qed.

Lemma stored_lines_owned T id tb l :
  In l (order_by line_oldest_first
          (filter (fun l => (JournalEntryLine.JournalEntryID l =? id)%N)
                  (from_journal_entry_lines E T tb))) ->
  In l (journal_entry_lines tb) /\ JournalEntryLine.JournalEntryID l = id.
Proof.
  intros Hl. apply (Permutation_in _ (order_by_perm _ _)) in Hl.
  apply filter_In in Hl. destruct Hl as [Hl Hid].
  unfold from_journal_entry_lines in Hl. apply scan_In, filter_In in Hl.
  split; [apply Hl|apply N.eqb_eq; exact Hid].
Qed.

Lemma JournalRepository_GetByID_owned ctx T id w w' entry :
  JournalRepository_GetByID E ctx T id w = (inl entry, w') ->
  owns_entry T (db w) entry /\ JournalEntry.ID entry = id.
Proof.
  intros H. apply JournalRepository_GetByID_inl in H.
  destruct H as (row & Hin & Hid & Ht & ->).
  unfold owns_entry. rewrite entry_header_scan_entry.
  destruct row; cbn in *. subst.
  split; [split; [exact Hin|split; [reflexivity|]]|reflexivity].
  intros l Hl. apply stored_lines_owned in Hl. exact Hl.
Qed.

Lemma getLinesByJournalEntryID_inl ctx conn id w w' lines :
  getLinesByJournalEntryID E ctx conn id w = (inl lines, w') ->
  db w' = db w /\
  lines = order_by line_oldest_first
            (filter (fun l => (JournalEntryLine.JournalEntryID l =? id)%N)
                    (from_journal_entry_lines E (conn_tenantID conn) (db w))).
Proof.
  unfold getLinesByJournalEntryID, Conn_Query, bind, wrapf.
  destruct (roundtrip_cases ctx w) as [[Hd Hrt]|[Hd Hrt]]; rewrite Hrt; clear Hrt;
    [discriminate|].
  cbn [db]. intros H. injection H as <- <-. split; reflexivity.
Qed.

Lemma mapM_entries_owned ctx conn (rows : list JournalEntryRow.t) :
  forall w entries w',
    mapM (fun row =>
            bind (wrapf "failed to get journal entry lines"
                    (getLinesByJournalEntryID E ctx conn (JournalEntryRow.id row)))
                 (fun lines => ret (scan_entry row lines)))
         rows w = (inl entries, w') ->
    forall e, In e entries ->
      In (entry_header e) rows /\
      forall l, In l (JournalEntry.Lines e) ->
                In l (journal_entry_lines (db w)) /\
                JournalEntryLine.JournalEntryID l = JournalEntry.ID e.
Proof.
  induction rows as [|row rows IH]; intros w entries w' H e He.
  - injection H as <- _. destruct He.
  - cbn [mapM] in H. unfold bind at 1 in H.
    destruct (bind _ _ w) as [[entry|err] w1] eqn:H1; [|discriminate].
    unfold bind at 1 in H.
    destruct (mapM _ rows w1) as [[rest|err] w2] eqn:H2; [|discriminate].
    injection H as <- _.
    unfold bind, wrapf, ret in H1.
    destruct (getLinesByJournalEntryID E ctx conn (JournalEntryRow.id row) w)
      as [[lines|err] w3] eqn:Hg; [|discriminate].
    injection H1 as <- <-.
    apply getLinesByJournalEntryID_inl in Hg. destruct Hg as [Hdb ->].
    destruct He as [<-|He].
    + rewrite entry_header_scan_entry. split; [left; reflexivity|].
      intros l Hl. destruct row; cbn in Hl |- *.
      apply stored_lines_owned in Hl. exact Hl.
    + destruct (IH _ _ _ H2 e He) as [Hh Hl]. split; [right; exact Hh|].
      rewrite Hdb in Hl. exact Hl.
Qed.

Lemma JournalRepository_List_owned ctx T acc f t limit offset w w' entries total :
  JournalRepository_List E ctx T acc f t limit offset w = (inl (entries, total), w') ->
  forall e, In e entries -> owns_entry T (db w) e.
Proof.
  intros H.
  unfold JournalRepository_List, DB_WithTenant, pool_Acquire, defer, Conn_Release,
    Conn_QueryRow, Conn_Query in H.
  unfold bind at 1 in H. unfold wrapf at 1 in H. unfold bind at 1 in H.
  unfold wrapf at 1 in H.
  destruct (roundtrip_cases ctx w) as [[Hd Hrt]|[Hd Hrt]]; rewrite Hrt in H; clear Hrt;
    [discriminate|].
  unfold bind at 1 in H. unfold wrapf at 1 in H.
  match type of H with context [roundtrip ctx ?x] =>
    destruct (roundtrip_cases ctx x) as [[Hd1 Hrt]|[Hd1 Hrt]]; rewrite Hrt in H; clear Hrt end;
    [discriminate|].
  cbn [ret] in H.
  unfold bind at 1 in H. unfold wrapf at 1 in H. unfold bind at 1 in H.
  match type of H with context [roundtrip ctx ?x] =>
    destruct (roundtrip_cases ctx x) as [[Hd2 Hrt]|[Hd2 Hrt]]; rewrite Hrt in H; clear Hrt end;
    [discriminate|].
  cbn [first_row db] in H.
  unfold bind at 1 in H. unfold wrapf at 1 in H. unfold bind at 1 in H.
  match type of H with context [roundtrip ctx ?x] =>
    destruct (roundtrip_cases ctx x) as [[Hd3 Hrt]|[Hd3 Hrt]]; rewrite Hrt in H; clear Hrt end;
    [discriminate|].
  cbn [db] in H. unfold limit_offset in H.
  destruct (limit <? 0); [discriminate|]. destruct (offset <? 0); [discriminate|].
  unfold bind at 1 in H.
  match type of H with context [mapM ?f ?rows ?x] =>
    destruct (mapM f rows x) as [[es|err] w4] eqn:Hm end; [|discriminate].
  cbn [ret] in H. injection H as <- _ _.
  intros e He.
  destruct (mapM_entries_owned _ _ _ _ _ _ Hm e He) as [Hh Hl]. cbn [db] in Hl.
  cbn [conn_tenantID] in Hh.
  apply In_firstn, In_skipn in Hh.
  apply (Permutation_in _ (order_by_perm _ _)) in Hh.
  apply nodup_In in Hh.
  assert (Hsel : In (entry_header e) (journal_entries (db w)) /\
                 JournalEntryRow.tenant_id (entry_header e) = T).
  { unfold list_selection in Hh. apply filter_In in Hh. destruct Hh as [Hh _].
    assert (Hje : In (entry_header e) (from_journal_entries E T (db w))).
    { destruct acc as [a|]; [|exact Hh].
      apply in_map_iff in Hh. destruct Hh as ([e' l] & Hfst & Hin). cbn in Hfst. subst e'.
      apply filter_In in Hin. destruct Hin as [Hin _].
      apply inner_join_In in Hin. apply Hin. }
    unfold from_journal_entries in Hje. apply scan_In, filter_In in Hje.
    destruct Hje as [Hje Hpol]. split; [exact Hje|apply N.eqb_eq; exact Hpol]. }
  destruct Hsel as [Hin Ht]. split; [exact Hin|]. split; [exact Ht|exact Hl].
Qed.

End Reads.

(** ** The handlers, one by one *)

Section Isolation.

Variable E : SqlEngine.

Lemma AccountRepository_Create_owned ctx T p w w' account :
  AccountRepository_Create E ctx T p w = (inl account, w') ->
  owns_account T (db w') account.
Proof.
  intros H.
  destruct (AccountRepository_Create_cases E ctx T p w)
    as [(e & w1 & Hc & _)|(id & tb & ids & _ & Hc)]; rewrite Hc in H; clear Hc;
    [discriminate|].
  pose proof (readonly_AccountRepository_GetByID E ctx T id _ _ _ H) as (Hd & _).
  apply AccountRepository_GetByID_inl in H. rewrite Hd. apply H.
Qed.

Lemma JournalRepository_Create_owned ctx T p w w' entry :
  JournalRepository_Create E ctx T p w = (inl entry, w') ->
  owns_entry T (db w') entry.
Proof.
  intros H.
  destruct (JournalRepository_Create_cases E ctx T p w)
    as [(e & w1 & Hc & _)|(id & tb & ids & _ & Hc)]; rewrite Hc in H; clear Hc;
    [discriminate|].
  pose proof (readonly_JournalRepository_GetByID E ctx T id _ _ _ H) as (Hd & _).
  apply JournalRepository_GetByID_owned in H. rewrite Hd. apply H.
Qed.

Lemma CreateAccount_reveals ctx req T w w' resp :
  uuid.Parse (pb.CreateAccount_TenantId req) = Some T ->
  CreateAccount (ledger E) ctx req w = (inl resp, w') ->
  reveals_only T (db w') (CreateAccountResp resp).
Proof.
  intros Ht H. unfold CreateAccount, bind, parsed, require, orStatus, ret, fail in H.
  rewrite Ht in H.
  destruct (negb (String.eqb (pb.CreateAccount_AccountNumber req) "")); [|discriminate].
  destruct (negb (String.eqb (pb.CreateAccount_Name req) "")); [|discriminate].
  cbn [ledger accountRepo NewAccountRepository AccountRepo_Create] in H.
  destruct (pb.CreateAccount_ParentAccountId req) as [text|].
  - destruct (uuid.Parse text); [|discriminate].
    destruct (AccountRepository_Create E ctx T _ w) as [[a|e] w1] eqn:Hc; [|discriminate].
    injection H as <- <-. exists a. split; [|reflexivity].
    eapply AccountRepository_Create_owned. exact Hc.
  - destruct (AccountRepository_Create E ctx T _ w) as [[a|e] w1] eqn:Hc; [|discriminate].
    injection H as <- <-. exists a. split; [|reflexivity].
    eapply AccountRepository_Create_owned. exact Hc.
Qed.

Lemma GetAccount_parsed ctx req T a w :
  uuid.Parse (pb.GetAccount_TenantId req) = Some T ->
  uuid.Parse (pb.GetAccount_AccountId req) = Some a ->
  GetAccount (ledger E) ctx req w =
  match AccountRepository_GetByID E ctx T a w with
  | (inl account, w') => (inl (pb.mkGetAccountResponse (accountToProto account)), w')
  | (inr err, w') => (inr (status_Errorf codes.NotFound "account not found" err), w')
  end.
Proof.
  intros Ht Ha. unfold GetAccount, bind, parsed, orStatus, ret. rewrite Ht, Ha.
  cbn [ledger accountRepo NewAccountRepository AccountRepo_GetByID].
  destruct (AccountRepository_GetByID E ctx T a w) as [[account|err] w']; reflexivity.
Qed.

Lemma GetAccountBalance_parsed ctx req T a w :
  uuid.Parse (pb.GetAccountBalance_TenantId req) = Some T ->
  uuid.Parse (pb.GetAccountBalance_AccountId req) = Some a ->
  GetAccountBalance (ledger E) ctx req w =
  match AccountRepository_GetBalance E ctx T a w with
  | (inl balance, w') =>
      (inl (pb.mkGetAccountBalanceResponse
              (uuid.String (AccountBalance.AccountID balance))
              (decimal.String (AccountBalance.DebitBalance balance))
              (decimal.String (AccountBalance.CreditBalance balance))
              (decimal.String (Sub (AccountBalance.DebitBalance balance)
                                   (AccountBalance.CreditBalance balance)))
              (AccountBalance.UpdatedAt balance)), w')
  | (inr err, w') => (inr (status_Errorf codes.NotFound "balance not found" err), w')
  end.
Proof.
  intros Ht Ha. unfold GetAccountBalance, bind, parsed, orStatus, ret. rewrite Ht, Ha.
  cbn [ledger accountRepo NewAccountRepository AccountRepo_GetBalance].
  destruct (AccountRepository_GetBalance E ctx T a w) as [[balance|err] w']; reflexivity.
Qed.

Lemma balance_row_owner T tb row :
  policy_account_balances T tb row = true ->
  exists a, owns_account T tb a /\ Account.ID a = AccountBalance.AccountID row.
Proof.
  unfold policy_account_balances. intros H. apply existsb_exists in H.
  destruct H as (a & Ha & Hm). apply andb_true_iff in Hm. destruct Hm as [Hid Ht].
  exists a. split; [split; [exact Ha|apply N.eqb_eq; exact Ht]|apply N.eqb_eq; exact Hid].
Qed.

Lemma serve_reveals json_Unmarshal ctx call T w w' resp :
  scope_of call = Some T ->
  serve json_Unmarshal (ledger E) ctx call w = (inl resp, w') ->
  reveals_only T (db w') resp.
Proof.
  destruct call as [req|req|req|req|req|req|req|req|req]; cbn [scope_of serve];
    intros Ht H; try discriminate Ht; unfold answer in H.
  - (* CreateAccount *)
    destruct (CreateAccount (ledger E) ctx req w) as [[r|st] w1] eqn:Hh; [|discriminate].
    injection H as <- <-. eapply CreateAccount_reveals; eassumption.
  - (* GetAccount *)
    destruct (GetAccount (ledger E) ctx req w) as [[r|st] w1] eqn:Hh; [|discriminate].
    injection H as <- <-.
    unfold GetAccount, bind, parsed, orStatus, ret, fail in Hh. rewrite Ht in Hh.
    destruct (uuid.Parse (pb.GetAccount_AccountId req)) as [a|]; [|discriminate].
    cbn [ledger accountRepo NewAccountRepository AccountRepo_GetByID] in Hh.
    destruct (AccountRepository_GetByID E ctx T a w) as [[account|err] w2] eqn:Hg;
      [|discriminate].
    injection Hh as <- <-.
    pose proof (readonly_AccountRepository_GetByID E ctx T a _ _ _ Hg) as (Hd & _).
    apply AccountRepository_GetByID_inl in Hg.
    exists account. rewrite Hd. split; [apply Hg|reflexivity].
  - (* ListAccounts *)
    destruct (ListAccounts (ledger E) ctx req w) as [[r|st] w1] eqn:Hh; [|discriminate].
    injection H as <- <-.
    unfold ListAccounts, bind, parsed, orStatus, ret, fail in Hh. rewrite Ht in Hh.
    cbn [ledger accountRepo NewAccountRepository AccountRepo_List] in Hh.
    destruct (AccountRepository_List E ctx T _ _ _ _ w) as [[[rows total]|err] w2] eqn:Hg;
      [|discriminate].
    injection Hh as <- <-.
    pose proof (readonly_AccountRepository_List E ctx T _ _ _ _ _ _ _ Hg) as (Hd & _).
    intros pa Hpa. cbn in Hpa. apply in_map_iff in Hpa. destruct Hpa as (a & <- & Ha).
    exists a. rewrite Hd. split; [|reflexivity].
    eapply AccountRepository_List_inl; eassumption.
  - (* GetAccountBalance *)
    destruct (GetAccountBalance (ledger E) ctx req w) as [[r|st] w1] eqn:Hh; [|discriminate].
    injection H as <- <-.
    apply GetAccountBalance_inv in Hh.
    destruct Hh as (T' & a & balance & Ht' & Ha & Hg & ->).
    rewrite Ht in Ht'. injection Ht' as <-.
    cbn [ledger accountRepo NewAccountRepository AccountRepo_GetBalance] in Hg.
    pose proof (readonly_AccountRepository_GetBalance E ctx T a _ _ _ Hg) as (Hd & _).
    apply AccountRepository_GetBalance_inl in Hg.
    destruct Hg as (row & Hin & Hid & Hpol & ->).
    destruct (balance_row_owner T (db w) row Hpol) as (acc & Hown & Hacc).
    exists acc, row. rewrite Hd.
    split; [exact Hown|]. split; [exact Hin|]. split; [symmetry; exact Hacc|].
    cbn. rewrite Hacc, Hid. reflexivity.
  - (* CreateJournalEntry *)
    destruct (CreateJournalEntry json_Unmarshal (ledger E) ctx req w) as [[r|st] w1] eqn:Hh;
      [|discriminate].
    injection H as <- <-.
    destruct (CreateJournalEntry_cases json_Unmarshal (ledger E) ctx req w)
      as [(msg & Hv)|(T' & lines & metadata & Ht' & Hlen & Hlines & Hm)].
    { rewrite Hv in Hh. discriminate Hh. }
    rewrite (CreateJournalEntry_validated json_Unmarshal (ledger E) ctx req w
               T' lines metadata Ht' Hlen Hlines Hm) in Hh.
    rewrite Ht in Ht'. injection Ht' as <-.
    cbn [ledger journalRepo NewJournalRepository JournalRepo_Create] in Hh.
    destruct (JournalRepository_Create E ctx T _ w) as [[entry|e] w2] eqn:Hc; [|discriminate].
    injection Hh as <- <-. exists entry. split; [|reflexivity].
    eapply JournalRepository_Create_owned. exact Hc.
  - (* GetJournalEntry *)
    destruct (GetJournalEntry (ledger E) ctx req w) as [[r|st] w1] eqn:Hh; [|discriminate].
    injection H as <- <-.
    unfold GetJournalEntry, bind, parsed, orStatus, ret, fail in Hh. rewrite Ht in Hh.
    destruct (uuid.Parse (pb.GetJournalEntry_JournalEntryId req)) as [id|]; [|discriminate].
    cbn [ledger journalRepo NewJournalRepository JournalRepo_GetByID] in Hh.
    destruct (JournalRepository_GetByID E ctx T id w) as [[entry|err] w2] eqn:Hg;
      [|discriminate].
    injection Hh as <- <-.
    pose proof (readonly_JournalRepository_GetByID E ctx T id _ _ _ Hg) as (Hd & _).
    apply JournalRepository_GetByID_owned in Hg.
    exists entry. rewrite Hd. split; [apply Hg|reflexivity].
  - (* ListJournalEntries *)
    destruct (ListJournalEntries (ledger E) ctx req w) as [[r|st] w1] eqn:Hh; [|discriminate].
    injection H as <- <-.
    unfold ListJournalEntries, bind, parsed, orStatus, ret, fail in Hh. rewrite Ht in Hh.
    cbn [ledger journalRepo NewJournalRepository JournalRepo_List] in Hh.
    assert (Hgen : forall acc limit offset entries total w2,
               JournalRepository_List E ctx T acc
                 (pb.ListJournalEntries_FromDate req) (pb.ListJournalEntries_ToDate req)
                 limit offset w = (inl (entries, total), w2) ->
               reveals_only T (db w2)
                 (ListJournalEntriesResp
                    (pb.mkListJournalEntriesResponse
                       (map journalEntryToProto entries) (int32 total)))).
    { intros acc limit offset entries total w2 Hg.
      pose proof (readonly_JournalRepository_List E ctx T _ _ _ _ _ _ _ _ Hg) as (Hd & _).
      intros pe Hpe. cbn in Hpe. apply in_map_iff in Hpe. destruct Hpe as (e & <- & He).
      exists e. rewrite Hd. split; [|reflexivity].
      eapply JournalRepository_List_owned; eassumption. }
    destruct (pb.ListJournalEntries_AccountId req) as [text|].
    + destruct (uuid.Parse text) as [aid|]; [|discriminate].
      match type of Hh with context [JournalRepository_List E ctx T ?f ?a ?b ?c ?d w] =>
        destruct (JournalRepository_List E ctx T f a b c d w)
          as [[[entries total]|err] w2] eqn:Hg; [|discriminate]
      end.
      injection Hh as <- <-. eapply Hgen. exact Hg.
    + match type of Hh with context [JournalRepository_List E ctx T ?f ?a ?b ?c ?d w] =>
        destruct (JournalRepository_List E ctx T f a b c d w)
          as [[[entries total]|err] w2] eqn:Hg; [|discriminate]
      end.
      injection Hh as <- <-. eapply Hgen. exact Hg.
Qed.

End Isolation.

Section ForeignIds.

Variable E : SqlEngine.

Lemma serve_foreign_id json_Unmarshal ctx call T w r w' :
  scope_of call = Some T ->
  serve json_Unmarshal (ledger E) ctx call w = (r, w') ->
  asks_for_foreign_row T (db w) call ->
  exists st, r = inr st /\ Code st = codes.NotFound.
Proof.
  destruct call as [req|req|req|req|req|req|req|req|req]; cbn [scope_of serve];
    intros Ht H Hf; try discriminate Ht; try contradiction Hf; unfold answer in H;
    destruct Hf as (a & Ha & Hf).
  - rewrite (GetAccount_parsed E ctx req T a w Ht Ha) in H.
    destruct (AccountRepository_GetByID E ctx T a w) as [[account|err] w1] eqn:Hg.
    + exfalso. apply AccountRepository_GetByID_inl in Hg.
      destruct Hg as ((Hin & Hten) & Hid). exact (Hf account Hin Hid Hten).
    + injection H as <- _. eexists. split; reflexivity.
  - rewrite (GetAccountBalance_parsed E ctx req T a w Ht Ha) in H.
    destruct (AccountRepository_GetBalance E ctx T a w) as [[balance|err] w1] eqn:Hg.
    + exfalso. apply AccountRepository_GetBalance_inl in Hg.
      destruct Hg as (row & Hin & Hid & Hpol & _).
      destruct (balance_row_owner T (db w) row Hpol) as (acc & (Hacc & Hten) & Hx).
      apply (Hf acc Hacc); [rewrite Hx; exact Hid|exact Hten].
    + injection H as <- _. eexists. split; reflexivity.
  - rewrite (GetJournalEntry_parsed (ledger E) ctx req w T a Ht Ha) in H.
    cbn [ledger journalRepo NewJournalRepository JournalRepo_GetByID] in H.
    destruct (JournalRepository_GetByID E ctx T a w) as [[entry|err] w1] eqn:Hg.
    + exfalso. apply JournalRepository_GetByID_inl in Hg.
      destruct Hg as (row & Hin & Hid & Hten & _). exact (Hf row Hin Hid Hten).
    + injection H as <- _. eexists. split; reflexivity.
Qed.

End ForeignIds.

(** C3.  A call bound to tenant [T] (CreateAccount, GetAccount, ListAccounts,
    GetAccountBalance, CreateJournalEntry, GetJournalEntry or
    ListJournalEntries) answers only with rows of [T]; every row of another
    tenant is in the tables after the call exactly as it was before, and
    every row that the call added belongs to [T]; and a call that names, by
    its exact id, an account or an entry that is not [T]'s is answered
    NotFound. *)
Theorem tenant_isolation (json_Unmarshal : string -> option (option JSONObject))
  (E : SqlEngine) (ctx : Context) (call : Request) (T : UUID)
  (w w' : World) (r : Response + Status) :
  scope_of call = Some T ->
  serve json_Unmarshal (ledger E) ctx call w = (r, w') ->
  (forall resp, r = inl resp -> reveals_only T (db w') resp) /\
  foreign_rows_kept T (db w) (db w') /\
  new_rows_owned T (db w) (db w') /\
  (asks_for_foreign_row T (db w) call ->
   exists st, r = inr st /\ Code st = codes.NotFound).
Proof.
  intros Ht H.
  pose proof (serve_committed E json_Unmarshal ctx call w r w' H) as Hc.
  rewrite Ht in Hc. apply committed_foreign_rows in Hc. destruct Hc as [Hk Hn].
  split; [|split; [exact Hk|split; [exact Hn|]]].
  - intros resp ->. eapply serve_reveals; eassumption.
  - intros Hf. eapply serve_foreign_id; eassumption.
Qed.

Lemma tenant_isolation_witness :
  scope_of (GetAccountReq foreign_account_request) = uuid.Parse acme_id /\
  map (fun a => (uuid.String (Account.ID a), uuid.String (Account.TenantID a),
                 Account.Name a))
      (accounts (db two_tenants_world))
  = [(cash_id, acme_id, "Cash"); (revenue_id, acme_id, "Revenue");
     (globex_cash_id, globex_id, "Cash")] /\
  (exists st,
      fst (serve json_Unmarshal_small (ledger heap_order) None
             (GetAccountReq foreign_account_request) two_tenants_world) = inr st /\
      Code st = codes.NotFound) /\
  foreign_rows_kept 1%N (db two_tenants_world)
    (db (snd (serve json_Unmarshal_small (ledger heap_order) None
                (GetAccountReq foreign_account_request) two_tenants_world))).
Proof.
  split; [vm_compute; reflexivity|]. split; [vm_compute; reflexivity|].
  destruct (tenant_isolation json_Unmarshal_small heap_order None
              (GetAccountReq foreign_account_request) 1%N two_tenants_world
              (snd (serve json_Unmarshal_small (ledger heap_order) None
                      (GetAccountReq foreign_account_request) two_tenants_world))
              (fst (serve json_Unmarshal_small (ledger heap_order) None
                      (GetAccountReq foreign_account_request) two_tenants_world)))
    as (_ & Hkept & _ & Hforeign).
  - vm_compute; reflexivity.
  - apply surjective_pairing.
  - split; [|exact Hkept].
    apply Hforeign. exists 8%N. split; [vm_compute; reflexivity|].
    assert (Hall : forallb (fun row => negb (Account.ID row =? 8)%N
                                       || negb (Account.TenantID row =? 1)%N)
                           (accounts (db two_tenants_world)) = true)
      by (vm_compute; reflexivity).
    rewrite forallb_forall in Hall.
    intros row Hin Hid Hten. specialize (Hall row Hin).
    rewrite Hid, Hten in Hall. discriminate Hall.
Defined.

(** * Further properties of the code *)

(** ** Request validation in the handlers *)

(** X1.  Every handler that takes a tenant id answers a tenant id that is no
    UUID with [InvalidArgument], message "invalid tenant ID", before anything
    else: the world is left as it was, whatever repositories the service
    runs on. *)
Theorem invalid_tenant_id_rejected
  (json_Unmarshal : string -> option (option JSONObject))
  (s : LedgerService) (ctx : Context) (call : Request) (w : World) (text : string) :
  tenant_id_of call = Some text ->
  uuid.Parse text = None ->
  serve json_Unmarshal s ctx call w
  = (inr (mkStatus codes.InvalidArgument "invalid tenant ID"), w).
Proof.
  intros Hid Hp.
  destruct call as [req|req|req|req|req|req|req|req|req]; cbn [tenant_id_of] in Hid;
    try discriminate Hid; injection Hid as <-; cbn [serve]; unfold answer.
  - unfold GetTenant, bind, parsed, fail. rewrite Hp. reflexivity.
  - unfold CreateAccount, bind, parsed, fail. rewrite Hp. reflexivity.
  - unfold GetAccount, bind, parsed, fail. rewrite Hp. reflexivity.
  - unfold ListAccounts, bind, parsed, fail. rewrite Hp. reflexivity.
  - unfold GetAccountBalance, bind, parsed, fail. rewrite Hp. reflexivity.
  - unfold CreateJournalEntry, bind, parsed, fail. rewrite Hp. reflexivity.
  - unfold GetJournalEntry, bind, parsed, fail. rewrite Hp. reflexivity.
  - unfold ListJournalEntries, bind, parsed, fail. rewrite Hp. reflexivity.
Qed.

Lemma invalid_tenant_id_rejected_witness :
  uuid.Parse "invalid-uuid" = None /\
  serve json_Unmarshal_small (ledger heap_order) None
    (GetAccountReq invalid_tenant_request) (acme_world heap_order)
  = (inr (mkStatus codes.InvalidArgument "invalid tenant ID"), acme_world heap_order).
Proof.
  split; [vm_compute; reflexivity|].
  apply (invalid_tenant_id_rejected json_Unmarshal_small (ledger heap_order) None
           (GetAccountReq invalid_tenant_request) (acme_world heap_order) "invalid-uuid").
  - reflexivity.
  - vm_compute. reflexivity.
Defined.

(** Case analysis of an unfolded handler, innermost scrutinee first. *)
Ltac atomic c :=
  lazymatch c with
  | context [match _ with Some _ => _ | None => _ end] => fail
  | context [if _ then _ else _] => fail
  | context [match _ with inl _ => _ | inr _ => _ end] => fail
  | context [match _ with (_, _) => _ end] => fail
  | _ => idtac
  end.

Ltac classify :=
  repeat match goal with
         | |- context [match ?o with Some _ => _ | None => _ end] => atomic o; destruct o
         | |- context [if ?b then _ else _] => atomic b; destruct b
         | |- context [match ?c with inl _ => _ | inr _ => _ end] => atomic c; destruct c
         | |- context [match ?c with (_, _) => _ end] => atomic c; destruct c
         end;
  let H := fresh "H" in
  intros H; try discriminate H; injection H as <- <-;
  first [left; split; reflexivity | right; reflexivity].

Lemma CreateJournalEntry_invalid_argument
  (json_Unmarshal : string -> option (option JSONObject))
  (s : LedgerService) (ctx : Context) (req : pb.CreateJournalEntryRequest)
  (w w' : World) (st : Status) :
  CreateJournalEntry json_Unmarshal s ctx req w = (inr st, w') ->
  (Code st = codes.InvalidArgument /\ w' = w) \/ Code st = codes.Internal.
Proof.
  unfold CreateJournalEntry, bind, parsed, require, orStatus, ret, fail.
  destruct (uuid.Parse (pb.CreateJournalEntry_TenantId req)) as [tenantID|].
  2:{ intros H. injection H as <- <-. left. split; reflexivity. }
  destruct (negb (List.length (pb.CreateJournalEntry_Lines req) <? 2)%nat).
  2:{ intros H. injection H as <- <-. left. split; reflexivity. }
  destruct (parse_lines 0 (pb.CreateJournalEntry_Lines req)) as [lines|e] eqn:Hl.
  2:{ intros H. injection H as <- <-. left.
      split; [eapply parse_lines_error_code; exact Hl|reflexivity]. }
  destruct (pb.CreateJournalEntry_Metadata req) as [text|].
  - destruct (String.eqb text "").
    + destruct (JournalRepo_Create _ _ _ _ w) as [[entry|err] w1];
        intros H; [discriminate|]. injection H as <- _. right. reflexivity.
    + destruct (json_Unmarshal text) as [m|].
      * destruct (JournalRepo_Create _ _ _ _ w) as [[entry|err] w1];
          intros H; [discriminate|]. injection H as <- _. right. reflexivity.
      * intros H. injection H as <- <-. left. split; reflexivity.
  - destruct (JournalRepo_Create _ _ _ _ w) as [[entry|err] w1];
      intros H; [discriminate|]. injection H as <- _. right. reflexivity.
Qed.

(** X2.  Whatever repositories the service runs on, a call that fails is
    answered [InvalidArgument] or with the code the handler gives to a
    failure of its repository ([NotFound] for GetTenant, GetAccount,
    GetAccountBalance and GetJournalEntry, [Internal] for the other calls);
    and a call answered [InvalidArgument] has left the world as it was. *)
Theorem failures_classified
  (json_Unmarshal : string -> option (option JSONObject))
  (s : LedgerService) (ctx : Context) (call : Request) (w w' : World) (st : Status) :
  serve json_Unmarshal s ctx call w = (inr st, w') ->
  (Code st = codes.InvalidArgument /\ w' = w) \/
  (Code st = repository_failure_code call).
Proof.
  destruct call as [req|req|req|req|req|req|req|req|req];
    cbn [serve repository_failure_code]; unfold answer; intros H.
  - revert H. unfold CreateTenant, bind, parsed, require, orStatus, ret, fail. classify.
  - revert H. unfold GetTenant, bind, parsed, require, orStatus, ret, fail. classify.
  - revert H. unfold CreateAccount, bind, parsed, require, orStatus, ret, fail. classify.
  - revert H. unfold GetAccount, bind, parsed, require, orStatus, ret, fail. classify.
  - revert H. unfold ListAccounts, bind, parsed, require, orStatus, ret, fail. classify.
  - revert H. unfold GetAccountBalance, bind, parsed, require, orStatus, ret, fail. classify.
  - destruct (CreateJournalEntry json_Unmarshal s ctx req w) as [[r|st'] w1] eqn:Hh;
      [discriminate|]. injection H as <- <-.
    eapply CreateJournalEntry_invalid_argument. exact Hh.
  - revert H. unfold GetJournalEntry, bind, parsed, require, orStatus, ret, fail. classify.
  - revert H. unfold ListJournalEntries, bind, parsed, require, orStatus, ret, fail. classify.
Qed.

Lemma failures_classified_witness :
  exists (st : Status) (w' : World),
    serve json_Unmarshal_small (ledger heap_order) None
      (GetAccountReq foreign_account_request) two_tenants_world = (inr st, w') /\
    ((Code st = codes.InvalidArgument /\ w' = two_tenants_world) \/
     Code st = codes.NotFound).
Proof.
  eexists _, _. split; [vm_compute; reflexivity|].
  apply (failures_classified json_Unmarshal_small (ledger heap_order) None
           (GetAccountReq foreign_account_request) two_tenants_world).
  vm_compute. reflexivity.
Defined.

(** X3.  CreateTenant with an empty name, and CreateAccount with an empty
    account number, an empty account name or a parent account id that is no
    UUID, are answered [InvalidArgument] with the world left as it was,
    whatever repositories the service runs on; the message names the first
    check that failed, in the order account number, account name, parent. *)
Theorem required_fields_rejected (s : LedgerService) (ctx : Context) (w : World)
  (tenant : pb.CreateTenantRequest) (account : pb.CreateAccountRequest) (T : UUID) :
  pb.CreateTenant_Name tenant = "" ->
  uuid.Parse (pb.CreateAccount_TenantId account) = Some T ->
  pb.CreateAccount_AccountNumber account = "" \/
  pb.CreateAccount_Name account = "" \/
  (exists text, pb.CreateAccount_ParentAccountId account = Some text /\
                uuid.Parse text = None) ->
  CreateTenant s ctx tenant w
  = (inr (mkStatus codes.InvalidArgument "tenant name is required"), w) /\
  CreateAccount s ctx account w
  = (inr (mkStatus codes.InvalidArgument
            (if String.eqb (pb.CreateAccount_AccountNumber account) ""
             then "account number is required"
             else if String.eqb (pb.CreateAccount_Name account) ""
                  then "account name is required"
                  else "invalid parent account ID")), w).
Proof.
  intros Hname Ht Hbad. split.
  - unfold CreateTenant, bind, require, fail. rewrite Hname. reflexivity.
  - unfold CreateAccount, bind, parsed, require, ret, fail. rewrite Ht.
    destruct (String.eqb (pb.CreateAccount_AccountNumber account) "") eqn:En;
      [reflexivity|].
    destruct (String.eqb (pb.CreateAccount_Name account) "") eqn:Ea; [reflexivity|].
    destruct Hbad as [H|[H|(text & Hp & Hx)]].
    + rewrite H in En. discriminate En.
    + rewrite H in Ea. discriminate Ea.
    + cbn [negb]. rewrite Hp, Hx. reflexivity.
Qed.

Lemma required_fields_rejected_witness :
  CreateTenant (ledger heap_order) None (pb.mkCreateTenantRequest "") fresh_world
  = (inr (mkStatus codes.InvalidArgument "tenant name is required"), fresh_world) /\
  CreateAccount (ledger heap_order) None nameless_account_request fresh_world
  = (inr (mkStatus codes.InvalidArgument "account name is required"), fresh_world).
Proof.
  apply (required_fields_rejected (ledger heap_order) None fresh_world
           (pb.mkCreateTenantRequest "") nameless_account_request 1%N).
  - reflexivity.
  - vm_compute. reflexivity.
  - right. left. reflexivity.
Defined.

Lemma parse_lines_parses_to (lines : list pb.JournalEntryLine) :
  forall (i : nat) (ps : list CreateJournalEntryLineParams.t),
    parse_lines i lines = inl ps -> Forall2 parses_to lines ps.
Proof.
  induction lines as [|l rest IH]; intros i ps H.
  - injection H as <-. constructor.
  - cbn [parse_lines] in H.
    destruct (uuid.Parse (pb.Line_AccountId l)) eqn:Ea; [|discriminate].
    destruct (NewFromString (pb.Line_Debit l)) eqn:Ed; [|discriminate].
    destruct (NewFromString (pb.Line_Credit l)) eqn:Ec; [|discriminate].
    destruct (parse_lines (S i) rest) as [ps'|st] eqn:Hrest; [|discriminate].
    injection H as <-. constructor.
    + repeat split; assumption.
    + eapply IH. exact Hrest.
Qed.

Lemma parse_lines_total (lines : list pb.JournalEntryLine) :
  forallb line_parses lines = true ->
  forall i, exists ps, parse_lines i lines = inl ps.
Proof.
  induction lines as [|l rest IH]; intros Hall i.
  - eexists. reflexivity.
  - cbn [forallb] in Hall. apply andb_true_iff in Hall. destruct Hall as [Hl Hrest].
    unfold line_parses in Hl. cbn [parse_lines].
    destruct (uuid.Parse (pb.Line_AccountId l)); [|discriminate].
    destruct (NewFromString (pb.Line_Debit l)); [|discriminate].
    destruct (NewFromString (pb.Line_Credit l)); [|discriminate].
    destruct (IH Hrest (S i)) as (ps & ->). eexists. reflexivity.
Qed.

(** X4.  A CreateJournalEntry request whose tenant id, lines and metadata
    pass the handler's checks reaches the repository once, with one
    parameter line per request line, in the order of the request, each
    carrying the parsed account id, debit and credit and the description of
    its line; the answer is the repository's entry, or its error as
    [Internal]. *)
Theorem validated_entry_handed_over
  (json_Unmarshal : string -> option (option JSONObject))
  (s : LedgerService) (ctx : Context) (req : pb.CreateJournalEntryRequest) (w : World)
  (tenantID : UUID) (metadata : option JSONObject) :
  uuid.Parse (pb.CreateJournalEntry_TenantId req) = Some tenantID ->
  (2 <= List.length (pb.CreateJournalEntry_Lines req))%nat ->
  forallb line_parses (pb.CreateJournalEntry_Lines req) = true ->
  decode_metadata json_Unmarshal (pb.CreateJournalEntry_Metadata req) = Some metadata ->
  exists lines : list CreateJournalEntryLineParams.t,
    Forall2 parses_to (pb.CreateJournalEntry_Lines req) lines /\
    CreateJournalEntry json_Unmarshal s ctx req w =
    match JournalRepo_Create (journalRepo s) ctx tenantID
            (CreateJournalEntryParams.mk
               (pb.CreateJournalEntry_ReferenceNumber req)
               (pb.CreateJournalEntry_Description req)
               (AsTime (pb.CreateJournalEntry_EntryDate req))
               metadata lines) w with
    | (inl entry, w') =>
        (inl (pb.mkCreateJournalEntryResponse
                (uuid.String (JournalEntry.ID entry))
                (uuid.String (JournalEntry.TenantID entry))
                (JournalEntry.ReferenceNumber entry)
                (JournalEntry.EntryDate entry)
                (JournalEntry.CreatedAt entry)), w')
    | (inr err, w') =>
        (inr (status_Errorf codes.Internal "failed to create journal entry" err), w')
    end.
Proof.
  intros Ht Hlen Hall Hm.
  destruct (parse_lines_total _ Hall 0%nat) as (lines & Hl).
  exists lines. split; [eapply parse_lines_parses_to; exact Hl|].
  apply (CreateJournalEntry_validated json_Unmarshal s ctx req w tenantID lines metadata
           Ht Hlen Hl Hm).
Qed.

Lemma validated_entry_handed_over_witness :
  exists lines : list CreateJournalEntryLineParams.t,
    Forall2 parses_to (pb.CreateJournalEntry_Lines balanced_request) lines /\
    CreateJournalEntry json_Unmarshal_small (ledger heap_order) None balanced_request
      (acme_world heap_order) =
    match JournalRepo_Create (journalRepo (ledger heap_order)) None 1%N
            (CreateJournalEntryParams.mk "INV-001" "Sale of goods" 0 None lines)
            (acme_world heap_order) with
    | (inl entry, w') =>
        (inl (pb.mkCreateJournalEntryResponse
                (uuid.String (JournalEntry.ID entry))
                (uuid.String (JournalEntry.TenantID entry))
                (JournalEntry.ReferenceNumber entry)
                (JournalEntry.EntryDate entry)
                (JournalEntry.CreatedAt entry)), w')
    | (inr err, w') =>
        (inr (status_Errorf codes.Internal "failed to create journal entry" err), w')
    end.
Proof.
  apply (validated_entry_handed_over json_Unmarshal_small (ledger heap_order) None
           balanced_request (acme_world heap_order) 1%N None).
  - vm_compute. reflexivity.
  - cbn. lia.
  - vm_compute. reflexivity.
  - reflexivity.
Defined.

(** ** Calls under a context that is done, and calls that only read *)

Lemma refused_roundtrip ctx : refused ctx (roundtrip ctx).
Proof. intros w Hd. unfold roundtrip. rewrite Hd. eexists. reflexivity. Qed.

Lemma refused_bind {X A B} ctx (c : Comp X A) (k : A -> Comp X B) :
  refused ctx c -> refused ctx (bind c k).
Proof. intros Hc w Hd. destruct (Hc w Hd) as (e & He). unfold bind. rewrite He. eauto. Qed.

Lemma refused_wrapf {A} ctx msg (c : M A) : refused ctx c -> refused ctx (wrapf msg c).
Proof. intros Hc w Hd. destruct (Hc w Hd) as (e & He). unfold wrapf. rewrite He. eauto. Qed.

Lemma refused_orStatus {A} ctx code msg (c : M A) :
  refused ctx c -> refused ctx (orStatus code msg c).
Proof. intros Hc w Hd. destruct (Hc w Hd) as (e & He). unfold orStatus. rewrite He. eauto. Qed.

Lemma refused_parsed {A B} ctx code msg (o : option A) (k : A -> Handler B) :
  (forall a, refused ctx (k a)) -> refused ctx (bind (parsed code msg o) k).
Proof.
  intros Hk w Hd. destruct o as [a|]; cbn [parsed]; unfold bind, ret, fail.
  - apply Hk. exact Hd.
  - eauto.
Qed.

Lemma refused_require {B} ctx code msg (ok : bool) (k : unit -> Handler B) :
  (forall u, refused ctx (k u)) -> refused ctx (bind (require code msg ok) k).
Proof.
  intros Hk w Hd. destruct ok; cbn [require]; unfold bind, ret, fail.
  - apply Hk. exact Hd.
  - eauto.
Qed.

Lemma refused_answer {A} ctx (wrap : A -> Response) (h : Handler A) :
  refused ctx h -> refused ctx (answer wrap h).
Proof. intros Hh w Hd. destruct (Hh w Hd) as (e & He). unfold answer. rewrite He. eauto. Qed.

Lemma refused_DB_WithTenant ctx T : refused ctx (DB_WithTenant ctx T).
Proof.
  unfold DB_WithTenant, pool_Acquire.
  apply refused_bind, refused_wrapf, refused_roundtrip.
Qed.

Lemma refused_DB_BeginTx ctx T : refused ctx (DB_BeginTx ctx T).
Proof.
  unfold DB_BeginTx, pool_Acquire.
  apply refused_bind, refused_wrapf, refused_roundtrip.
Qed.

Section Refused.

Variable E : SqlEngine.

Lemma refused_TenantRepository_GetByID ctx id : refused ctx (TenantRepository_GetByID E ctx id).
Proof.
  unfold TenantRepository_GetByID, Conn_QueryRow.
  apply refused_wrapf, refused_bind, refused_roundtrip.
Qed.

Lemma refused_TenantRepository_Create ctx name :
  refused ctx (TenantRepository_Create E ctx name).
Proof.
  unfold TenantRepository_Create.
  apply refused_bind, refused_wrapf, refused_bind, refused_roundtrip.
Qed.

Lemma refused_AccountRepository_GetByID ctx T id :
  refused ctx (AccountRepository_GetByID E ctx T id).
Proof.
  unfold AccountRepository_GetByID. apply refused_bind, refused_wrapf, refused_DB_WithTenant.
Qed.

Lemma refused_AccountRepository_Create ctx T p :
  refused ctx (AccountRepository_Create E ctx T p).
Proof.
  unfold AccountRepository_Create. apply refused_bind, refused_wrapf, refused_DB_BeginTx.
Qed.

Lemma refused_AccountRepository_List ctx T ty cur limit offset :
  refused ctx (AccountRepository_List E ctx T ty cur limit offset).
Proof.
  unfold AccountRepository_List. apply refused_bind, refused_wrapf, refused_DB_WithTenant.
Qed.

Lemma refused_AccountRepository_GetBalance ctx T id :
  refused ctx (AccountRepository_GetBalance E ctx T id).
Proof.
  unfold AccountRepository_GetBalance.
  apply refused_bind, refused_wrapf, refused_DB_WithTenant.
Qed.

Lemma refused_JournalRepository_GetByID ctx T id :
  refused ctx (JournalRepository_GetByID E ctx T id).
Proof.
  unfold JournalRepository_GetByID. apply refused_bind, refused_wrapf, refused_DB_WithTenant.
Qed.

Lemma refused_JournalRepository_Create ctx T p :
  refused ctx (JournalRepository_Create E ctx T p).
Proof.
  unfold JournalRepository_Create. apply refused_bind, refused_wrapf, refused_DB_BeginTx.
Qed.

Lemma refused_JournalRepository_List ctx T acc f t limit offset :
  refused ctx (JournalRepository_List E ctx T acc f t limit offset).
Proof.
  unfold JournalRepository_List. apply refused_bind, refused_wrapf, refused_DB_WithTenant.
Qed.

Lemma refused_serve json_Unmarshal ctx call :
  refused ctx (serve json_Unmarshal (ledger E) ctx call).
Proof.
  destruct call as [req|req|req|req|req|req|req|req|req]; cbn [serve];
    apply refused_answer.
  - unfold CreateTenant. apply refused_require. intros _.
    apply refused_bind, refused_orStatus. apply refused_TenantRepository_Create.
  - unfold GetTenant. apply refused_parsed. intros T.
    apply refused_bind, refused_orStatus. apply refused_TenantRepository_GetByID.
  - unfold CreateAccount. apply refused_parsed. intros T.
    apply refused_require. intros _. apply refused_require. intros _.
    destruct (pb.CreateAccount_ParentAccountId req) as [text|].
    + intros w Hd. unfold bind at 1. unfold bind at 1.
      destruct (uuid.Parse text) as [parent|]; cbn [parsed]; unfold ret, fail; [|eauto].
      revert w Hd. apply refused_bind, refused_orStatus.
      apply refused_AccountRepository_Create.
    + intros w Hd. unfold bind at 1. unfold ret.
      revert w Hd. apply refused_bind, refused_orStatus.
      apply refused_AccountRepository_Create.
  - unfold GetAccount. apply refused_parsed. intros T. apply refused_parsed. intros a.
    apply refused_bind, refused_orStatus. apply refused_AccountRepository_GetByID.
  - unfold ListAccounts. apply refused_parsed. intros T.
    apply refused_bind, refused_orStatus. apply refused_AccountRepository_List.
  - unfold GetAccountBalance. apply refused_parsed. intros T. apply refused_parsed.
    intros a. apply refused_bind, refused_orStatus.
    apply refused_AccountRepository_GetBalance.
  - intros w Hd.
    destruct (CreateJournalEntry_cases json_Unmarshal (ledger E) ctx req w)
      as [(msg & Hv)|(T & lines & metadata & Ht & Hlen & Hlines & Hm)].
    + rewrite Hv. eauto.
    + rewrite (CreateJournalEntry_validated json_Unmarshal (ledger E) ctx req w
                 T lines metadata Ht Hlen Hlines Hm).
      cbn [ledger journalRepo NewJournalRepository JournalRepo_Create].
      destruct (refused_JournalRepository_Create ctx T
                  (CreateJournalEntryParams.mk
                     (pb.CreateJournalEntry_ReferenceNumber req)
                     (pb.CreateJournalEntry_Description req)
                     (AsTime (pb.CreateJournalEntry_EntryDate req)) metadata lines)
                  w Hd) as (e & ->).
      eauto.
  - unfold GetJournalEntry. apply refused_parsed. intros T. apply refused_parsed.
    intros a. apply refused_bind, refused_orStatus.
    apply refused_JournalRepository_GetByID.
  - unfold ListJournalEntries. apply refused_parsed. intros T.
    destruct (pb.ListJournalEntries_AccountId req) as [text|].
    + intros w Hd. unfold bind at 1. unfold bind at 1.
      destruct (uuid.Parse text) as [aid|]; cbn [parsed]; unfold ret, fail; [|eauto].
      revert w Hd. apply refused_bind, refused_orStatus.
      apply refused_JournalRepository_List.
    + intros w Hd. unfold bind at 1. unfold ret.
      revert w Hd. apply refused_bind, refused_orStatus.
      apply refused_JournalRepository_List.
Qed.

End Refused.

(** X5.  A call made under a context that is already done (cancelled, or
    past its deadline) fails and leaves the world as it was: every repository
    function starts by acquiring a connection or running a query under the
    caller's context. *)
Theorem done_context_refused
  (json_Unmarshal : string -> option (option JSONObject))
  (E : SqlEngine) (ctx : Context) (call : Request) (w w' : World)
  (r : Response + Status) :
  ctx_done ctx w = true ->
  serve json_Unmarshal (ledger E) ctx call w = (r, w') ->
  w' = w /\ exists st, r = inr st.
Proof.
  intros Hd H. destruct (refused_serve E json_Unmarshal ctx call w Hd) as (st & Hs).
  rewrite Hs in H. injection H as <- <-. split; [reflexivity|eauto].
Qed.

Lemma done_context_refused_witness :
  snd (serve json_Unmarshal_small (ledger heap_order) (Some 0)
         (CreateTenantReq (pb.mkCreateTenantRequest "Acme")) fresh_world) = fresh_world /\
  exists st,
    fst (serve json_Unmarshal_small (ledger heap_order) (Some 0)
           (CreateTenantReq (pb.mkCreateTenantRequest "Acme")) fresh_world) = inr st.
Proof.
  apply (done_context_refused json_Unmarshal_small heap_order (Some 0)
           (CreateTenantReq (pb.mkCreateTenantRequest "Acme")) fresh_world).
  - reflexivity.
  - apply surjective_pairing.
Defined.

(** X6.  GetTenant, GetAccount, ListAccounts, GetAccountBalance,
    GetJournalEntry and ListJournalEntries persist nothing, whatever they
    answer: the tables and the id supply after the call are those before
    it. *)
Theorem lookups_persist_nothing
  (json_Unmarshal : string -> option (option JSONObject))
  (E : SqlEngine) (ctx : Context) (call : Request) (w w' : World)
  (r : Response + Status) :
  is_lookup call = true ->
  serve json_Unmarshal (ledger E) ctx call w = (r, w') ->
  db w' = db w /\ next_uuid w' = next_uuid w.
Proof.
  intros Hl H.
  assert (Hs : same_store w w').
  { destruct call as [req|req|req|req|req|req|req|req|req]; cbn [is_lookup] in Hl;
      try discriminate Hl; cbn [serve] in H.
    - eapply (readonly_answer GetTenantResp); [apply readonly_GetTenant|exact H].
    - eapply (readonly_answer GetAccountResp); [apply readonly_GetAccount|exact H].
    - eapply (readonly_answer ListAccountsResp); [apply readonly_ListAccounts|exact H].
    - eapply (readonly_answer GetAccountBalanceResp);
        [apply readonly_GetAccountBalance|exact H].
    - eapply (readonly_answer GetJournalEntryResp); [apply readonly_GetJournalEntry|exact H].
    - eapply (readonly_answer ListJournalEntriesResp);
        [apply readonly_ListJournalEntries|exact H]. }
  destruct Hs as (Hd & Hn & _). split; assumption.
Qed.

Lemma lookups_persist_nothing_witness :
  db (snd (serve json_Unmarshal_small (ledger heap_order) None
             (GetAccountBalanceReq cash_balance_request) (posted_world heap_order)))
  = db (posted_world heap_order) /\
  next_uuid (snd (serve json_Unmarshal_small (ledger heap_order) None
                    (GetAccountBalanceReq cash_balance_request) (posted_world heap_order)))
  = next_uuid (posted_world heap_order).
Proof.
  apply (lookups_persist_nothing json_Unmarshal_small heap_order None
           (GetAccountBalanceReq cash_balance_request) (posted_world heap_order) _
           (fst (serve json_Unmarshal_small (ledger heap_order) None
                   (GetAccountBalanceReq cash_balance_request) (posted_world heap_order)))).
  - reflexivity.
  - apply surjective_pairing.
Defined.

(** ** ListAccounts *)

Lemma account_newest_first_total a b :
  account_newest_first a b = true \/ account_newest_first b a = true.
Proof. unfold account_newest_first. rewrite !Z.leb_le. lia. Qed.

Lemma account_newest_first_trans a b c :
  account_newest_first a b = true -> account_newest_first b c = true ->
  account_newest_first a c = true.
Proof. unfold account_newest_first. rewrite !Z.leb_le. lia. Qed.

Lemma ListAccounts_parsed (s : LedgerService) (ctx : Context)
  (req : pb.ListAccountsRequest) (w : World) (T : UUID) :
  uuid.Parse (pb.ListAccounts_TenantId req) = Some T ->
  is_int32 (pb.ListAccounts_Page req) ->
  ListAccounts s ctx req w =
  match AccountRepo_List (accountRepo s) ctx T
          (pb.ListAccounts_AccountTypeId req) (pb.ListAccounts_CurrencyCode req)
          (spec_page_size (pb.ListAccounts_PageSize req))
          (spec_offset (pb.ListAccounts_Page req) (pb.ListAccounts_PageSize req))
          w with
  | (inl (accounts, totalCount), w') =>
      (inl (pb.mkListAccountsResponse (map accountToProto accounts) (int32 totalCount)), w')
  | (inr err, w') =>
      (inr (status_Errorf codes.Internal "failed to list accounts" err), w')
  end.
Proof.
  intros Ht Hp. unfold ListAccounts. rewrite Ht. cbn [parsed].
  unfold bind at 1. cbn [ret].
  rewrite (offset_exact _ _ Hp), clamp_pageSize_spec.
  unfold bind, orStatus, ret.
  destruct (AccountRepo_List _ _ _ _ _ _ _ w) as [[[accounts total]|e] w']; reflexivity.
Qed.

Section AccountList.

Variable E : SqlEngine.

Lemma AccountRepository_List_page ctx T ty cur limit offset w w' rows total :
  AccountRepository_List E ctx T ty cur limit offset w = (inl (rows, total), w') ->
  0 <= limit -> 0 <= offset ->
  rows = firstn (Z.to_nat limit)
           (skipn (Z.to_nat offset)
              (order_by account_newest_first
                 (filter (account_filters ty cur) (from_accounts E T (db w))))) /\
  total = int64 (Z.of_nat (List.length
                             (filter (account_filters ty cur) (from_accounts E T (db w))))).
Proof.
  intros H Hl Ho.
  unfold AccountRepository_List, DB_WithTenant, pool_Acquire, defer, Conn_Release,
    Conn_QueryRow, Conn_Query, bind, wrapf, ret in H.
  destruct (roundtrip_cases ctx w) as [[Hd Hrt]|[Hd Hrt]]; rewrite Hrt in H; clear Hrt;
    [discriminate|]. cbn in H.
  match type of H with context [roundtrip ctx ?x] =>
    destruct (roundtrip_cases ctx x) as [[Hd1 Hrt]|[Hd1 Hrt]]; rewrite Hrt in H; clear Hrt end;
    [discriminate|]. cbn in H.
  match type of H with context [roundtrip ctx ?x] =>
    destruct (roundtrip_cases ctx x) as [[Hd2 Hrt]|[Hd2 Hrt]]; rewrite Hrt in H; clear Hrt end;
    [discriminate|]. cbn in H.
  match type of H with context [roundtrip ctx ?x] =>
    destruct (roundtrip_cases ctx x) as [[Hd3 Hrt]|[Hd3 Hrt]]; rewrite Hrt in H; clear Hrt end;
    [discriminate|]. cbn in H.
  unfold limit_offset in H.
  destruct (Z.ltb_spec limit 0); [lia|]. destruct (Z.ltb_spec offset 0); [lia|].
  injection H as <- <- _. split; reflexivity.
Qed.

End AccountList.

(** X7.  A successful ListAccounts call answers with a page (limit and
    offset as clamped) of the list [matching] of the tenant's accounts that
    pass the optional account type and currency filters: [matching] holds
    each such stored account once, newest first by creation time; the total
    count is the length of [matching], whatever the page; and no response
    carries more than 100 accounts. *)
Theorem accounts_listed_newest_first
  (E : SqlEngine) (ctx : Context) (req : pb.ListAccountsRequest)
  (w w' : World) (T : UUID) (resp : pb.ListAccountsResponse) :
  uuid.Parse (pb.ListAccounts_TenantId req) = Some T ->
  is_int32 (pb.ListAccounts_Page req) ->
  ListAccounts (ledger E) ctx req w = (inl resp, w') ->
  exists matching : list Account.t,
    Permutation matching
      (filter (fun a => (Account.TenantID a =? T)%N
                        && account_filters (pb.ListAccounts_AccountTypeId req)
                             (pb.ListAccounts_CurrencyCode req) a)
              (accounts (db w))) /\
    StronglySorted newer_account matching /\
    pb.ListAccountsResponse_Accounts resp
    = map accountToProto
        (firstn (Z.to_nat (spec_page_size (pb.ListAccounts_PageSize req)))
           (skipn (Z.to_nat (spec_offset (pb.ListAccounts_Page req)
                                         (pb.ListAccounts_PageSize req)))
                  matching)) /\
    pb.ListAccountsResponse_TotalCount resp = int32 (Z.of_nat (List.length matching)) /\
    (List.length (pb.ListAccountsResponse_Accounts resp) <= 100)%nat.
Proof.
  intros Ht Hp H.
  rewrite (ListAccounts_parsed (ledger E) ctx req w T Ht Hp) in H.
  cbn [ledger accountRepo NewAccountRepository AccountRepo_List] in H.
  destruct (AccountRepository_List E ctx T _ _ _ _ w) as [[[rows total]|err] w1] eqn:Hl;
    [|discriminate].
  injection H as <- _.
  pose proof (spec_page_size_range (pb.ListAccounts_PageSize req)) as Hsize.
  apply AccountRepository_List_page in Hl; [|lia|apply spec_offset_nonneg].
  destruct Hl as [-> ->].
  set (sel := filter (account_filters (pb.ListAccounts_AccountTypeId req)
                        (pb.ListAccounts_CurrencyCode req))
                     (from_accounts E T (db w))).
  assert (Hperm : Permutation sel
            (filter (fun a => (Account.TenantID a =? T)%N
                              && account_filters (pb.ListAccounts_AccountTypeId req)
                                   (pb.ListAccounts_CurrencyCode req) a)
                    (accounts (db w)))).
  { unfold sel, from_accounts. rewrite filter_scan_perm.
    clear. induction (accounts (db w)) as [|a l IH]; cbn [filter]; [reflexivity|].
    unfold policy_accounts at 1.
    destruct (Account.TenantID a =? T)%N; cbn [andb filter];
      [destruct (account_filters _ _ a); [apply perm_skip|]; exact IH|exact IH]. }
  exists (order_by account_newest_first sel).
  split; [|split; [|split; [|split]]].
  - etransitivity; [apply order_by_perm|exact Hperm].
  - eapply StronglySorted_impl;
      [|apply (order_by_sorted account_newest_first account_newest_first_total
                 account_newest_first_trans)].
    intros a b Hab. unfold newer_account. unfold account_newest_first in Hab.
    apply Z.leb_le. exact Hab.
  - reflexivity.
  - cbn [pb.ListAccountsResponse_TotalCount]. rewrite int32_int64.
    do 2 f_equal. apply Permutation_length, Permutation_sym, order_by_perm.
  - cbn [pb.ListAccountsResponse_Accounts]. rewrite length_map, length_firstn.
    lia.
Qed.

Lemma accounts_listed_newest_first_witness :
  exists (resp : pb.ListAccountsResponse) (w' : World),
    ListAccounts (ledger heap_order) None usd_accounts_request (acme_world heap_order)
    = (inl resp, w') /\
    exists matching : list Account.t,
      Permutation matching
        (filter (fun a => (Account.TenantID a =? 1)%N
                          && account_filters None (Some "USD") a)
                (accounts (db (acme_world heap_order)))) /\
      StronglySorted newer_account matching /\
      pb.ListAccountsResponse_Accounts resp
      = map accountToProto
          (firstn (Z.to_nat (spec_page_size 0))
             (skipn (Z.to_nat (spec_offset 0 0)) matching)) /\
      pb.ListAccountsResponse_TotalCount resp = int32 (Z.of_nat (List.length matching)) /\
      (List.length (pb.ListAccountsResponse_Accounts resp) <= 100)%nat.
Proof.
  eexists _, _. split; [vm_compute; reflexivity|].
  eapply (accounts_listed_newest_first heap_order None usd_accounts_request
           (acme_world heap_order)).
  - vm_compute. reflexivity.
  - unfold is_int32. cbn. lia.
  - vm_compute. reflexivity.
Defined.

(** ** Rows read back *)

Section ReadBack.

Variable E : SqlEngine.

(** Under [context.Background()] a lookup by id is the first row the query
    yields. *)
Lemma TenantRepository_GetByID_background id w :
  TenantRepository_GetByID E None id w
  = (match first_row (filter (fun t => (Tenant.ID t =? id)%N) (from_tenants E (db w))) with
     | inl t => inl t
     | inr e => inr (Wrapf "failed to get tenant" e)
     end, later 1 w).
Proof.
  unfold TenantRepository_GetByID, Conn_QueryRow, bind, wrapf, roundtrip, later.
  cbn [ctx_done db].
  destruct (first_row _) as [t|e]; reflexivity.
Qed.

Lemma TenantRepository_GetByID_first ctx id w w' t :
  TenantRepository_GetByID E ctx id w = (inl t, w') ->
  first_row (filter (fun t => (Tenant.ID t =? id)%N) (from_tenants E (db w))) = inl t /\
  db w' = db w.
Proof.
  unfold TenantRepository_GetByID, Conn_QueryRow, bind, wrapf.
  destruct (roundtrip_cases ctx w) as [[Hd Hrt]|[Hd Hrt]]; rewrite Hrt; clear Hrt;
    [discriminate|].
  cbn [db]. destruct (first_row _) as [t'|e]; [|discriminate].
  intros H. injection H as <- <-. split; reflexivity.
Qed.

Lemma AccountRepository_GetByID_background T id w :
  AccountRepository_GetByID E None T id w
  = (match first_row (filter (fun a => (Account.ID a =? id)%N)
                             (from_accounts E T (db w))) with
     | inl a => inl a
     | inr _ => inr (Errorf "account not found")
     end, later 3 w).
Proof.
  unfold AccountRepository_GetByID, DB_WithTenant, pool_Acquire, defer, Conn_Release,
    Conn_QueryRow, bind, wrapf, ret, roundtrip, later.
  cbn [ctx_done db next_uuid clock conn_tenantID].
  replace (clock w + 1 + 1 + 1) with (clock w + 3) by lia.
  destruct (filter _ _) as [|a rest]; reflexivity.
Qed.

Lemma AccountRepository_GetByID_first ctx T id w w' a :
  AccountRepository_GetByID E ctx T id w = (inl a, w') ->
  first_row (filter (fun a => (Account.ID a =? id)%N) (from_accounts E T (db w))) = inl a /\
  db w' = db w.
Proof.
  intros H.
  pose proof (readonly_AccountRepository_GetByID E ctx T id _ _ _ H) as (Hdb & _).
  split; [|exact Hdb].
  unfold AccountRepository_GetByID, DB_WithTenant, pool_Acquire, defer, Conn_Release,
    Conn_QueryRow, bind, wrapf, ret in H.
  destruct (roundtrip_cases ctx w) as [[Hd Hrt]|[Hd Hrt]]; rewrite Hrt in H; clear Hrt;
    [discriminate|]. cbn in H.
  match type of H with context [roundtrip ctx ?x] =>
    destruct (roundtrip_cases ctx x) as [[Hd1 Hrt]|[Hd1 Hrt]]; rewrite Hrt in H; clear Hrt end;
    [discriminate|]. cbn in H.
  match type of H with context [roundtrip ctx ?x] =>
    destruct (roundtrip_cases ctx x) as [[Hd2 Hrt]|[Hd2 Hrt]]; rewrite Hrt in H; clear Hrt end;
    [discriminate|]. cbn in H.
  destruct (filter _ _) as [|row rows]; cbn [first_row] in H |- *; [discriminate|].
  injection H as <- _. reflexivity.
Qed.

Lemma JournalRepository_GetByID_background T id w :
  JournalRepository_GetByID E None T id w
  = (match first_row (filter (fun e => (JournalEntryRow.id e =? id)%N)
                             (from_journal_entries E T (db w))) with
     | inl row =>
         inl (scan_entry row
                (order_by line_oldest_first
                   (filter (fun l => (JournalEntryLine.JournalEntryID l =? id)%N)
                           (from_journal_entry_lines E T (db w)))))
     | inr _ => inr (Errorf "journal entry not found")
     end,
     match first_row (filter (fun e => (JournalEntryRow.id e =? id)%N)
                             (from_journal_entries E T (db w))) with
     | inl _ => later 4 w
     | inr _ => later 3 w
     end).
Proof.
  unfold JournalRepository_GetByID, DB_WithTenant, pool_Acquire, defer, Conn_Release,
    Conn_QueryRow, getLinesByJournalEntryID, Conn_Query, bind, wrapf, ret, roundtrip, later.
  cbn [ctx_done db next_uuid clock conn_tenantID].
  destruct (filter _ (from_journal_entries E T (db w))) as [|row rest];
    cbn [first_row Is_ErrNoRows db next_uuid clock].
  - replace (clock w + 1 + 1 + 1) with (clock w + 3) by lia. reflexivity.
  - replace (clock w + 1 + 1 + 1 + 1) with (clock w + 4) by lia. reflexivity.
Qed.

Lemma JournalRepository_GetByID_first ctx T id w w' e :
  JournalRepository_GetByID E ctx T id w = (inl e, w') ->
  (exists row,
     first_row (filter (fun e => (JournalEntryRow.id e =? id)%N)
                       (from_journal_entries E T (db w))) = inl row /\
     e = scan_entry row
           (order_by line_oldest_first
              (filter (fun l => (JournalEntryLine.JournalEntryID l =? id)%N)
                      (from_journal_entry_lines E T (db w))))) /\
  db w' = db w.
Proof.
  intros H.
  pose proof (readonly_JournalRepository_GetByID E ctx T id _ _ _ H) as (Hdb & _).
  split; [|exact Hdb].
  unfold JournalRepository_GetByID, DB_WithTenant, pool_Acquire, defer, Conn_Release,
    Conn_QueryRow, getLinesByJournalEntryID, Conn_Query, bind, wrapf, ret in H.
  destruct (roundtrip_cases ctx w) as [[Hd Hrt]|[Hd Hrt]]; rewrite Hrt in H; clear Hrt;
    [discriminate|]. cbn in H.
  match type of H with context [roundtrip ctx ?x] =>
    destruct (roundtrip_cases ctx x) as [[Hd1 Hrt]|[Hd1 Hrt]]; rewrite Hrt in H; clear Hrt end;
    [discriminate|]. cbn in H.
  match type of H with context [roundtrip ctx ?x] =>
    destruct (roundtrip_cases ctx x) as [[Hd2 Hrt]|[Hd2 Hrt]]; rewrite Hrt in H; clear Hrt end;
    [discriminate|]. cbn in H.
  destruct (filter _ (from_journal_entries E T (db w))) as [|row rows];
    cbn [first_row] in H |- *; [discriminate|].
  match type of H with context [roundtrip ctx ?x] =>
    destruct (roundtrip_cases ctx x) as [[Hd3 Hrt]|[Hd3 Hrt]]; rewrite Hrt in H; clear Hrt end;
    [discriminate|]. cbn in H.
  injection H as <- _. exists row. split; reflexivity.
Qed.

Lemma TenantRepository_Create_reread ctx name w w' t :
  TenantRepository_Create E ctx name w = (inl t, w') ->
  exists id w1, TenantRepository_GetByID E ctx id w1 = (inl t, w').
Proof.
  unfold TenantRepository_Create. unfold bind at 1.
  destruct (wrapf _ _ w) as [[id|e] w1]; [|discriminate].
  intros H. exists id, w1. exact H.
Qed.

Lemma first_row_filter_id {A} (f : A -> N) (id : N) (l : list A) (x : A) :
  first_row (filter (fun y => (f y =? id)%N) l) = inl x -> f x = id.
Proof.
  intros H. destruct (filter _ l) as [|y r] eqn:Hf; [discriminate|].
  injection H as <-.
  assert (Hin : In y (filter (fun y => (f y =? id)%N) l)) by (rewrite Hf; left; reflexivity).
  apply filter_In in Hin. apply N.eqb_eq. apply Hin.
Qed.

End ReadBack.

Lemma first_row_In {A} (f : A -> bool) (l : list A) (x : A) :
  first_row (filter f l) = inl x -> In x l /\ f x = true.
Proof.
  intros H. destruct (filter f l) as [|y r] eqn:Hf; [discriminate|].
  injection H as <-. apply filter_In. rewrite Hf. left. reflexivity.
Qed.

(** Where ids are pairwise distinct, a selection by the id of a row that is
    visible yields that row first, whatever the scan order. *)
Lemma first_row_unique {A} (f : A -> N) (l l' : list A) (x : A) :
  NoDup (map f l) -> (forall y, In y l' -> In y l) -> In x l' ->
  first_row (filter (fun y => (f y =? f x)%N) l') = inl x.
Proof.
  intros Hnd Hincl Hx.
  destruct (filter (fun y => (f y =? f x)%N) l') as [|y r] eqn:Hf.
  - exfalso.
    assert (Hin : In x (filter (fun y => (f y =? f x)%N) l'))
      by (apply filter_In; split; [exact Hx|apply N.eqb_refl]).
    rewrite Hf in Hin. destruct Hin.
  - cbn [first_row]. f_equal.
    assert (Hy : In y (filter (fun y => (f y =? f x)%N) l'))
      by (rewrite Hf; left; reflexivity).
    apply filter_In in Hy. destruct Hy as [Hy Hid]. apply N.eqb_eq in Hid.
    apply (NoDup_map_injective f l Hnd); [apply Hincl; exact Hy|apply Hincl; exact Hx|exact Hid].
Qed.

(** X8.  Where ids are pairwise distinct, the row a repository's Create
    returns can be read back: a GetByID for its id (and tenant), made under
    [context.Background()] on the world Create has left, returns the same
    tenant, the same account, or the journal entry with the same header and
    the same lines, whatever order the store scans its tables in at either
    time. *)
Theorem created_rows_read_back (E E' : SqlEngine) (ctx : Context) (w w' : World) :
  (forall name t,
     NoDup (map Tenant.ID (tenants (db w'))) ->
     TenantRepository_Create E ctx name w = (inl t, w') ->
     fst (TenantRepository_GetByID E' None (Tenant.ID t) w') = inl t) /\
  (forall T p a,
     NoDup (map Account.ID (accounts (db w'))) ->
     AccountRepository_Create E ctx T p w = (inl a, w') ->
     fst (AccountRepository_GetByID E' None T (Account.ID a) w') = inl a) /\
  (forall T p e,
     NoDup (map JournalEntryRow.id (journal_entries (db w'))) ->
     JournalRepository_Create E ctx T p w = (inl e, w') ->
     exists e',
       fst (JournalRepository_GetByID E' None T (JournalEntry.ID e) w') = inl e' /\
       entry_header e' = entry_header e /\
       Permutation (JournalEntry.Lines e') (JournalEntry.Lines e)).
Proof.
  split; [|split].
  - intros name t Hnd H. apply TenantRepository_Create_reread in H.
    destruct H as (id & w1 & H). apply TenantRepository_GetByID_first in H.
    destruct H as [Hf Hdb]. rewrite <- Hdb in Hf.
    apply first_row_In in Hf. destruct Hf as [Hin _].
    unfold from_tenants in Hin. apply scan_In in Hin.
    rewrite TenantRepository_GetByID_background. cbn [fst].
    rewrite (first_row_unique Tenant.ID (tenants (db w')) _ t Hnd); [reflexivity| |].
    + intros y Hy. unfold from_tenants in Hy. apply scan_In in Hy. exact Hy.
    + unfold from_tenants. apply scan_In. exact Hin.
  - intros T p a Hnd H.
    destruct (AccountRepository_Create_cases E ctx T p w)
      as [(e & w1 & Hc & _)|(id & tb & ids & _ & Hc)]; rewrite Hc in H; clear Hc;
      [discriminate|].
    apply AccountRepository_GetByID_first in H. destruct H as [Hf Hdb].
    rewrite <- Hdb in Hf. apply first_row_In in Hf. destruct Hf as [Hin _].
    unfold from_accounts in Hin. apply scan_In in Hin.
    rewrite AccountRepository_GetByID_background. cbn [fst].
    rewrite (first_row_unique Account.ID (accounts (db w')) _ a Hnd); [reflexivity| |].
    + intros y Hy. unfold from_accounts in Hy. apply scan_In, filter_In in Hy. apply Hy.
    + unfold from_accounts. apply scan_In. exact Hin.
  - intros T p e Hnd H.
    destruct (JournalRepository_Create_cases E ctx T p w)
      as [(err & w1 & Hc & _)|(id & tb & ids & _ & Hc)]; rewrite Hc in H; clear Hc;
      [discriminate|].
    apply JournalRepository_GetByID_first in H. destruct H as [(row & Hf & ->) Hdb].
    rewrite <- Hdb in Hf |- *.
    pose proof (first_row_filter_id JournalEntryRow.id id _ row Hf) as Hid.
    apply first_row_In in Hf. destruct Hf as [Hin _].
    unfold from_journal_entries in Hin. apply scan_In in Hin.
    rewrite JournalRepository_GetByID_background. cbn [fst scan_entry JournalEntry.ID].
    rewrite (first_row_unique JournalEntryRow.id (journal_entries (db w')) _ row Hnd).
    + eexists. split; [reflexivity|]. rewrite !entry_header_scan_entry.
      split; [reflexivity|]. cbn [scan_entry JournalEntry.Lines]. rewrite Hid.
      etransitivity; [apply order_by_perm|].
      etransitivity; [|apply Permutation_sym, order_by_perm].
      unfold from_journal_entry_lines. rewrite !filter_scan_perm. reflexivity.
    + intros y Hy. unfold from_journal_entries in Hy. apply scan_In, filter_In in Hy.
      apply Hy.
    + unfold from_journal_entries. apply scan_In. exact Hin.
Qed.

Lemma created_rows_read_back_witness :
  (exists t w',
     TenantRepository_Create heap_order None "Acme" fresh_world = (inl t, w') /\
     fst (TenantRepository_GetByID reverse_order None (Tenant.ID t) w') = inl t) /\
  (exists a w',
     AccountRepository_Create heap_order None 1%N
       (CreateAccountParams.mk "2000" "Bank Account" None 1 "USD" None)
       (acme_world heap_order) = (inl a, w') /\
     fst (AccountRepository_GetByID reverse_order None 1%N (Account.ID a) w') = inl a) /\
  (exists e w' e',
     JournalRepository_Create heap_order None 1%N
       (CreateJournalEntryParams.mk "TEST-002" "Test entry" 7 None
          [CreateJournalEntryLineParams.mk 2%N (mkDecimal 50 0) zero "Line 1";
           CreateJournalEntryLineParams.mk 3%N zero (mkDecimal 50 0) "Line 2"])
       (acme_world heap_order) = (inl e, w') /\
     fst (JournalRepository_GetByID reverse_order None 1%N (JournalEntry.ID e) w') = inl e' /\
     entry_header e' = entry_header e /\
     Permutation (JournalEntry.Lines e') (JournalEntry.Lines e)).
Proof.
  split; [|split].
  - eexists _, _. split; [vm_compute; reflexivity|].
    apply (proj1 (created_rows_read_back heap_order reverse_order None fresh_world _) "Acme").
    + assert (Hids : forall x y : list N, x = y -> NoDup x -> NoDup y) by (intros ? ? ->; trivial).
      eapply (Hids [1%N]); [vm_compute; reflexivity|].
      repeat constructor; cbn; intuition discriminate.
    + vm_compute. reflexivity.
  - eexists _, _. split; [vm_compute; reflexivity|].
    apply (proj1 (proj2 (created_rows_read_back heap_order reverse_order None
                           (acme_world heap_order) _))
             1%N (CreateAccountParams.mk "2000" "Bank Account" None 1 "USD" None)).
    + assert (Hids : forall x y : list N, x = y -> NoDup x -> NoDup y) by (intros ? ? ->; trivial).
      eapply (Hids [2%N; 3%N; 4%N]); [vm_compute; reflexivity|].
      repeat constructor; cbn; intuition discriminate.
    + vm_compute. reflexivity.
  - assert (Hc : exists e w',
               JournalRepository_Create heap_order None 1%N
                 (CreateJournalEntryParams.mk "TEST-002" "Test entry" 7 None
                    [CreateJournalEntryLineParams.mk 2%N (mkDecimal 50 0) zero "Line 1";
                     CreateJournalEntryLineParams.mk 3%N zero (mkDecimal 50 0) "Line 2"])
                 (acme_world heap_order) = (inl e, w') /\
               NoDup (map JournalEntryRow.id (journal_entries (db w')))).
    { eexists _, _. split; [vm_compute; reflexivity|].
      cbn [db journal_entries map JournalEntryRow.id].
      repeat constructor; cbn; intuition discriminate. }
    destruct Hc as (e & w' & Hc & Hnd).
    destruct (proj2 (proj2 (created_rows_read_back heap_order reverse_order None
                              (acme_world heap_order) w')) _ _ e Hnd Hc)
      as (e' & Hg & Hh & Hl).
    exists e, w', e'. repeat split; assumption.
Defined.

Section ListedEntries.

Variable E : SqlEngine.

Lemma mapM_entries_exact ctx conn (rows : list JournalEntryRow.t) :
  forall w entries w',
    mapM (fun row =>
            bind (wrapf "failed to get journal entry lines"
                    (getLinesByJournalEntryID E ctx conn (JournalEntryRow.id row)))
                 (fun lines => ret (scan_entry row lines)))
         rows w = (inl entries, w') ->
    entries
    = map (fun row =>
             scan_entry row
               (order_by line_oldest_first
                  (filter (fun l => (JournalEntryLine.JournalEntryID l
                                     =? JournalEntryRow.id row)%N)
                          (from_journal_entry_lines E (conn_tenantID conn) (db w)))))
          rows.
Proof.
  induction rows as [|row rows IH]; intros w entries w' H.
  - injection H as <- _. reflexivity.
  - cbn [mapM] in H. unfold bind at 1 in H.
    destruct (bind _ _ w) as [[entry|err] w1] eqn:H1; [|discriminate].
    unfold bind at 1 in H.
    destruct (mapM _ rows w1) as [[rest|err] w2] eqn:H2; [|discriminate].
    injection H as <- _.
    unfold bind, wrapf, ret in H1.
    destruct (getLinesByJournalEntryID E ctx conn (JournalEntryRow.id row) w)
      as [[lines|err] w3] eqn:Hg; [|discriminate].
    injection H1 as <- <-.
    apply getLinesByJournalEntryID_inl in Hg. destruct Hg as [Hdb ->].
    cbn [map]. f_equal. rewrite (IH _ _ _ H2), Hdb. reflexivity.
Qed.

Lemma JournalRepository_List_rows ctx T acc f t limit offset w w' entries total e :
  JournalRepository_List E ctx T acc f t limit offset w = (inl (entries, total), w') ->
  In e entries ->
  exists row,
    In row (from_journal_entries E T (db w)) /\
    e = scan_entry row
          (order_by line_oldest_first
             (filter (fun l => (JournalEntryLine.JournalEntryID l
                                =? JournalEntryRow.id row)%N)
                     (from_journal_entry_lines E T (db w)))).
Proof.
  intros H He.
  unfold JournalRepository_List, DB_WithTenant, pool_Acquire, defer, Conn_Release,
    Conn_QueryRow, Conn_Query in H.
  unfold bind at 1 in H. unfold wrapf at 1 in H. unfold bind at 1 in H.
  unfold wrapf at 1 in H.
  destruct (roundtrip_cases ctx w) as [[Hd Hrt]|[Hd Hrt]]; rewrite Hrt in H; clear Hrt;
    [discriminate|].
  unfold bind at 1 in H. unfold wrapf at 1 in H.
  match type of H with context [roundtrip ctx ?x] =>
    destruct (roundtrip_cases ctx x) as [[Hd1 Hrt]|[Hd1 Hrt]]; rewrite Hrt in H; clear Hrt end;
    [discriminate|].
  cbn [ret conn_tenantID] in H.
  unfold bind at 1 in H. unfold wrapf at 1 in H. unfold bind at 1 in H.
  match type of H with context [roundtrip ctx ?x] =>
    destruct (roundtrip_cases ctx x) as [[Hd2 Hrt]|[Hd2 Hrt]]; rewrite Hrt in H; clear Hrt end;
    [discriminate|].
  cbn [first_row db] in H.
  unfold bind at 1 in H. unfold wrapf at 1 in H. unfold bind at 1 in H.
  match type of H with context [roundtrip ctx ?x] =>
    destruct (roundtrip_cases ctx x) as [[Hd3 Hrt]|[Hd3 Hrt]]; rewrite Hrt in H; clear Hrt end;
    [discriminate|].
  cbn [db] in H. unfold limit_offset in H.
  destruct (limit <? 0); [discriminate|]. destruct (offset <? 0); [discriminate|].
  unfold bind at 1 in H.
  match type of H with context [mapM ?g ?rows ?x] =>
    destruct (mapM g rows x) as [[es|err] w4] eqn:Hm end; [|discriminate].
  cbn [ret] in H. injection H as <- _ _.
  apply mapM_entries_exact in Hm. cbn [db conn_tenantID] in Hm. subst es.
  apply in_map_iff in He. destruct He as (row & <- & Hrow).
  exists row. split; [|reflexivity].
  apply In_firstn, In_skipn in Hrow.
  apply (Permutation_in _ (order_by_perm _ _)) in Hrow.
  apply nodup_In in Hrow. unfold list_selection in Hrow.
  apply filter_In in Hrow. destruct Hrow as [Hrow _].
  destruct acc as [a|]; [|exact Hrow].
  apply in_map_iff in Hrow. destruct Hrow as ((row' & l) & Hfst & Hin).
  cbn in Hfst. subst row'. apply filter_In in Hin. destruct Hin as [Hin _].
  apply inner_join_In in Hin. apply Hin.
Qed.

End ListedEntries.

(** X9.  When the ids of the stored journal entries are pairwise distinct,
    every entry a JournalRepository.List call returns is the entry that
    GetByID returns for its id under [context.Background()] on the world the
    call has left: the same header and the same lines, whatever order the
    store scans its tables in at either time.  The line queries of List are
    taken to run as written, one per row of the listing. *)
Theorem listed_entries_match_lookup
  (E E' : SqlEngine) (ctx : Context) (T : UUID) (acc : option UUID)
  (fromDate toDate : option Time) (limit offset : Z) (w w' : World)
  (entries : list JournalEntry.t) (total : Z) (e : JournalEntry.t) :
  NoDup (map JournalEntryRow.id (journal_entries (db w))) ->
  JournalRepository_List E ctx T acc fromDate toDate limit offset w
  = (inl (entries, total), w') ->
  In e entries ->
  exists e',
    fst (JournalRepository_GetByID E' None T (JournalEntry.ID e) w') = inl e' /\
    entry_header e' = entry_header e /\
    Permutation (JournalEntry.Lines e') (JournalEntry.Lines e).
Proof.
  intros Hnd H He.
  pose proof (readonly_JournalRepository_List E ctx T acc fromDate toDate limit offset
                _ _ _ H) as (Hdb & _).
  destruct (JournalRepository_List_rows E ctx T acc fromDate toDate limit offset
              w w' entries total e H He) as (row & Hrow & ->).
  rewrite JournalRepository_GetByID_background. cbn [fst scan_entry JournalEntry.ID].
  rewrite Hdb.
  unfold from_journal_entries in Hrow. apply scan_In in Hrow.
  rewrite (first_row_unique JournalEntryRow.id (journal_entries (db w)) _ row Hnd).
  - eexists. split; [reflexivity|]. rewrite !entry_header_scan_entry.
    split; [reflexivity|]. cbn [scan_entry JournalEntry.Lines].
    etransitivity; [apply order_by_perm|].
    etransitivity; [|apply Permutation_sym, order_by_perm].
    unfold from_journal_entry_lines. rewrite !filter_scan_perm. reflexivity.
  - intros y Hy. unfold from_journal_entries in Hy. apply scan_In, filter_In in Hy.
    apply Hy.
  - unfold from_journal_entries. apply scan_In. exact Hrow.
Qed.

Lemma listed_entries_match_lookup_witness :
  exists (e : JournalEntry.t) (rest : list JournalEntry.t) (total : Z) (w' : World)
         (e' : JournalEntry.t),
    JournalRepository_List heap_order None 1%N (Some 2%N) None None 50 0
      (two_entries_world heap_order) = (inl (e :: rest, total), w') /\
    List.length (JournalEntry.Lines e) = 3%nat /\
    fst (JournalRepository_GetByID reverse_order None 1%N (JournalEntry.ID e) w') = inl e' /\
    entry_header e' = entry_header e /\
    Permutation (JournalEntry.Lines e') (JournalEntry.Lines e).
Proof.
  assert (Hl : exists e rest total w',
             JournalRepository_List heap_order None 1%N (Some 2%N) None None 50 0
               (two_entries_world heap_order) = (inl (e :: rest, total), w') /\
             List.length (JournalEntry.Lines e) = 3%nat).
  { eexists _, _, _, _. split; vm_compute; reflexivity. }
  destruct Hl as (e & rest & total & w' & Hl & Hlen).
  destruct (listed_entries_match_lookup heap_order reverse_order None 1%N (Some 2%N)
              None None 50 0 (two_entries_world heap_order) w' (e :: rest) total e)
    as (e' & Hg & Hh & Hp).
  - assert (Hids : map JournalEntryRow.id (journal_entries (db (two_entries_world heap_order)))
                   = [4%N; 7%N]) by (vm_compute; reflexivity).
    rewrite Hids. repeat constructor; cbn; intuition discriminate.
  - exact Hl.
  - left. reflexivity.
  - exists e, rest, total, w', e'. repeat split; assumption.
Defined.

(** ** What Create returns *)

Lemma filter_none {A} (f : A -> bool) (l : list A) :
  (forall x, In x l -> f x = false) -> filter f l = [].
Proof.
  induction l as [|x l IH]; intros H; cbn [filter]; [reflexivity|].
  rewrite (H x (or_introl eq_refl)). apply IH. intros y Hy. apply H. right. exact Hy.
Qed.

Lemma filter_all {A} (f : A -> bool) (l : list A) :
  (forall x, In x l -> f x = true) -> filter f l = l.
Proof.
  induction l as [|x l IH]; intros H; cbn [filter]; [reflexivity|].
  rewrite (H x (or_introl eq_refl)). f_equal. apply IH. intros y Hy. apply H. right. exact Hy.
Qed.

Section Created.

Variable E : SqlEngine.

Lemma AccountRepository_GetBalance_background T id w :
  fst (AccountRepository_GetBalance E None T id w)
  = match first_row (filter (fun b => (AccountBalance.AccountID b =? id)%N)
                            (from_account_balances E T (db w))) with
    | inl row => inl (AccountBalance.mk id (AccountBalance.DebitBalance row)
                        (AccountBalance.CreditBalance row) (AccountBalance.UpdatedAt row))
    | inr _ => inr (Errorf "balance not found for account")
    end.
Proof.
  unfold AccountRepository_GetBalance, DB_WithTenant, pool_Acquire, defer, Conn_Release,
    Conn_QueryRow, bind, wrapf, ret, roundtrip.
  cbn [ctx_done db next_uuid clock conn_tenantID].
  destruct (filter _ _) as [|a rest]; reflexivity.
Qed.

(** A query that selects one row of the table yields that row, whatever the
    scan order. *)
Lemma scan_single {A} (f g : A -> bool) (l : list A) (x : A) :
  filter f (filter g l) = [x] ->
  filter f (scan E A (filter g l)) = [x].
Proof.
  intros H. pose proof (filter_scan_perm E f (filter g l)) as Hp.
  rewrite H in Hp. apply Permutation_sym, Permutation_length_1_inv in Hp. exact Hp.
Qed.

End Created.

(** X10.  With the stored procedure [create_account] as the schema's
    documentation describes it, and account ids drawn from the id supply: the
    account AccountRepository.Create returns belongs to the tenant of the
    call, carries the number, name, description, type, currency and parent
    that were asked for, and is active; and its balance, read with GetBalance
    under [context.Background()], is zero on both sides, whatever order the
    store scans its tables in. *)
Theorem new_account_as_requested
  (E E' : SqlEngine) (ctx : Context) (T : UUID) (p : CreateAccountParams.t)
  (w w' : World) (a : Account.t) :
  ids_allocated w ->
  AccountRepository_Create E ctx T p w = (inl a, w') ->
  Account.ID a = next_uuid w /\
  Account.TenantID a = T /\
  Account.AccountNumber a = CreateAccountParams.AccountNumber p /\
  Account.Name a = CreateAccountParams.Name p /\
  Account.Description a = CreateAccountParams.Description p /\
  Account.AccountTypeID a = CreateAccountParams.AccountTypeID p /\
  Account.CurrencyCode a = CreateAccountParams.CurrencyCode p /\
  Account.ParentAccountID a = CreateAccountParams.ParentAccountID p /\
  Account.IsActive a = true /\
  fst (AccountRepository_GetBalance E' None T (Account.ID a) w')
  = inl (AccountBalance.mk (Account.ID a) zero zero (Account.CreatedAt a)).
Proof.
  intros (Hacc & Hbal & _) H.
  destruct (AccountRepository_Create_cases E ctx T p w)
    as [(e & w1 & Hc & _)|(id & tb & ids & Hproc & Hc)]; rewrite Hc in H; clear Hc;
    [discriminate|].
  apply create_account_inl in Hproc. destruct Hproc as (-> & -> & ->).
  apply AccountRepository_GetByID_first in H. destruct H as [Hf Hdb].
  cbn [db] in Hf, Hdb.
  set (now := clock w + 3) in *.
  set (new := Account.mk (next_uuid w) T
                (CreateAccountParams.AccountNumber p) (CreateAccountParams.Name p)
                (CreateAccountParams.Description p) (CreateAccountParams.AccountTypeID p)
                (CreateAccountParams.CurrencyCode p) (CreateAccountParams.ParentAccountID p)
                true now now).
  assert (Ha : a = new).
  { destruct (filter _ _) as [|y r] eqn:Hflt; [discriminate|]. injection Hf as ->.
    assert (Hin : In a (filter (fun a0 => (Account.ID a0 =? next_uuid w)%N)
                               (from_accounts E T (opened_tables T now (next_uuid w) (db w) p))))
      by (rewrite Hflt; left; reflexivity).
    apply filter_In in Hin. destruct Hin as [Hin Hid]. apply N.eqb_eq in Hid.
    unfold from_accounts in Hin. apply scan_In, filter_In in Hin. destruct Hin as [Hin _].
    unfold opened_tables in Hin. cbn [accounts] in Hin. apply in_app_or in Hin.
    destruct Hin as [Hold|[Hnew|[]]].
    - apply Hacc in Hold. lia.
    - symmetry. exact Hnew. }
  subst a. cbn [Account.ID Account.TenantID Account.AccountNumber Account.Name
                  Account.Description Account.AccountTypeID Account.CurrencyCode
                  Account.ParentAccountID Account.IsActive Account.CreatedAt new].
  repeat (split; [reflexivity|]).
  rewrite AccountRepository_GetBalance_background, Hdb.
  unfold from_account_balances.
  rewrite (scan_single E' _ _ _ (AccountBalance.mk (next_uuid w) zero zero now));
    [reflexivity|].
  unfold opened_tables. cbn [account_balances accounts].
  rewrite !filter_app. cbn [filter AccountBalance.AccountID].
  assert (Hpol : policy_account_balances T
                   (mkTables (tenants (db w)) (account_types (db w)) (currencies (db w))
                      (accounts (db w) ++ [new])
                      (account_balances (db w)
                       ++ [AccountBalance.mk (next_uuid w) zero zero now])
                      (journal_entries (db w)) (journal_entry_lines (db w)))
                   (AccountBalance.mk (next_uuid w) zero zero now) = true).
  { unfold policy_account_balances. cbn [accounts AccountBalance.AccountID].
    apply existsb_exists. exists new. split; [apply in_or_app; right; left; reflexivity|].
    unfold policy_accounts, new. cbn [Account.ID Account.TenantID].
    rewrite !N.eqb_refl. reflexivity. }
  fold new. rewrite Hpol. cbn [filter AccountBalance.AccountID]. rewrite N.eqb_refl.
  rewrite (filter_none _ (filter _ (account_balances (db w)))); [reflexivity|].
  intros b Hb. apply filter_In in Hb. destruct Hb as [Hb _].
  apply Hbal in Hb. apply N.eqb_neq. lia.
Qed.

Lemma ids_allocatedb_sound w : ids_allocatedb w = true -> ids_allocated w.
Proof.
  unfold ids_allocatedb, ids_allocated. rewrite !andb_true_iff, !forallb_forall.
  intros [[Ha Hb] Hl]. repeat split; intros x Hx; apply N.ltb_lt; auto.
Qed.

Lemma entry_ids_allocatedb_sound w : entry_ids_allocatedb w = true -> entry_ids_allocated w.
Proof.
  unfold entry_ids_allocatedb, entry_ids_allocated. rewrite !andb_true_iff, !forallb_forall.
  intros [He Hl]. split; intros x Hx; apply N.ltb_lt; auto.
Qed.

Lemma new_account_as_requested_witness :
  exists (a : Account.t) (w' : World),
    AccountRepository_Create heap_order None 1%N bank_account_params (acme_world heap_order)
    = (inl a, w') /\
    Account.ID a = next_uuid (acme_world heap_order) /\
    Account.TenantID a = 1%N /\
    Account.AccountNumber a = "2000" /\
    Account.Name a = "Bank Account" /\
    Account.Description a = None /\
    Account.AccountTypeID a = 1 /\
    Account.CurrencyCode a = "USD" /\
    Account.ParentAccountID a = None /\
    Account.IsActive a = true /\
    fst (AccountRepository_GetBalance reverse_order None 1%N (Account.ID a) w')
    = inl (AccountBalance.mk (Account.ID a) zero zero (Account.CreatedAt a)).
Proof.
  eexists _, _. split; [vm_compute; reflexivity|].
  apply (new_account_as_requested heap_order reverse_order None 1%N bank_account_params
           (acme_world heap_order)).
  - apply ids_allocatedb_sound. vm_compute. reflexivity.
  - vm_compute. reflexivity.
Defined.

Lemma line_rows_content entry now first ls :
  map line_content (line_rows entry now first ls) = map param_content ls.
Proof.
  revert first. induction ls as [|l ls IH]; intros first; cbn [line_rows map];
    [reflexivity|].
  rewrite IH. reflexivity.
Qed.

Lemma line_rows_entry entry now first ls l :
  In l (line_rows entry now first ls) ->
  JournalEntryLine.JournalEntryID l = entry /\ JournalEntryLine.CreatedAt l = now.
Proof.
  revert first. induction ls as [|p ls IH]; intros first Hin; [destruct Hin|].
  cbn [line_rows] in Hin. destruct Hin as [<-|Hin]; [split; reflexivity|].
  eapply IH. exact Hin.
Qed.

Lemma same_time_sorted (now : Time) (ls : list JournalEntryLine.t) :
  (forall l, In l ls -> JournalEntryLine.CreatedAt l = now) ->
  StronglySorted (fun a b => line_oldest_first a b = true) ls.
Proof.
  induction ls as [|x ls IH]; intros H; constructor.
  - apply IH. intros l Hl. apply H. right. exact Hl.
  - apply Forall_forall. intros y Hy. unfold line_oldest_first.
    rewrite (H x (or_introl eq_refl)), (H y (or_intror Hy)). apply Z.leb_refl.
Qed.

Section CreatedEntry.

Variable E : SqlEngine.

(** The lines of the entry that [create_journal_entry] has just stored, as a
    session bound to its tenant selects them from the table. *)
Lemma posted_lines_selected T now p w :
  entry_ids_allocated w ->
  filter (fun l => (JournalEntryLine.JournalEntryID l =? next_uuid w)%N)
         (filter (policy_journal_entry_lines T (posted_tables T now (next_uuid w) (db w) p))
                 (journal_entry_lines (posted_tables T now (next_uuid w) (db w) p)))
  = line_rows (next_uuid w) now (next_uuid w + 1)%N (CreateJournalEntryParams.Lines p).
Proof.
  intros [_ Hl].
  set (tb := posted_tables T now (next_uuid w) (db w) p).
  unfold posted_tables in tb. cbn [journal_entry_lines tb].
  rewrite !filter_app.
  rewrite (filter_none _ (filter _ (journal_entry_lines (db w)))).
  2:{ intros l Hin. apply filter_In in Hin. destruct Hin as [Hin _].
      apply Hl in Hin. apply N.eqb_neq. lia. }
  cbn [app]. rewrite (filter_all (policy_journal_entry_lines T tb)).
  - apply filter_all. intros l Hin. apply line_rows_entry in Hin.
    apply N.eqb_eq. apply Hin.
  - intros l Hin. apply line_rows_entry in Hin. destruct Hin as [Hid _].
    unfold policy_journal_entry_lines. apply existsb_exists.
    eexists. split; [cbn [journal_entries tb]; apply in_or_app; right; left; reflexivity|].
    cbn [JournalEntryRow.id JournalEntryRow.tenant_id]. unfold policy_journal_entries.
    cbn [JournalEntryRow.tenant_id]. rewrite Hid, !N.eqb_refl. reflexivity.
Qed.

End CreatedEntry.

(** X11.  With the stored procedure [create_journal_entry] as the schema's
    documentation describes it, and entry ids drawn from the id supply: the
    entry JournalRepository.Create returns belongs to the tenant of the call,
    carries the reference number, description, entry date and metadata that
    were submitted, and has exactly the submitted lines (account, debit,
    credit, description), each bound to the entry; the lines come in the
    order submitted when the store scans a table in insertion order. *)
Theorem new_entry_as_requested
  (E : SqlEngine) (ctx : Context) (T : UUID) (p : CreateJournalEntryParams.t)
  (w w' : World) (e : JournalEntry.t) :
  entry_ids_allocated w ->
  JournalRepository_Create E ctx T p w = (inl e, w') ->
  JournalEntry.ID e = next_uuid w /\
  JournalEntry.TenantID e = T /\
  JournalEntry.ReferenceNumber e = CreateJournalEntryParams.ReferenceNumber p /\
  JournalEntry.Description e = CreateJournalEntryParams.Description p /\
  JournalEntry.EntryDate e = CreateJournalEntryParams.EntryDate p /\
  JournalEntry.Metadata e = CreateJournalEntryParams.Metadata p /\
  Permutation (map line_content (JournalEntry.Lines e))
              (map param_content (CreateJournalEntryParams.Lines p)) /\
  (forall l, In l (JournalEntry.Lines e) ->
             JournalEntryLine.JournalEntryID l = JournalEntry.ID e) /\
  ((forall l : list JournalEntryLine.t, scan E _ l = l) ->
   map line_content (JournalEntry.Lines e)
   = map param_content (CreateJournalEntryParams.Lines p)).
Proof.
  intros Hids H.
  destruct (JournalRepository_Create_cases E ctx T p w)
    as [(err & w1 & Hc & _)|(id & tb & ids & Hproc & Hc)]; rewrite Hc in H; clear Hc;
    [discriminate|].
  apply create_journal_entry_inl in Hproc. destruct Hproc as (-> & -> & -> & _).
  apply JournalRepository_GetByID_first in H. destruct H as [(row & Hf & ->) _].
  cbn [db] in Hf |- *.
  set (now := clock w + 3) in *.
  set (tb := posted_tables T now (next_uuid w) (db w) p) in *.
  set (header := JournalEntryRow.mk (next_uuid w) T
                   (CreateJournalEntryParams.ReferenceNumber p)
                   (CreateJournalEntryParams.Description p)
                   (CreateJournalEntryParams.EntryDate p)
                   (CreateJournalEntryParams.Metadata p) now now).
  assert (Hrow : row = header).
  { destruct (filter _ _) as [|y r] eqn:Hflt; [discriminate|]. injection Hf as ->.
    assert (Hin : In row (filter (fun e0 => (JournalEntryRow.id e0 =? next_uuid w)%N)
                                 (from_journal_entries E T tb)))
      by (rewrite Hflt; left; reflexivity).
    apply filter_In in Hin. destruct Hin as [Hin Hid]. apply N.eqb_eq in Hid.
    unfold from_journal_entries in Hin. apply scan_In, filter_In in Hin.
    destruct Hin as [Hin _]. unfold tb, posted_tables in Hin. cbn [journal_entries] in Hin.
    apply in_app_or in Hin. destruct Hin as [Hold|[Hnew|[]]].
    - apply (proj1 Hids) in Hold. lia.
    - symmetry. exact Hnew. }
  subst row.
  set (selected := filter (fun l => (JournalEntryLine.JournalEntryID l =? next_uuid w)%N)
                          (from_journal_entry_lines E T tb)).
  set (rows := line_rows (next_uuid w) now (next_uuid w + 1)%N
                 (CreateJournalEntryParams.Lines p)).
  assert (Hsel : Permutation selected rows).
  { unfold selected, from_journal_entry_lines. rewrite filter_scan_perm.
    unfold rows, tb. rewrite (posted_lines_selected T now p w Hids). reflexivity. }
  cbn [scan_entry header JournalEntry.ID JournalEntry.TenantID JournalEntry.ReferenceNumber
         JournalEntry.Description JournalEntry.EntryDate JournalEntry.Metadata
         JournalEntry.Lines JournalEntryRow.id JournalEntryRow.tenant_id
         JournalEntryRow.reference_number JournalEntryRow.description
         JournalEntryRow.entry_date JournalEntryRow.metadata].
  repeat (split; [reflexivity|]).
  split; [|split].
  - rewrite <- (line_rows_content (next_uuid w) now (next_uuid w + 1)%N).
    apply Permutation_map. etransitivity; [apply order_by_perm|exact Hsel].
  - intros l Hl. apply (Permutation_in _ (order_by_perm _ _)) in Hl.
    apply (Permutation_in _ Hsel) in Hl. apply line_rows_entry in Hl. apply Hl.
  - intros Hscan.
    assert (Heq : selected = rows).
    { unfold selected, from_journal_entry_lines. rewrite Hscan.
      apply (posted_lines_selected T now p w Hids). }
    rewrite Heq.
    rewrite (order_by_sorted_input line_oldest_first).
    + apply line_rows_content.
    + apply (same_time_sorted now). intros l Hl. apply line_rows_entry in Hl. apply Hl.
Qed.

Lemma new_entry_as_requested_witness :
  exists (e : JournalEntry.t) (w' : World),
    JournalRepository_Create heap_order None 1%N test_entry_params (acme_world heap_order)
    = (inl e, w') /\
    JournalEntry.ID e = next_uuid (acme_world heap_order) /\
    JournalEntry.TenantID e = 1%N /\
    JournalEntry.ReferenceNumber e = "TEST-001" /\
    JournalEntry.Description e = "Test transaction" /\
    JournalEntry.EntryDate e = 7 /\
    JournalEntry.Metadata e = None /\
    Permutation (map line_content (JournalEntry.Lines e))
                (map param_content (CreateJournalEntryParams.Lines test_entry_params)) /\
    (forall l, In l (JournalEntry.Lines e) ->
               JournalEntryLine.JournalEntryID l = JournalEntry.ID e) /\
    ((forall l : list JournalEntryLine.t, scan heap_order _ l = l) ->
     map line_content (JournalEntry.Lines e)
     = map param_content (CreateJournalEntryParams.Lines test_entry_params)).
Proof.
  eexists _, _. split; [vm_compute; reflexivity|].
  eapply (new_entry_as_requested heap_order None 1%N test_entry_params
            (acme_world heap_order)).
  - apply entry_ids_allocatedb_sound. vm_compute. reflexivity.
  - vm_compute. reflexivity.
Defined.

(** ** The tenant directory, and lookups that find nothing *)

Section Tenants.

Variable E : SqlEngine.

Lemma TenantRepository_GetByName_background name w :
  TenantRepository_GetByName E None name w
  = (match first_row (filter (fun t => String.eqb (Tenant.Name t) name)
                             (from_tenants E (db w))) with
     | inl t => inl t
     | inr e => inr (Wrapf "failed to get tenant by name" e)
     end, later 1 w).
Proof.
  unfold TenantRepository_GetByName, Conn_QueryRow, bind, wrapf, roundtrip, later.
  cbn [ctx_done db].
  destruct (first_row _) as [t|e]; reflexivity.
Qed.

Lemma TenantRepository_GetByName_first ctx name w w' t :
  TenantRepository_GetByName E ctx name w = (inl t, w') ->
  first_row (filter (fun t => String.eqb (Tenant.Name t) name) (from_tenants E (db w)))
  = inl t.
Proof.
  unfold TenantRepository_GetByName, Conn_QueryRow, bind, wrapf.
  destruct (roundtrip_cases ctx w) as [[Hd Hrt]|[Hd Hrt]]; rewrite Hrt; clear Hrt;
    [discriminate|].
  cbn [db]. destruct (first_row _) as [t'|e]; [|discriminate].
  intros H. injection H as <- _. reflexivity.
Qed.

End Tenants.

(** X12.  TenantRepository.GetByID and GetByName return a stored tenant with
    the id, or the name, asked for; under [context.Background()] they succeed
    exactly when such a tenant is stored.  Tenants are not scoped: the
    lookups take no caller. *)
Theorem tenant_lookups (E : SqlEngine) (ctx : Context) (w : World) :
  (forall id t w',
     TenantRepository_GetByID E ctx id w = (inl t, w') ->
     In t (tenants (db w)) /\ Tenant.ID t = id) /\
  (forall name t w',
     TenantRepository_GetByName E ctx name w = (inl t, w') ->
     In t (tenants (db w)) /\ Tenant.Name t = name) /\
  (forall id,
     (exists t, In t (tenants (db w)) /\ Tenant.ID t = id) <->
     (exists t, fst (TenantRepository_GetByID E None id w) = inl t)) /\
  (forall name,
     (exists t, In t (tenants (db w)) /\ Tenant.Name t = name) <->
     (exists t, fst (TenantRepository_GetByName E None name w) = inl t)).
Proof.
  split; [|split; [|split]].
  - intros id t w' H. apply TenantRepository_GetByID_first in H. destruct H as [H _].
    apply first_row_In in H. destruct H as [Hin Hid].
    unfold from_tenants in Hin. apply scan_In in Hin.
    split; [exact Hin|apply N.eqb_eq; exact Hid].
  - intros name t w' H. apply TenantRepository_GetByName_first in H.
    apply first_row_In in H. destruct H as [Hin Hn].
    unfold from_tenants in Hin. apply scan_In in Hin.
    split; [exact Hin|apply String.eqb_eq; exact Hn].
  - intros id. rewrite TenantRepository_GetByID_background. cbn [fst].
    unfold from_tenants. split.
    + intros (t & Hin & Hid).
      destruct (first_row_found (filter (fun t0 => (Tenant.ID t0 =? id)%N)
                                        (scan E _ (tenants (db w)))) t) as (y & Hy).
      { apply filter_In. split; [apply scan_In; exact Hin|apply N.eqb_eq; exact Hid]. }
      rewrite Hy. eexists. reflexivity.
    + intros (t & Ht).
      destruct (first_row _) as [y|e] eqn:Hy; [|discriminate].
      apply first_row_In in Hy. destruct Hy as [Hin Hid].
      exists y. split; [apply scan_In in Hin; exact Hin|apply N.eqb_eq; exact Hid].
  - intros name. rewrite TenantRepository_GetByName_background. cbn [fst].
    unfold from_tenants. split.
    + intros (t & Hin & Hn).
      destruct (first_row_found (filter (fun t0 => String.eqb (Tenant.Name t0) name)
                                        (scan E _ (tenants (db w)))) t) as (y & Hy).
      { apply filter_In. split; [apply scan_In; exact Hin|apply String.eqb_eq; exact Hn]. }
      rewrite Hy. eexists. reflexivity.
    + intros (t & Ht).
      destruct (first_row _) as [y|e] eqn:Hy; [|discriminate].
      apply first_row_In in Hy. destruct Hy as [Hin Hn].
      exists y. split; [apply scan_In in Hin; exact Hin|apply String.eqb_eq; exact Hn].
Qed.

Lemma tenant_lookups_witness :
  (exists t, fst (TenantRepository_GetByID heap_order None 1%N (acme_world heap_order)) = inl t) /\
  (exists t, fst (TenantRepository_GetByName heap_order None "Acme" (acme_world heap_order))
             = inl t).
Proof.
  split.
  - apply (proj1 (proj2 (proj2 (tenant_lookups heap_order None (acme_world heap_order))))).
    eexists. split; [left; vm_compute; reflexivity|reflexivity].
  - apply (proj2 (proj2 (proj2 (tenant_lookups heap_order None (acme_world heap_order))))).
    eexists. split; [left; vm_compute; reflexivity|reflexivity].
Defined.

Lemma fst_answer_inr {A} (wrap : A -> Response) (h : Handler A) (w : World) (st : Status) :
  fst (h w) = inr st -> fst (answer wrap h w) = inr st.
Proof.
  unfold answer. destruct (h w) as [[a|st'] w1]; cbn [fst]; intros H;
    [discriminate|injection H as ->; reflexivity].
Qed.

Section Missing.

Variable E : SqlEngine.

Lemma no_account_selected T a tb :
  (forall row, In row (accounts tb) -> Account.ID row = a -> Account.TenantID row <> T) ->
  filter (fun r => (Account.ID r =? a)%N) (from_accounts E T tb) = [].
Proof.
  intros H. apply filter_none. intros x Hx.
  unfold from_accounts in Hx. apply scan_In, filter_In in Hx. destruct Hx as [Hin Hpol].
  apply N.eqb_neq. intros Hid. apply (H x Hin Hid). apply N.eqb_eq. exact Hpol.
Qed.

Lemma no_balance_selected T a tb :
  (forall row, In row (accounts tb) -> Account.ID row = a -> Account.TenantID row <> T) ->
  filter (fun b => (AccountBalance.AccountID b =? a)%N) (from_account_balances E T tb) = [].
Proof.
  intros H. apply filter_none. intros x Hx.
  unfold from_account_balances in Hx. apply scan_In, filter_In in Hx.
  destruct Hx as [Hin Hpol].
  destruct (balance_row_owner T tb x Hpol) as (acc & (Hacc & Hten) & Hid).
  apply N.eqb_neq. intros Hx. apply (H acc Hacc); [rewrite Hid; exact Hx|exact Hten].
Qed.

Lemma no_entry_selected T id tb :
  (forall row, In row (journal_entries tb) -> JournalEntryRow.id row = id ->
               JournalEntryRow.tenant_id row <> T) ->
  filter (fun e => (JournalEntryRow.id e =? id)%N) (from_journal_entries E T tb) = [].
Proof.
  intros H. apply filter_none. intros x Hx.
  unfold from_journal_entries in Hx. apply scan_In, filter_In in Hx.
  destruct Hx as [Hin Hpol].
  apply N.eqb_neq. intros Hid. apply (H x Hin Hid). apply N.eqb_eq. exact Hpol.
Qed.

Lemma no_tenant_selected id tb :
  (forall t, In t (tenants tb) -> Tenant.ID t <> id) ->
  filter (fun t => (Tenant.ID t =? id)%N) (from_tenants E tb) = [].
Proof.
  intros H. apply filter_none. intros x Hx.
  unfold from_tenants in Hx. apply scan_In in Hx. apply N.eqb_neq. apply H. exact Hx.
Qed.

End Missing.

(** X13.  Under [context.Background()], a lookup by id that names no tenant
    (GetTenant), or no account or journal entry of the caller's tenant
    (GetAccount, GetAccountBalance, GetJournalEntry), is answered [NotFound];
    the message is the handler's prefix followed by the repository's error:
    the wrapped "no rows in result set" for a tenant, the repository's own
    "... not found" for the others. *)
Theorem missing_rows_not_found
  (json_Unmarshal : string -> option (option JSONObject))
  (E : SqlEngine) (call : Request) (w : World) :
  names_missing_row (db w) call ->
  fst (serve json_Unmarshal (ledger E) None call w)
  = inr (mkStatus codes.NotFound (not_found_message call)).
Proof.
  destruct call as [req|req|req|req|req|req|req|req|req];
    cbn [names_missing_row serve not_found_message]; intros H; try contradiction H;
    apply fst_answer_inr.
  - destruct H as (id & Hp & Hno).
    unfold GetTenant, bind, parsed, orStatus, ret. rewrite Hp.
    cbn [ledger tenantRepo NewTenantRepository TenantRepo_GetByID].
    rewrite TenantRepository_GetByID_background, (no_tenant_selected E id _ Hno).
    reflexivity.
  - destruct H as (T & Ht & a & Ha & Hno). cbn [scope_of] in Ht.
    rewrite (GetAccount_parsed E None req T a w Ht Ha).
    rewrite AccountRepository_GetByID_background, (no_account_selected E T a _ Hno).
    reflexivity.
  - destruct H as (T & Ht & a & Ha & Hno). cbn [scope_of] in Ht.
    rewrite (GetAccountBalance_parsed E None req T a w Ht Ha).
    pose proof (AccountRepository_GetBalance_background E T a w) as Hb.
    rewrite (no_balance_selected E T a _ Hno) in Hb. cbn [first_row] in Hb.
    destruct (AccountRepository_GetBalance E None T a w) as [r w1]. cbn [fst] in Hb.
    subst r. reflexivity.
  - destruct H as (T & Ht & id & Hid & Hno). cbn [scope_of] in Ht.
    rewrite (GetJournalEntry_parsed (ledger E) None req w T id Ht Hid).
    cbn [ledger journalRepo NewJournalRepository JournalRepo_GetByID].
    rewrite JournalRepository_GetByID_background, (no_entry_selected E T id _ Hno).
    reflexivity.
Qed.

Lemma missing_rows_not_found_witness :
  fst (serve json_Unmarshal_small (ledger heap_order) None
         (GetTenantReq unknown_tenant_request) (acme_world heap_order))
  = inr (mkStatus codes.NotFound
           "tenant not found: failed to get tenant: no rows in result set") /\
  fst (serve json_Unmarshal_small (ledger heap_order) None
         (GetAccountReq foreign_account_request) two_tenants_world)
  = inr (mkStatus codes.NotFound "account not found: account not found").
Proof.
  split.
  - apply (missing_rows_not_found json_Unmarshal_small heap_order
             (GetTenantReq unknown_tenant_request) (acme_world heap_order)).
    exists 48879%N. split; [vm_compute; reflexivity|].
    assert (Hall : forallb (fun t => negb (Tenant.ID t =? 48879)%N)
                           (tenants (db (acme_world heap_order))) = true)
      by (vm_compute; reflexivity).
    rewrite forallb_forall in Hall. intros t Hin Hid. specialize (Hall t Hin).
    rewrite Hid in Hall. discriminate Hall.
  - apply (missing_rows_not_found json_Unmarshal_small heap_order
             (GetAccountReq foreign_account_request) two_tenants_world).
    exists 1%N. split; [vm_compute; reflexivity|].
    exists 8%N. split; [vm_compute; reflexivity|].
    assert (Hall : forallb (fun row => negb (Account.ID row =? 8)%N
                                       || negb (Account.TenantID row =? 1)%N)
                           (accounts (db two_tenants_world)) = true)
      by (vm_compute; reflexivity).
    rewrite forallb_forall in Hall.
    intros row Hin Hid Hten. specialize (Hall row Hin).
    rewrite Hid, Hten in Hall. discriminate Hall.
Defined.

(** ** Reference data *)

Lemma bytewise_total a b : bytewise a b = true \/ bytewise b a = true.
Proof. apply String.leb_total. Qed.

Lemma bytewise_le a b : bytewise a b = true <-> String_as_OT.lt a b \/ a = b.
Proof.
  unfold bytewise, String.leb.
  destruct (String.compare a b) eqn:Hc.
  - apply String_as_OT.cmp_eq in Hc. split; [right; exact Hc|reflexivity].
  - apply String_as_OT.cmp_lt in Hc. split; [left; exact Hc|reflexivity].
  - split; [discriminate|]. intros [Hlt| ->].
    + apply String_as_OT.cmp_lt in Hlt. unfold String_as_OT.cmp in Hlt. congruence.
    + assert (String.compare b b = Eq) by (apply String_as_OT.cmp_eq; reflexivity).
      congruence.
Qed.

Lemma bytewise_trans a b c :
  bytewise a b = true -> bytewise b c = true -> bytewise a c = true.
Proof.
  rewrite !bytewise_le. intros [Hab| ->] [Hbc| ->]; auto.
  left. eapply String_as_OT.lt_trans; eassumption.
Qed.

Section ReferenceProofs.

Variable E : SqlEngine.
Variable collate : string -> string -> bool.

Lemma ListAccountTypes_cases ctx req w :
  ListAccountTypes (NewReferenceRepository E collate) ctx req w
  = if ctx_done ctx w
    then (inr (status_Errorf codes.Internal "failed to list account types"
                 (Wrapf "failed to list account types" ErrContext)), w)
    else (inl (pb_reference.mkListAccountTypesResponse
                 (map (fun at_ => pb_reference.mkAccountType (AccountType.ID at_)
                                    (AccountType.Code at_) (AccountType.Name at_)
                                    (AccountType.NormalBalance at_))
                      (order_by account_type_by_id (scan E _ (account_types (db w)))))),
          later 1 w).
Proof.
  unfold ListAccountTypes, NewReferenceRepository, ReferenceRepository_ListAccountTypes,
    Conn_Query, bind, orStatus, wrapf, ret, roundtrip, later.
  cbn [ReferenceRepo_ListAccountTypes]. destruct (ctx_done ctx w); reflexivity.
Qed.

Lemma ListCurrencies_cases ctx req w :
  ListCurrencies (NewReferenceRepository E collate) ctx req w
  = if ctx_done ctx w
    then (inr (status_Errorf codes.Internal "failed to list currencies"
                 (Wrapf "failed to list currencies" ErrContext)), w)
    else (inl (pb_reference.mkListCurrenciesResponse
                 (map (fun c => pb_reference.mkCurrency (Currency.ID c) (Currency.Code c)
                                  (Currency.Name c) (Currency.Symbol c)
                                  (Currency.Precision c))
                      (order_by (currency_by_code collate)
                         (scan E _ (currencies (db w)))))),
          later 1 w).
Proof.
  unfold ListCurrencies, NewReferenceRepository, ReferenceRepository_ListCurrencies,
    Conn_Query, bind, orStatus, wrapf, ret, roundtrip, later.
  cbn [ReferenceRepo_ListCurrencies]. destruct (ctx_done ctx w); reflexivity.
Qed.

End ReferenceProofs.

(** X14.  Whatever the scan order of the store, ListAccountTypes answers with
    every stored account type once, in ascending order of id, and
    ListCurrencies with every stored currency once, in the order of their
    codes under the collation of the column.  Neither takes a tenant nor
    changes the tables, and each fails, with [Internal] and the world as it
    was, exactly when the context is done. *)
Theorem reference_data_listed
  (E : SqlEngine) (collate : string -> string -> bool) (ctx : Context) (w : World) :
  (forall a b, collate a b = true \/ collate b a = true) ->
  (forall a b c, collate a b = true -> collate b c = true -> collate a c = true) ->
  exists (types : list AccountType.t) (money : list Currency.t) (msg msg' : string),
    Permutation types (account_types (db w)) /\
    StronglySorted (fun a b => AccountType.ID a <= AccountType.ID b) types /\
    Permutation money (currencies (db w)) /\
    StronglySorted (fun a b => collate (Currency.Code a) (Currency.Code b) = true) money /\
    ListAccountTypes (NewReferenceRepository E collate) ctx
      pb_reference.mkListAccountTypesRequest w
    = (if ctx_done ctx w then (inr (mkStatus codes.Internal msg), w)
       else (inl (pb_reference.mkListAccountTypesResponse
                    (map (fun at_ => pb_reference.mkAccountType (AccountType.ID at_)
                                       (AccountType.Code at_) (AccountType.Name at_)
                                       (AccountType.NormalBalance at_)) types)),
             later 1 w)) /\
    ListCurrencies (NewReferenceRepository E collate) ctx
      pb_reference.mkListCurrenciesRequest w
    = (if ctx_done ctx w then (inr (mkStatus codes.Internal msg'), w)
       else (inl (pb_reference.mkListCurrenciesResponse
                    (map (fun c => pb_reference.mkCurrency (Currency.ID c) (Currency.Code c)
                                     (Currency.Name c) (Currency.Symbol c)
                                     (Currency.Precision c)) money)),
             later 1 w)).
Proof.
  intros Htotal Htrans.
  exists (order_by account_type_by_id (scan E _ (account_types (db w)))),
         (order_by (currency_by_code collate) (scan E _ (currencies (db w)))).
  eexists _, _.
  split; [|split; [|split; [|split; [|split]]]].
  - etransitivity; [apply order_by_perm|apply scan_perm].
  - eapply StronglySorted_impl; [|apply (order_by_sorted account_type_by_id)].
    + intros a b Hab. unfold account_type_by_id in Hab. apply Z.leb_le. exact Hab.
    + intros a b. unfold account_type_by_id. rewrite !Z.leb_le. lia.
    + intros a b c. unfold account_type_by_id. rewrite !Z.leb_le. lia.
  - etransitivity; [apply order_by_perm|apply scan_perm].
  - apply (order_by_sorted (currency_by_code collate)).
    + intros a b. apply Htotal.
    + intros a b c. apply Htrans.
  - rewrite ListAccountTypes_cases. unfold status_Errorf. reflexivity.
  - rewrite ListCurrencies_cases. unfold status_Errorf. reflexivity.
Qed.

Lemma reference_data_listed_witness :
  (exists (types : list AccountType.t) (money : list Currency.t) (msg msg' : string),
     Permutation types (account_types (db reference_world)) /\
     StronglySorted (fun a b => AccountType.ID a <= AccountType.ID b) types /\
     Permutation money (currencies (db reference_world)) /\
     StronglySorted (fun a b => bytewise (Currency.Code a) (Currency.Code b) = true) money /\
     ListAccountTypes (NewReferenceRepository reverse_order bytewise) None
       pb_reference.mkListAccountTypesRequest reference_world
     = (if ctx_done None reference_world then (inr (mkStatus codes.Internal msg), reference_world)
        else (inl (pb_reference.mkListAccountTypesResponse
                     (map (fun at_ => pb_reference.mkAccountType (AccountType.ID at_)
                                        (AccountType.Code at_) (AccountType.Name at_)
                                        (AccountType.NormalBalance at_)) types)),
              later 1 reference_world)) /\
     ListCurrencies (NewReferenceRepository reverse_order bytewise) None
       pb_reference.mkListCurrenciesRequest reference_world
     = (if ctx_done None reference_world
        then (inr (mkStatus codes.Internal msg'), reference_world)
        else (inl (pb_reference.mkListCurrenciesResponse
                     (map (fun c => pb_reference.mkCurrency (Currency.ID c)
                                      (Currency.Code c) (Currency.Name c)
                                      (Currency.Symbol c) (Currency.Precision c)) money)),
              later 1 reference_world))) /\
  fst (ListCurrencies (NewReferenceRepository reverse_order bytewise) None
         pb_reference.mkListCurrenciesRequest reference_world)
  = inl (pb_reference.mkListCurrenciesResponse
           [pb_reference.mkCurrency 2 "EUR" "Euro" "E" 2;
            pb_reference.mkCurrency 1 "USD" "US Dollar" "$" 2]) /\
  fst (ListAccountTypes (NewReferenceRepository heap_order bytewise) None
         pb_reference.mkListAccountTypesRequest reference_world)
  = inl (pb_reference.mkListAccountTypesResponse
           [pb_reference.mkAccountType 1 "ASSET" "Asset" "DEBIT";
            pb_reference.mkAccountType 4 "REVENUE" "Revenue" "CREDIT"]).
Proof.
  split; [|split; vm_compute; reflexivity].
  apply (reference_data_listed reverse_order bytewise None reference_world).
  - apply bytewise_total.
  - apply bytewise_trans.
Defined.

(** ** ListJournalEntries without account filter *)

Lemma list_selection_all (E : SqlEngine) T fromDate toDate tb e :
  In e (list_selection E T None fromDate toDate tb) <->
  In e (journal_entries tb) /\ JournalEntryRow.tenant_id e = T /\
  within_dates fromDate toDate e.
Proof.
  unfold list_selection, from_journal_entries.
  rewrite filter_In, date_filters_spec, scan_In, filter_In.
  unfold policy_journal_entries. rewrite N.eqb_eq. tauto.
Qed.

(** X15.  A successful ListJournalEntries call without account filter answers
    with a page (limit and offset as clamped) of the list [matching] of the
    tenant's entries whose entry date lies within the inclusive bounds:
    [matching] holds each such stored entry once, ordered by entry date
    descending, then creation time descending; the total count is the number
    of distinct entry ids in [matching]; and no response carries more than
    100 entries.  The line queries of List are taken to run as written, one
    per row of the listing. *)
Theorem entries_listed_newest_first
  (E : SqlEngine) (ctx : Context) (req : pb.ListJournalEntriesRequest)
  (w w' : World) (T : UUID) (resp : pb.ListJournalEntriesResponse) :
  uuid.Parse (pb.ListJournalEntries_TenantId req) = Some T ->
  pb.ListJournalEntries_AccountId req = None ->
  is_int32 (pb.ListJournalEntries_Page req) ->
  ListJournalEntries (ledger E) ctx req w = (inl resp, w') ->
  exists (matching : list JournalEntryRow.t) (entries : list JournalEntry.t),
    (forall e, In e matching <->
               In e (journal_entries (db w)) /\
               JournalEntryRow.tenant_id e = T /\
               within_dates (pb.ListJournalEntries_FromDate req)
                            (pb.ListJournalEntries_ToDate req) e) /\
    NoDup matching /\
    StronglySorted newest_first matching /\
    pb.ListJournalEntriesResponse_JournalEntries resp = map journalEntryToProto entries /\
    map entry_header entries
    = firstn (Z.to_nat (spec_page_size (pb.ListJournalEntries_PageSize req)))
        (skipn (Z.to_nat (spec_offset (pb.ListJournalEntries_Page req)
                                      (pb.ListJournalEntries_PageSize req)))
               matching) /\
    pb.ListJournalEntriesResponse_TotalCount resp
    = int32 (Z.of_nat (List.length
                         (nodup uuid_eq_dec (map JournalEntryRow.id matching)))) /\
    (List.length (pb.ListJournalEntriesResponse_JournalEntries resp) <= 100)%nat.
Proof.
  intros Ht Hf Hp H.
  assert (Hf' : parse_account_filter (pb.ListJournalEntries_AccountId req) = Some None)
    by (rewrite Hf; reflexivity).
  rewrite (ListJournalEntries_parsed (ledger E) ctx req w T None Ht Hf' Hp) in H.
  cbn [ledger journalRepo NewJournalRepository JournalRepo_List] in H.
  destruct (JournalRepository_List E ctx T None _ _ _ _ w)
    as [[[entries total]|err] w1] eqn:Hl; [|discriminate].
  injection H as <- _.
  pose proof (spec_page_size_range (pb.ListJournalEntries_PageSize req)) as Hsize.
  apply JournalRepository_List_inl in Hl; [|lia|apply spec_offset_nonneg].
  destruct Hl as [Hpage Htotal].
  set (sel := list_selection E T None (pb.ListJournalEntries_FromDate req)
                (pb.ListJournalEntries_ToDate req) (db w)) in *.
  set (matching := order_by entry_newest_first (nodup JournalEntryRow_eq_dec sel)) in *.
  assert (Hin : forall e, In e matching <-> In e sel).
  { intros e. unfold matching. rewrite <- (nodup_In JournalEntryRow_eq_dec sel e).
    split; apply Permutation_in;
      [apply order_by_perm|apply Permutation_sym, order_by_perm]. }
  assert (Hnd : NoDup matching).
  { unfold matching. eapply Permutation_NoDup;
      [apply Permutation_sym, order_by_perm|apply NoDup_nodup]. }
  assert (Hcount : List.length (nodup uuid_eq_dec (map JournalEntryRow.id sel))
                   = List.length (nodup uuid_eq_dec (map JournalEntryRow.id matching))).
  { apply nodup_length_same_elements. intros x. rewrite !in_map_iff.
    split; intros (e & He & Hine); exists e; (split; [exact He|]); apply Hin; exact Hine. }
  exists matching, entries.
  split; [intros e; rewrite Hin; apply list_selection_all|].
  split; [exact Hnd|].
  split.
  { unfold matching.
    eapply StronglySorted_impl;
      [|apply (order_by_sorted entry_newest_first entry_newest_first_total
                 entry_newest_first_trans)].
    intros x y Hxy. apply entry_newest_first_spec. exact Hxy. }
  split; [reflexivity|].
  split; [exact Hpage|].
  split.
  { cbn [pb.ListJournalEntriesResponse_TotalCount]. rewrite Htotal, int32_int64, Hcount.
    reflexivity. }
  cbn [pb.ListJournalEntriesResponse_JournalEntries].
  rewrite length_map, <- (length_map entry_header), Hpage, length_firstn. lia.
Qed.

Lemma entries_listed_newest_first_witness :
  exists (resp : pb.ListJournalEntriesResponse) (w' : World),
    ListJournalEntries (ledger heap_order) None second_entry_request
      (two_entries_world heap_order) = (inl resp, w') /\
    map pb.Entry_JournalEntryId (pb.ListJournalEntriesResponse_JournalEntries resp)
    = [posted_entry_id] /\
    exists (matching : list JournalEntryRow.t) (entries : list JournalEntry.t),
      (forall e, In e matching <->
                 In e (journal_entries (db (two_entries_world heap_order))) /\
                 JournalEntryRow.tenant_id e = 1%N /\
                 within_dates (Some 0) None e) /\
      NoDup matching /\
      StronglySorted newest_first matching /\
      pb.ListJournalEntriesResponse_JournalEntries resp = map journalEntryToProto entries /\
      map entry_header entries
      = firstn (Z.to_nat (spec_page_size 1)) (skipn (Z.to_nat (spec_offset 2 1)) matching) /\
      pb.ListJournalEntriesResponse_TotalCount resp
      = int32 (Z.of_nat (List.length
                           (nodup uuid_eq_dec (map JournalEntryRow.id matching)))) /\
      (List.length (pb.ListJournalEntriesResponse_JournalEntries resp) <= 100)%nat.
Proof.
  eexists _, _. split; [vm_compute; reflexivity|].
  split; [vm_compute; reflexivity|].
  eapply (entries_listed_newest_first heap_order None second_entry_request
            (two_entries_world heap_order)).
  - vm_compute. reflexivity.
  - reflexivity.
  - unfold is_int32. cbn. lia.
  - vm_compute. reflexivity.
Defined.

(** ** Creations that commit before they answer *)

Section CommitThenRead.

Variable E : SqlEngine.

Lemma TenantRepository_Create_cases ctx name w :
  (exists e, TenantRepository_Create E ctx name w = (inr e, w))
  \/
  TenantRepository_Create E ctx name w
  = TenantRepository_GetByID E ctx (next_uuid w)
      (mkWorld
         (mkTables (tenants (db w) ++ [Tenant.mk (next_uuid w) name (clock w + 1) (clock w + 1)])
            (account_types (db w)) (currencies (db w)) (accounts (db w))
            (account_balances (db w)) (journal_entries (db w))
            (journal_entry_lines (db w)))
         (next_uuid w + 1)%N (clock w + 1)).
Proof.
  remember (TenantRepository_Create E ctx name w) as r eqn:Hr.
  unfold TenantRepository_Create in Hr. unfold bind at 1 in Hr. unfold wrapf at 1 in Hr.
  unfold bind at 1 in Hr.
  destruct (roundtrip_cases ctx w) as [[Hd Hrt]|[Hd Hrt]]; rewrite Hrt in Hr; clear Hrt.
  - left. eexists. exact Hr.
  - right. unfold create_tenant in Hr. cbn [db next_uuid clock] in Hr. exact Hr.
Qed.

Lemma TenantRepository_GetByID_found ctx id w w' r :
  TenantRepository_GetByID E ctx id w = (r, w') ->
  (exists t, In t (tenants (db w)) /\ Tenant.ID t = id) ->
  ctx_done ctx w' = false ->
  exists t, r = inl t.
Proof.
  intros H (t & Hin & Hid) Hnd.
  unfold TenantRepository_GetByID, Conn_QueryRow, bind, wrapf in H.
  destruct (roundtrip_cases ctx w) as [[Hd Hrt]|[Hd Hrt]]; rewrite Hrt in H; clear Hrt.
  { injection H as _ <-. congruence. }
  cbn [db] in H.
  destruct (first_row_found (filter (fun t0 => (Tenant.ID t0 =? id)%N)
                                    (from_tenants E (db w))) t) as [row Hrow].
  { apply filter_In. split; [unfold from_tenants; apply scan_In; exact Hin|].
    apply N.eqb_eq. exact Hid. }
  rewrite Hrow in H. injection H as <- _. eexists. reflexivity.
Qed.

Lemma AccountRepository_GetByID_found ctx T id w w' r :
  AccountRepository_GetByID E ctx T id w = (r, w') ->
  (exists a, In a (accounts (db w)) /\ Account.ID a = id /\ Account.TenantID a = T) ->
  ctx_done ctx w' = false ->
  exists a, r = inl a.
Proof.
  intros H (a & Hin & Hid & Ht) Hnd.
  unfold AccountRepository_GetByID, DB_WithTenant, pool_Acquire, defer, Conn_Release,
    Conn_QueryRow, bind, wrapf, ret in H.
  destruct (roundtrip_cases ctx w) as [[Hd Hrt]|[Hd Hrt]]; rewrite Hrt in H; clear Hrt.
  { injection H as _ <-. congruence. }
  cbn in H.
  match type of H with context [roundtrip ctx ?x] =>
    destruct (roundtrip_cases ctx x) as [[Hd1 Hrt]|[Hd1 Hrt]]; rewrite Hrt in H; clear Hrt end.
  { injection H as _ <-. congruence. }
  cbn in H.
  match type of H with context [roundtrip ctx ?x] =>
    destruct (roundtrip_cases ctx x) as [[Hd2 Hrt]|[Hd2 Hrt]]; rewrite Hrt in H; clear Hrt end.
  { injection H as _ <-. congruence. }
  cbn in H.
  destruct (first_row_found (filter (fun a0 => (Account.ID a0 =? id)%N)
                                    (from_accounts E T (db w))) a) as [row Hrow].
  { apply filter_In. split.
    - unfold from_accounts. apply scan_In. apply filter_In. split; [exact Hin|].
      unfold policy_accounts. rewrite Ht. apply N.eqb_refl.
    - rewrite Hid. apply N.eqb_refl. }
  rewrite Hrow in H. cbn in H. injection H as <- _. eexists. reflexivity.
Qed.

Lemma TenantRepository_Create_reported ctx name w w' r :
  TenantRepository_Create E ctx name w = (r, w') ->
  db w' <> db w ->
  (ctx_done ctx w' = false -> exists t, r = inl t) /\
  (forall e, r = inr e -> ctx_done ctx w' = true).
Proof.
  intros H Hcommit.
  destruct (TenantRepository_Create_cases ctx name w) as [(e & Hc)|Hc]; rewrite Hc in H.
  { injection H as _ <-. congruence. }
  assert (Hfound : ctx_done ctx w' = false -> exists t, r = inl t).
  { intros Hnd. eapply TenantRepository_GetByID_found; [exact H| |exact Hnd].
    eexists. split; [cbn; apply in_or_app; right; left; reflexivity|reflexivity]. }
  split; [exact Hfound|].
  intros e ->. destruct (ctx_done ctx w') eqn:Hd; [reflexivity|].
  destruct (Hfound eq_refl) as [t Ht]. discriminate Ht.
Qed.

Lemma AccountRepository_Create_reported ctx T p w w' r :
  AccountRepository_Create E ctx T p w = (r, w') ->
  db w' <> db w ->
  (ctx_done ctx w' = false -> exists a, r = inl a) /\
  (forall e, r = inr e -> ctx_done ctx w' = true).
Proof.
  intros H Hcommit.
  destruct (AccountRepository_Create_cases E ctx T p w)
    as [(e & w1 & Hc & Hs)|(id & tb & ids & Hproc & Hc)]; rewrite Hc in H; clear Hc.
  { injection H as _ <-. destruct Hs as (Hd & _). congruence. }
  apply create_account_inl in Hproc. destruct Hproc as (-> & -> & ->).
  assert (Hfound : ctx_done ctx w' = false -> exists a, r = inl a).
  { intros Hnd. eapply AccountRepository_GetByID_found; [exact H| |exact Hnd].
    eexists. split; [cbn; apply in_or_app; right; left; reflexivity|].
    split; reflexivity. }
  split; [exact Hfound|].
  intros e ->. destruct (ctx_done ctx w') eqn:Hd; [reflexivity|].
  destruct (Hfound eq_refl) as [a Ha]. discriminate Ha.
Qed.

End CommitThenRead.

(** X16.  CreateTenant and CreateAccount store their row before they read it
    back for the answer.  With the stored procedures as the schema's
    documentation describes them: when such a call has changed the tables,
    it reports success provided the context is still live when it returns;
    an error it reports is [Internal], the re-read having been refused
    because the context was done, and the row stays stored. *)
Theorem committed_rows_reported (E : SqlEngine) (ctx : Context) (w w' : World) :
  db w' <> db w ->
  (forall req r,
     CreateTenant (ledger E) ctx req w = (r, w') ->
     (ctx_done ctx w' = false -> exists resp, r = inl resp) /\
     (forall st, r = inr st -> Code st = codes.Internal /\ ctx_done ctx w' = true)) /\
  (forall req r,
     CreateAccount (ledger E) ctx req w = (r, w') ->
     (ctx_done ctx w' = false -> exists resp, r = inl resp) /\
     (forall st, r = inr st -> Code st = codes.Internal /\ ctx_done ctx w' = true)).
Proof.
  intros Hcommit. split.
  - intros req r H. unfold CreateTenant, bind, require, orStatus, ret, fail in H.
    destruct (negb (String.eqb (pb.CreateTenant_Name req) ""));
      [|injection H as _ <-; congruence].
    cbn [ledger tenantRepo NewTenantRepository TenantRepo_Create] in H.
    destruct (TenantRepository_Create E ctx (pb.CreateTenant_Name req) w)
      as [[t|e] w1] eqn:Hc; injection H as <- <-;
      destruct (TenantRepository_Create_reported E ctx _ w w1 _ Hc Hcommit) as [Hok Herr].
    + split; [intros _; eexists; reflexivity|intros st Hst; discriminate Hst].
    + split.
      * intros Hnd. destruct (Hok Hnd) as [t Ht]. discriminate Ht.
      * intros st Hst. injection Hst as <-. split; [reflexivity|]. eapply Herr. reflexivity.
  - intros req r H. unfold CreateAccount, bind, parsed, require, orStatus, ret, fail in H.
    destruct (uuid.Parse (pb.CreateAccount_TenantId req)) as [T|];
      [|injection H as _ <-; congruence].
    destruct (negb (String.eqb (pb.CreateAccount_AccountNumber req) ""));
      [|injection H as _ <-; congruence].
    destruct (negb (String.eqb (pb.CreateAccount_Name req) ""));
      [|injection H as _ <-; congruence].
    cbn [ledger accountRepo NewAccountRepository AccountRepo_Create] in H.
    assert (Hgen : forall p,
               (let (s, w1) := match AccountRepository_Create E ctx T p w with
                               | (inl a, w1) => (inl a, w1)
                               | (inr e, w1) =>
                                   (inr (status_Errorf codes.Internal
                                           "failed to create account" e), w1)
                               end in
                match s with
                | inl a =>
                    (inl (pb.mkCreateAccountResponse
                            (uuid.String (Account.ID a)) (uuid.String (Account.TenantID a))
                            (Account.AccountNumber a) (Account.Name a)
                            (Account.CreatedAt a)), w1)
                | inr e => (inr e, w1)
                end) = (r, w') ->
               (ctx_done ctx w' = false -> exists resp, r = inl resp) /\
               (forall st, r = inr st ->
                           Code st = codes.Internal /\ ctx_done ctx w' = true)).
    { intros p Hx.
      destruct (AccountRepository_Create E ctx T p w) as [[a|e] w1] eqn:Hc;
        injection Hx as <- <-;
        destruct (AccountRepository_Create_reported E ctx T p w w1 _ Hc Hcommit)
          as [Hok Herr].
      - split; [intros _; eexists; reflexivity|intros st Hst; discriminate Hst].
      - split.
        + intros Hnd. destruct (Hok Hnd) as [a Ha]. discriminate Ha.
        + intros st Hst. injection Hst as <-. split; [reflexivity|].
          eapply Herr. reflexivity. }
    destruct (pb.CreateAccount_ParentAccountId req) as [text|].
    + destruct (uuid.Parse text) as [parent|]; [|injection H as _ <-; congruence].
      eapply Hgen. exact H.
    + eapply Hgen. exact H.
Qed.

Lemma committed_rows_reported_witness :
  exists (st : Status) (w' : World),
    CreateAccount (ledger heap_order) (Some 23) bank_account_request (acme_world heap_order)
    = (inr st, w') /\
    List.length (accounts (db w')) = 3%nat /\
    List.length (accounts (db (acme_world heap_order))) = 2%nat /\
    Code st = codes.Internal /\ ctx_done (Some 23) w' = true.
Proof.
  assert (H : exists st w',
             CreateAccount (ledger heap_order) (Some 23) bank_account_request
               (acme_world heap_order) = (inr st, w') /\
             List.length (accounts (db w')) = 3%nat /\
             List.length (accounts (db (acme_world heap_order))) = 2%nat).
  { eexists _, _. split; [vm_compute; reflexivity|]. split; vm_compute; reflexivity. }
  destruct H as (st & w' & Hc & Hlen & Hlen0).
  exists st, w'. split; [exact Hc|]. split; [exact Hlen|]. split; [exact Hlen0|].
  apply (proj2 (proj2 (committed_rows_reported heap_order (Some 23)
                         (acme_world heap_order) w'
                         ltac:(intros Heq; rewrite Heq, Hlen0 in Hlen; discriminate Hlen))
                  bank_account_request (inr st) Hc) st eq_refl).
Defined.

